(** * smfc: fan controller for Super Micro boards -- control engine

    A shallow embedding of [smfc.py]: the zone controller
    ([FanController], [CpuZone], [HdZone]), the standby guard and the
    main loop, with the properties of the design document stated over it.

    Numbers.  Python [int] is [Z].  Python [float] (temperatures, times,
    the two step sizes) is modelled by the exact rationals [Q]: every
    comparison, [abs], [+], [-], [*] and [/] of the source is the
    corresponding operation of [Q], and [round] is round-half-to-even as
    in Python 3.  Rounding error of binary floating point is outside
    this model. *)

From Stdlib Require Import ZArith QArith Qround Qabs List String Ascii Bool Lia.
From Stdlib Require Import DecimalString Lqa.
Import ListNotations.

Open Scope Z_scope.

(** ** Python values and control *)

Module Py.

(** The exceptions the program raises or lets through. *)
Inductive exn : Type :=
| ValueError (msg : string)
| IOError (path : string)
| FileNotFoundError (path : string)
| ZeroDivisionError
| IndexError
| Exception (msg : string) (code : Z)
| SystemExit (code : Z).

Inductive res (A : Type) : Type :=
| Ok (a : A)
| Raise (e : exn).
Arguments Ok {A} a.
Arguments Raise {A} e.

(** The result is a configuration error: a ValueError. *)
Definition config_error {A} (r : res A) : Prop :=
  exists msg, r = Raise (ValueError msg).

(** [a < b], [a <= b] on floats, as booleans. *)
Definition Qleb (a b : Q) : bool := Qle_bool a b.
Definition Qltb (a b : Q) : bool := negb (Qle_bool b a).

(** [min(a, b)] on floats. *)
Definition min (a b : Q) : Q := if Qltb b a then b else a.

(** [round(x)] of Python 3 on a float: nearest integer, ties to the
    even one. *)
Definition round (x : Q) : Z :=
  let f := Qfloor x in
  match Qcompare (x - inject_Z f) (1 # 2) with
  | Lt => f
  | Gt => f + 1
  | Eq => if Z.even f then f else f + 1
  end.

(** [l[i] = v]; out of range is an IndexError. *)
Fixpoint list_assign {A} (l : list A) (i : nat) (v : A) : res (list A) :=
  match l, i with
  | [], _ => Raise IndexError
  | _ :: rest, O => Ok (v :: rest)
  | x :: rest, S j =>
      match list_assign rest j v with
      | Ok rest' => Ok (x :: rest')
      | Raise e => Raise e
      end
  end.

(** [l[i]]; out of range is an IndexError. *)
Definition list_item {A} (l : list A) (i : nat) : res A :=
  match nth_error l i with
  | Some x => Ok x
  | None => Raise IndexError
  end.

(** [needle in s] on strings. *)
Fixpoint contains (needle s : string) : bool :=
  if String.prefix needle s then true
  else match s with
       | EmptyString => false
       | String _ rest => contains needle rest
       end.

(** [int(x)] on a float: truncation toward zero. *)
Definition int (x : Q) : Z := Z.quot (Qnum x) (Zpos (Qden x)).

(** [str(i)] for a loop index. *)
Definition str (i : nat) : string := NilEmpty.string_of_uint (Nat.to_uint i).

(** [os.path.basename]: what follows the last slash. *)
Fixpoint basename_from (acc s : string) : string :=
  match s with
  | EmptyString => acc
  | String c rest =>
      if Ascii.eqb c "/"%char then basename_from EmptyString rest
      else basename_from (acc ++ String c EmptyString)%string rest
  end.
Definition basename (s : string) : string := basename_from EmptyString s.

(** [os.path.join(a, b, c)] for relative [b] and [c]. *)
Definition join3 (a b c : string) : string :=
  (a ++ "/" ++ b ++ "/" ++ c)%string.

(** [l.index(x)]: the first position of [x], if any. *)
Fixpoint index (x : string) (l : list string) : option nat :=
  match l with
  | [] => None
  | y :: rest =>
      if String.eqb y x then Some O
      else match index x rest with
           | Some i => Some (S i)
           | None => None
           end
  end.

End Py.

Import Py.

(** ** What the program does to the outside, and what it sees of it *)

(** The text of a log line, with the values the source formats into it. *)
Inductive log_text : Type :=
| TxtInit (name : string)                    (* '{name} fan controller was initialized with:' *)
| TxtParamZ (key : string) (v : Z)           (* '   key = v' *)
| TxtParamQ (key : string) (v : Q)
| TxtParamPaths (key : string) (v : list string)
| TxtParamStr (key : string) (v : string)
| TxtMappingHead                             (* '   Temperature:level mapping:' *)
| TxtMappingRow (i : Z) (temp : Q) (level : Z)
| TxtNewTemperature (name : string) (temp : Q)
| TxtNewLevel (name : string) (temp step_temp : Q) (level : Z)
| TxtGuardOffCount1                          (* 'Standby guard is disabled << [HD zone] count=1' *)
| TxtGuardEnabled
| TxtGuardDisabled
| TxtActiveToStandby (hours : Q) (states : string)
| TxtStandbyToActive (hours : Q) (states : string)
| TxtNoController
| TxtMainWait (wait : Q).

(** One observable action: a call of [log.msg], an [ipmitool] fan-level
    command that was run, a [smartctl -s standby,now] command that was
    run, a [time.sleep]. *)
Inductive event : Type :=
| EvLog (level : Z) (text : log_text)
| EvFanLevel (zone level : Z)
| EvStandby (device : string)
| EvSleep (secs : Q).

Definition is_fan_write (e : event) : bool :=
  match e with EvFanLevel _ _ => true | _ => false end.

Definition is_standby_write (e : event) : bool :=
  match e with EvStandby _ => true | _ => false end.

(** The severities are those of [Log]: 1 is LOG_ERROR, 2 is LOG_INFO and
    3 is LOG_DEBUG. *)
Definition is_error_log (e : event) : bool :=
  match e with EvLog level _ => level =? 1 | _ => false end.

Definition not_error (e : event) : bool := negb (is_error_log e).

(** Neither a fan-level write nor an error line. *)
Definition quiet (e : event) : bool :=
  negb (is_fan_write e) && negb (is_error_log e).

Definition is_debug_log (e : event) : bool :=
  match e with EvLog level _ => level =? 3 | _ => false end.

(** The notice that the standby guard is off because there is one disk. *)
Definition is_guard_notice (e : event) : bool :=
  match e with
  | EvLog level TxtGuardOffCount1 => level =? 2
  | _ => false
  end.

Definition fan_writes (tr : list event) : list event := filter is_fan_write tr.
Definition standby_writes (tr : list event) : list event := filter is_standby_write tr.

(** A finished [subprocess.run]: return code and captured stdout. *)
Record CompletedProcess : Type := {
  returncode : Z;
  stdout : string
}.

(** The answers of the outside world during one call ([__init__], or one
    [run]).  A file is read at most once and a disk asked at most once
    per call, so functions of the path are enough. *)
Record Env : Type := {
  (* time.monotonic() as read by FanController.__init__ / FanController.run *)
  monotonic : Q;
  (* time.monotonic() as read by HdZone.__init__ / run_standby_guard *)
  monotonic_guard : Q;
  (* open(path).read() then float(): the raw value, or the exception *)
  read_float : string -> res Q;
  (* the ipmitool binary can be executed *)
  ipmitool_found : bool;
  (* smartctl -i -n standby <device> *)
  smartctl_check : string -> res CompletedProcess;
  (* smartctl -s standby,now <device> *)
  smartctl_standby : string -> res CompletedProcess;
  (* glob.glob, os.path.isfile, os.path.islink, os.readlink, os.listdir *)
  glob : string -> list string;
  isfile : string -> bool;
  islink : string -> bool;
  readlink : string -> string;
  listdir : string -> list string
}.

(** ** Computations: state, exceptions that keep the state, a trace *)

Module M.

(** A method body over an object of type [St]: it may return or raise,
    and either way the assignments made so far stay in the object and
    the actions performed so far stay performed. *)
Definition t (St A : Type) : Type := St -> res A * St * list event.

Definition ret {St A} (a : A) : t St A := fun s => (Ok a, s, []).

Definition bind {St A B} (c : t St A) (k : A -> t St B) : t St B :=
  fun s =>
    match c s with
    | (Ok a, s1, tr1) =>
        match k a s1 with
        | (r, s2, tr2) => (r, s2, tr1 ++ tr2)
        end
    | (Raise e, s1, tr1) => (Raise e, s1, tr1)
    end.

Definition raise {St A} (e : exn) : t St A := fun s => (Raise e, s, []).
Definition get {St} : t St St := fun s => (Ok s, s, []).
Definition put {St} (s : St) : t St unit := fun _ => (Ok tt, s, []).
Definition modify {St} (f : St -> St) : t St unit := fun s => (Ok tt, f s, []).
Definition emit {St} (e : event) : t St unit := fun s => (Ok tt, s, [e]).

(** A value or exception that does not touch the object. *)
Definition of_res {St A} (r : res A) : t St A := fun s => (r, s, []).

(** [for x in xs: body(x)] *)
Fixpoint for_each {St A} (xs : list A) (body : A -> t St unit) : t St unit :=
  match xs with
  | [] => ret tt
  | x :: rest => bind (body x) (fun _ => for_each rest body)
  end.

(** A method run on the object [s] from a context that has none: its
    value and the object after it. *)
Definition on {St St' A} (s : St) (c : t St A) : t St' (A * St) :=
  fun u =>
    match c s with
    | (Ok a, s1, tr) => (Ok (a, s1), u, tr)
    | (Raise e, _, tr) => (Raise e, u, tr)
    end.

Definition result {St A} (x : res A * St * list event) : res A := fst (fst x).
Definition state {St A} (x : res A * St * list event) : St := snd (fst x).
Definition trace {St A} (x : res A * St * list event) : list event := snd x.

End M.

Notation "x <- c ;; k" := (M.bind c (fun x => k))
  (at level 61, c at next level, right associativity).
Notation "c ;;; k" := (M.bind c (fun _ => k))
  (at level 61, right associativity).

(** *** What a method leaves alone *)

(** [frames f ok c]: the method [c] never changes the part [f] of the
    object and performs only actions accepted by [ok], whether it
    returns or raises. *)
Definition frames {St A X} (f : St -> X) (ok : event -> bool) (c : M.t St A) : Prop :=
  forall s, f (M.state (c s)) = f s /\ forallb ok (M.trace (c s)) = true.

(** [range(n)] *)
Definition range (n : Z) : list nat := seq 0 (Z.to_nat n).

(** ** Log *)

Module Log.

Definition LOG_NONE : Z := 0.
Definition LOG_ERROR : Z := 1.
Definition LOG_INFO : Z := 2.
Definition LOG_DEBUG : Z := 3.

Record t : Type := { log_level : Z; log_output : Z }.

(** [log.msg(level, text)]: the call is the event; whether the line is
    printed is [printed]. *)
Definition msg {St} (level : Z) (text : log_text) : M.t St unit :=
  M.emit (EvLog level text).

(** The test of [msg_to_stdout], [msg_to_stderr] and [msg_to_syslog]. *)
Definition printed (log : t) (level : Z) : bool :=
  negb (level =? LOG_NONE) && (level <=? log_level log).

End Log.

(** ** Ipmi *)

Module Ipmi.

Definition CPU_ZONE : Z := 0.
Definition HD_ZONE : Z := 1.

Record t : Type := {
  command : string;
  fan_mode_delay : Z;
  fan_level_delay : Z
}.

Definition set_fan_level {St} (ipmi : t) (env : Env) (zone level : Z) : M.t St unit :=
  if negb ((zone =? CPU_ZONE) || (zone =? HD_ZONE)) then
    M.raise (ValueError "Invalid value: zone")
  else if negb ((0 <=? level) && (level <? 101)) then
    M.raise (ValueError "Invalid value: level")
  else if negb (ipmitool_found env) then
    M.raise (FileNotFoundError (command ipmi))
  else
    M.emit (EvFanLevel zone level) ;;;
    M.emit (EvSleep (inject_Z (fan_level_delay ipmi))).

End Ipmi.

(** ** The configuration file, parsed *)

Module Config.

(** A section of the configuration: each key is absent ([None]) or
    holds its parsed value.  For the keys [hwmon_path] and [hd_names],
    [None] also stands for an empty string, and [Some l] for a string
    that [splitlines()] or [split()] cuts into [l]. *)
Record section : Type := {
  enabled : option bool;
  count : option Z;
  temp_calc : option Z;
  steps : option Z;
  sensitivity : option Q;
  polling : option Q;
  min_temp : option Q;
  max_temp : option Q;
  min_level : option Z;
  max_level : option Z;
  hwmon_path : option (list string);
  hd_names : option (list string);
  standby_guard_enabled : option bool;
  standby_hd_limit : option Z;
  smartctl_path : option string
}.

(** [section.get...(key, fallback=d)] *)
Definition fallback {A} (o : option A) (d : A) : A :=
  match o with Some v => v | None => d end.

End Config.

(** ** FanController: the generic zone controller *)

Module FanController.

Definition CALC_MIN : Z := 0.
Definition CALC_AVG : Z := 1.
Definition CALC_MAX : Z := 2.

(** The bound method stored in [get_temp_func]. *)
Inductive temp_method : Type :=
| Get1Temp
| GetMinTemp
| GetAvgTemp
| GetMaxTemp.

Record t : Type := {
  log : Log.t;
  ipmi : Ipmi.t;
  ipmi_zone : Z;
  name : string;
  count : Z;
  temp_calc : Z;
  steps : Z;
  sensitivity : Q;
  polling : Q;
  min_temp : Q;
  max_temp : Q;
  min_level : Z;
  max_level : Z;
  hwmon_path : list string;
  temp_step : Q;
  level_step : Q;
  last_time : Q;
  last_temp : Q;
  last_level : Z;
  get_temp_func : temp_method
}.

(** Assignments to the three attributes [run] writes. *)
Definition set_last_time (v : Q) (self : t) : t :=
  {| log := log self; ipmi := ipmi self; ipmi_zone := ipmi_zone self;
     name := name self; count := count self; temp_calc := temp_calc self;
     steps := steps self; sensitivity := sensitivity self;
     polling := polling self; min_temp := min_temp self;
     max_temp := max_temp self; min_level := min_level self;
     max_level := max_level self; hwmon_path := hwmon_path self;
     temp_step := temp_step self; level_step := level_step self;
     last_time := v; last_temp := last_temp self;
     last_level := last_level self; get_temp_func := get_temp_func self |}.

Definition set_last_temp (v : Q) (self : t) : t :=
  {| log := log self; ipmi := ipmi self; ipmi_zone := ipmi_zone self;
     name := name self; count := count self; temp_calc := temp_calc self;
     steps := steps self; sensitivity := sensitivity self;
     polling := polling self; min_temp := min_temp self;
     max_temp := max_temp self; min_level := min_level self;
     max_level := max_level self; hwmon_path := hwmon_path self;
     temp_step := temp_step self; level_step := level_step self;
     last_time := last_time self; last_temp := v;
     last_level := last_level self; get_temp_func := get_temp_func self |}.

Definition set_last_level (v : Z) (self : t) : t :=
  {| log := log self; ipmi := ipmi self; ipmi_zone := ipmi_zone self;
     name := name self; count := count self; temp_calc := temp_calc self;
     steps := steps self; sensitivity := sensitivity self;
     polling := polling self; min_temp := min_temp self;
     max_temp := max_temp self; min_level := min_level self;
     max_level := max_level self; hwmon_path := hwmon_path self;
     temp_step := temp_step self; level_step := level_step self;
     last_time := last_time self; last_temp := last_temp self;
     last_level := v; get_temp_func := get_temp_func self |}.

(** [a / b] on floats. *)
Definition div (a b : Q) : res Q :=
  if Qeq_bool b 0 then Raise ZeroDivisionError else Ok (a / b)%Q.

(** [float(f.read()) / 1000] for the file at [path]. *)
Definition read_temp (env : Env) (path : string) : res Q :=
  match read_float env path with
  | Ok raw => Ok (raw / 1000)%Q
  | Raise e => Raise e
  end.

Definition get_1_temp (env : Env) (self : t) : res Q :=
  match hwmon_path self with
  | [] => Raise IndexError
  | p :: _ => read_temp env p
  end.

(** The loop of [get_min_temp], from the running minimum. *)
Fixpoint min_loop (env : Env) (paths : list string) (minimum : Q) : res Q :=
  match paths with
  | [] => Ok minimum
  | i :: rest =>
      match read_temp env i with
      | Ok value =>
          min_loop env rest (if Qltb value minimum then value else minimum)
      | Raise e => Raise e
      end
  end.

Definition get_min_temp (env : Env) (self : t) : res Q :=
  min_loop env (hwmon_path self) 1000.

(** The loop of [get_avg_temp], from the running sum and counter. *)
Fixpoint avg_loop (env : Env) (paths : list string) (average : Q) (counter : Z)
  : res (Q * Z) :=
  match paths with
  | [] => Ok (average, counter)
  | i :: rest =>
      match read_temp env i with
      | Ok value => avg_loop env rest (average + value)%Q (counter + 1)
      | Raise e => Raise e
      end
  end.

Definition get_avg_temp (env : Env) (self : t) : res Q :=
  match avg_loop env (hwmon_path self) 0 0 with
  | Ok (average, counter) => div average (inject_Z counter)
  | Raise e => Raise e
  end.

(** The loop of [get_max_temp], from the running maximum. *)
Fixpoint max_loop (env : Env) (paths : list string) (maximum : Q) : res Q :=
  match paths with
  | [] => Ok maximum
  | i :: rest =>
      match read_temp env i with
      | Ok value =>
          max_loop env rest (if Qltb maximum value then value else maximum)
      | Raise e => Raise e
      end
  end.

Definition get_max_temp (env : Env) (self : t) : res Q :=
  max_loop env (hwmon_path self) (-1).

(** [self.get_temp_func()] *)
Definition call_get_temp_func (env : Env) (self : t) : res Q :=
  match get_temp_func self with
  | Get1Temp => get_1_temp env self
  | GetMinTemp => get_min_temp env self
  | GetAvgTemp => get_avg_temp env self
  | GetMaxTemp => get_max_temp env self
  end.

Definition set_fan_level {St} (env : Env) (self : t) (level : Z) : M.t St unit :=
  Ipmi.set_fan_level (ipmi self) env (ipmi_zone self) level.

(** Step 3 of [run]: [(current_gain, current_level)] for a temperature. *)
Definition gain_and_level (self : t) (current_temp : Q) : res (Z * Z) :=
  if Qleb current_temp (min_temp self) then
    Ok (0, min_level self)
  else if Qleb (max_temp self) current_temp then
    Ok (steps self, max_level self)
  else
    match div (current_temp - min_temp self) (temp_step self) with
    | Ok x =>
        let current_gain := round x in
        Ok (current_gain,
            round (inject_Z current_gain * level_step self) + min_level self)
    | Raise e => Raise e
    end.

(** The fan level the controller maps a temperature to. *)
Definition level (self : t) (temp : Q) : res Z :=
  match gain_and_level self temp with
  | Ok (_, l) => Ok l
  | Raise e => Raise e
  end.

(** *** Construction *)

Definition ERROR_MSG_FILE_IO : string := "Cannot read file".

(** The loop of [build_hwmon_path] over the entries: wildcards are
    expanded to the first match, and the file must exist. *)
Fixpoint resolve_paths (env : Env) (paths : list string) : res (list string) :=
  match paths with
  | [] => Ok []
  | p :: rest =>
      let expanded :=
        if contains "?" p || contains "*" p then
          match glob env p with
          | [] => Raise (ValueError ERROR_MSG_FILE_IO)
          | first :: _ => Ok first
          end
        else Ok p in
      match expanded with
      | Raise e => Raise e
      | Ok q =>
          if negb (isfile env q) then Raise (ValueError ERROR_MSG_FILE_IO)
          else match resolve_paths env rest with
               | Ok rest' => Ok (q :: rest')
               | Raise e => Raise e
               end
      end
  end.

(** [FanController.build_hwmon_path]; [current] is [self.hwmon_path]
    before the call, and the result is [self.hwmon_path] after it. *)
Definition build_hwmon_path (env : Env) (count : Z) (current : list string)
           (hwmon_str : option (list string)) : res (list string) :=
  match hwmon_str with
  | Some paths =>
      if negb (Z.of_nat (List.length paths) =? count) then
        Raise (ValueError "Inconsistent count and size of hwmon_path")
      else resolve_paths env paths
  | None => Ok current
  end.

Definition print_temp_level_mapping {St} (self : t) : M.t St unit :=
  Log.msg Log.LOG_DEBUG TxtMappingHead ;;;
  M.for_each (range (steps self + 1)) (fun i =>
    Log.msg Log.LOG_DEBUG
      (TxtMappingRow (Z.of_nat i)
         (min_temp self + inject_Z (Z.of_nat i) * temp_step self)%Q
         (int (inject_Z (min_level self)
               + inject_Z (Z.of_nat i) * level_step self)%Q))).

(** [FanController.__init__]; [build] is the [build_hwmon_path] of the
    class being constructed and [current] the [hwmon_path] the subclass
    has set before calling. *)
Definition init
           (build : Env -> Z -> list string -> option (list string) -> res (list string))
           (env : Env) (log : Log.t) (ipmi : Ipmi.t) (ipmi_zone : Z)
           (name : string) (count temp_calc steps : Z)
           (sensitivity polling min_temp max_temp : Q)
           (min_level max_level : Z) (current : list string)
           (hwmon_path : option (list string)) : M.t unit t :=
  if negb ((ipmi_zone =? Ipmi.CPU_ZONE) || (ipmi_zone =? Ipmi.HD_ZONE)) then
    M.raise (ValueError "invalid value: ipmi_zone")
  else if count <=? 0 then M.raise (ValueError "count <= 0")
  else if negb ((temp_calc =? CALC_MIN) || (temp_calc =? CALC_AVG)
                || (temp_calc =? CALC_MAX)) then
    M.raise (ValueError "invalid value: temp_calc")
  else if steps <=? 0 then M.raise (ValueError "steps <= 0")
  else if Qleb sensitivity 0 then M.raise (ValueError "sensitivity <= 0")
  else if Qltb polling 0 then M.raise (ValueError "polling < 0")
  else if Qltb max_temp min_temp then M.raise (ValueError "max_temp < min_temp")
  else if max_level <? min_level then M.raise (ValueError "max_level < min_level")
  else
    (* Set the proper temperature function. *)
    let func :=
      if count =? 1 then Get1Temp
      else if temp_calc =? CALC_MIN then GetMinTemp
      else if temp_calc =? CALC_MAX then GetMaxTemp
      else GetAvgTemp in
    (* Build hwmon_path list. *)
    paths <- M.of_res (build env count current hwmon_path) ;;
    (* Initialize calculated and measured values. *)
    let self :=
      {| log := log; ipmi := ipmi; ipmi_zone := ipmi_zone; name := name;
         count := count; temp_calc := temp_calc; steps := steps;
         sensitivity := sensitivity; polling := polling;
         min_temp := min_temp; max_temp := max_temp;
         min_level := min_level; max_level := max_level;
         hwmon_path := paths;
         temp_step := ((max_temp - min_temp) / inject_Z steps)%Q;
         level_step := (inject_Z (max_level - min_level) / inject_Z steps)%Q;
         last_time := (monotonic env - (polling + 1))%Q;
         last_temp := 0%Q;
         last_level := 0;
         get_temp_func := func |} in
    (* Check if temperature can be read successfully. *)
    (match hwmon_path with
     | Some _ => M.of_res (call_get_temp_func env self) ;;; M.ret tt
     | None => M.ret tt
     end) ;;;
    (* Print configuration at DEBUG log level. *)
    (if Log.LOG_DEBUG <=? Log.log_level log then
       Log.msg Log.LOG_DEBUG (TxtInit name) ;;;
       Log.msg Log.LOG_DEBUG (TxtParamZ "IPMI zone" ipmi_zone) ;;;
       Log.msg Log.LOG_DEBUG (TxtParamZ "count" count) ;;;
       Log.msg Log.LOG_DEBUG (TxtParamZ "temp_calc" temp_calc) ;;;
       Log.msg Log.LOG_DEBUG (TxtParamZ "steps" steps) ;;;
       Log.msg Log.LOG_DEBUG (TxtParamQ "sensitivity" sensitivity) ;;;
       Log.msg Log.LOG_DEBUG (TxtParamQ "polling" polling) ;;;
       Log.msg Log.LOG_DEBUG (TxtParamQ "min_temp" min_temp) ;;;
       Log.msg Log.LOG_DEBUG (TxtParamQ "max_temp" max_temp) ;;;
       Log.msg Log.LOG_DEBUG (TxtParamZ "min_level" min_level) ;;;
       Log.msg Log.LOG_DEBUG (TxtParamZ "max_level" max_level) ;;;
       Log.msg Log.LOG_DEBUG (TxtParamPaths "hwmon_path" paths) ;;;
       print_temp_level_mapping self
     else M.ret tt) ;;;
    M.ret self.

(** *** The temperatures read in one call, for the statements *)

(** [readings env paths vals]: every file of [paths] can be read and
    [vals] are the temperatures read, in order. *)
Definition readings (env : Env) (paths : list string) (vals : list Q) : Prop :=
  Forall2 (fun p v => read_temp env p = Ok v) paths vals.


(** *** Valid configurations *)

(** What [__init__] checks of the curve parameters and derives from
    them. *)
Record valid (self : t) : Prop := {
  valid_steps : 1 <= steps self;
  valid_temp : (min_temp self <= max_temp self)%Q;
  valid_level : min_level self <= max_level self;
  valid_temp_step :
    temp_step self = ((max_temp self - min_temp self) / inject_Z (steps self))%Q;
  valid_level_step :
    level_step self
    = (inject_Z (max_level self - min_level self) / inject_Z (steps self))%Q
}.

End FanController.

(** ** Zones: subclasses of FanController *)

(** A subclass: an object that contains a [FanController] and may
    override [callback_func]. *)
Class Zone (St : Type) : Type := {
  base : St -> FanController.t;
  set_base : FanController.t -> St -> St;
  callback_func : Env -> M.t St unit
}.

Section Run.

Context {St : Type} `{Zone St}.

Import FanController.

(** [FanController.run], inherited by every zone. *)
Definition run (env : Env) : M.t St unit :=
  self <- M.get ;;
  (* Step 1: check the elapsed time. *)
  let current_time := monotonic env in
  if Qltb (current_time - last_time (base self)) (polling (base self)) then
    M.ret tt
  else
    M.modify (fun s => set_base (set_last_time current_time (base s)) s) ;;;
    (* Step 2: read temperature and sensitivity gap. *)
    callback_func env ;;;
    self <- M.get ;;
    current_temp <- M.of_res (call_get_temp_func env (base self)) ;;
    Log.msg Log.LOG_DEBUG (TxtNewTemperature (name (base self)) current_temp) ;;;
    if Qltb (Qabs (current_temp - last_temp (base self))) (sensitivity (base self)) then
      M.ret tt
    else
      M.modify (fun s => set_base (set_last_temp current_temp (base s)) s) ;;;
      (* Step 3: calculate gain and fan level. *)
      gl <- M.of_res (gain_and_level (base self) current_temp) ;;
      let current_gain := fst gl in
      let current_level := snd gl in
      (* Step 4: the new fan level will be set and logged. *)
      if negb (current_level =? last_level (base self)) then
        M.modify (fun s => set_base (set_last_level current_level (base s)) s) ;;;
        set_fan_level env (base self) current_level ;;;
        Log.msg Log.LOG_INFO
          (TxtNewLevel (name (base self)) current_temp
             (min_temp (base self)
              + inject_Z current_gain * temp_step (base self))%Q
             current_level)
      else
        M.ret tt.

End Run.

(** *** CpuZone *)

Module CpuZone.

(** A CPU zone has no attribute of its own. *)
Definition t : Type := FanController.t.

(** [FanController.callback_func]: empty. *)
Definition callback_func (env : Env) : M.t t unit := M.ret tt.

Definition auto_path (i : nat) : string :=
  ("/sys/devices/platform/coretemp." ++ str i ++ "/hwmon/hwmon*/temp1_input")%string.

(** The loop that finds the coretemp file of each CPU. *)
Fixpoint auto_loop (env : Env) (idx : list nat) (paths : list string)
  : res (list string) :=
  match idx with
  | [] => Ok paths
  | i :: rest =>
      match glob env (auto_path i) with
      | [] => Raise (ValueError FanController.ERROR_MSG_FILE_IO)
      | first :: _ =>
          match list_assign paths i first with
          | Ok paths' => auto_loop env rest paths'
          | Raise e => Raise e
          end
      end
  end.

(** [CpuZone.build_hwmon_path] *)
Definition build_hwmon_path (env : Env) (count : Z) (current : list string)
           (hwmon_str : option (list string)) : res (list string) :=
  match hwmon_str with
  | Some _ => FanController.build_hwmon_path env count current hwmon_str
  | None => auto_loop env (range count) current
  end.

(** [CpuZone.__init__] on the section [CPU zone]. *)
Definition init (env : Env) (log : Log.t) (ipmi : Ipmi.t)
           (config : Config.section) : M.t unit t :=
  let count := Config.fallback (Config.count config) 1 in
  if count <=? 0 then M.raise (ValueError "count <= 0")
  else
    FanController.init build_hwmon_path env log ipmi Ipmi.CPU_ZONE "CPU zone" count
      (Config.fallback (Config.temp_calc config) FanController.CALC_AVG)
      (Config.fallback (Config.steps config) 6)
      (Config.fallback (Config.sensitivity config) 3%Q)
      (Config.fallback (Config.polling config) 2%Q)
      (Config.fallback (Config.min_temp config) 30%Q)
      (Config.fallback (Config.max_temp config) 60%Q)
      (Config.fallback (Config.min_level config) 35)
      (Config.fallback (Config.max_level config) 100)
      (repeat EmptyString (Z.to_nat count))
      (Config.hwmon_path config).

End CpuZone.

#[export] Instance CpuZone_Zone : Zone CpuZone.t := {
  base := fun s => s;
  set_base := fun b _ => b;
  callback_func := CpuZone.callback_func
}.

(** *** HdZone and its standby guard *)

Module HdZone.

Record t : Type := {
  fan : FanController.t;
  hd_device_names : list string;
  standby_guard_enabled : bool;
  standby_hd_limit : Z;
  smartctl_path : string;
  standby_flag : bool;
  standby_change_timestamp : Q;
  standby_array_states : list bool
}.

Definition count (self : t) : Z := FanController.count (fan self).

Definition set_fan (v : FanController.t) (self : t) : t :=
  {| fan := v; hd_device_names := hd_device_names self;
     standby_guard_enabled := standby_guard_enabled self;
     standby_hd_limit := standby_hd_limit self;
     smartctl_path := smartctl_path self;
     standby_flag := standby_flag self;
     standby_change_timestamp := standby_change_timestamp self;
     standby_array_states := standby_array_states self |}.

Definition set_standby_flag (v : bool) (self : t) : t :=
  {| fan := fan self; hd_device_names := hd_device_names self;
     standby_guard_enabled := standby_guard_enabled self;
     standby_hd_limit := standby_hd_limit self;
     smartctl_path := smartctl_path self;
     standby_flag := v;
     standby_change_timestamp := standby_change_timestamp self;
     standby_array_states := standby_array_states self |}.

Definition set_standby_change_timestamp (v : Q) (self : t) : t :=
  {| fan := fan self; hd_device_names := hd_device_names self;
     standby_guard_enabled := standby_guard_enabled self;
     standby_hd_limit := standby_hd_limit self;
     smartctl_path := smartctl_path self;
     standby_flag := standby_flag self;
     standby_change_timestamp := v;
     standby_array_states := standby_array_states self |}.

Definition set_standby_array_states (v : list bool) (self : t) : t :=
  {| fan := fan self; hd_device_names := hd_device_names self;
     standby_guard_enabled := standby_guard_enabled self;
     standby_hd_limit := standby_hd_limit self;
     smartctl_path := smartctl_path self;
     standby_flag := standby_flag self;
     standby_change_timestamp := standby_change_timestamp self;
     standby_array_states := v |}.

(** [self.standby_array_states[i] = v] *)
Definition assign_state (i : nat) (v : bool) : M.t t unit :=
  self <- M.get ;;
  states <- M.of_res (list_assign (standby_array_states self) i v) ;;
  M.put (set_standby_array_states states self).

(** The loop of [get_standby_state_str] over the indices left. *)
Fixpoint state_str_loop (states : list bool) (idx : list nat) (result : string)
  : res string :=
  match idx with
  | [] => Ok result
  | i :: rest =>
      match list_item states i with
      | Ok true => state_str_loop states rest (result ++ "S")%string
      | Ok false => state_str_loop states rest (result ++ "A")%string
      | Raise e => Raise e
      end
  end.

(** One character per disk: S for standby, A for active. *)
Definition get_standby_state_str (self : t) : res string :=
  state_str_loop (standby_array_states self) (range (count self)) EmptyString.

(** The body of the loop of [check_standby_state] for disk [i]. *)
Definition check_one (env : Env) (i : nat) : M.t t unit :=
  assign_state i false ;;;
  self <- M.get ;;
  device <- M.of_res (list_item (hd_device_names self) i) ;;
  r <- M.of_res (smartctl_check env device) ;;
  if negb ((returncode r =? 0) || (returncode r =? 2)) then
    M.raise (Exception "Unknown smartctl return value" (returncode r))
  else if contains "STANDBY" (stdout r) then
    assign_state i true
  else
    M.ret tt.

(** Ask every disk for its power state; the number in standby. *)
Definition check_standby_state (env : Env) : M.t t Z :=
  self <- M.get ;;
  M.for_each (range (count self)) (check_one env) ;;;
  self <- M.get ;;
  M.ret (Z.of_nat (List.count_occ bool_dec (standby_array_states self) true)).

(** The body of the loop of [go_standby_state] for disk [i]. *)
Definition standby_one (env : Env) (i : nat) : M.t t unit :=
  self <- M.get ;;
  standby <- M.of_res (list_item (standby_array_states self) i) ;;
  if negb standby then
    device <- M.of_res (list_item (hd_device_names self) i) ;;
    r <- M.of_res (smartctl_standby env device) ;;
    M.emit (EvStandby device) ;;;
    if negb (returncode r =? 0) then
      M.raise (Exception "Unknown smartctl return value" (returncode r))
    else
      assign_state i true
  else
    M.ret tt.

(** Put every disk recorded as active to standby. *)
Definition go_standby_state (env : Env) : M.t t unit :=
  self <- M.get ;;
  M.for_each (range (count self)) (standby_one env).

Definition run_standby_guard (env : Env) : M.t t unit :=
  (* Step 1: check the current power state of the HD array *)
  hds_in_standby <- check_standby_state env ;;
  let cur_time := monotonic_guard env in
  self <- M.get ;;
  (* Step 2: check if the array is going to STANDBY state. *)
  if negb (standby_flag self) && (standby_hd_limit self <=? hds_in_standby) then
    let hours := ((cur_time - standby_change_timestamp self) / 3600)%Q in
    str <- M.of_res (get_standby_state_str self) ;;
    Log.msg Log.LOG_INFO (TxtActiveToStandby hours str) ;;;
    go_standby_state env ;;;
    M.modify (set_standby_flag true) ;;;
    M.modify (set_standby_change_timestamp cur_time)
  (* Step 3: check if the array is waking up. *)
  else if standby_flag self && (hds_in_standby <? count self) then
    let hours := ((cur_time - standby_change_timestamp self) / 3600)%Q in
    str <- M.of_res (get_standby_state_str self) ;;
    Log.msg Log.LOG_INFO (TxtStandbyToActive hours str) ;;;
    M.modify (set_standby_flag false) ;;;
    M.modify (set_standby_change_timestamp cur_time)
  else
    M.ret tt.

(** [HdZone.callback_func] *)
Definition callback_func (env : Env) : M.t t unit :=
  self <- M.get ;;
  if standby_guard_enabled self then run_standby_guard env else M.ret tt.

(** *** Construction *)

(** First loop of the automatic search: the SATA name of each disk. *)
Fixpoint sata_loop (env : Env) (names : list string) (idx : list nat)
         (hd_sata_names : list string) : res (list string) :=
  match idx with
  | [] => Ok hd_sata_names
  | i :: rest =>
      match list_item names i with
      | Raise e => Raise e
      | Ok device =>
          if negb (contains "by-id" device) then
            Raise (ValueError "Invalid hd_names, name is not in /dev/disk/by-id form.")
          else if negb (islink env device) then
            Raise (ValueError "Invalid hd_names, the reference is not link.")
          else
            match list_assign hd_sata_names i (basename (readlink env device)) with
            | Ok l => sata_loop env names rest l
            | Raise e => Raise e
            end
      end
  end.

Definition hwmon_dir : string := "/sys/class/scsi_disk".

(** Second loop: the hwmon file of each known SATA name. *)
Fixpoint hwmon_loop (env : Env) (hd_sata_names : list string)
         (entries : list string) (paths : list string) : res (list string) :=
  match entries with
  | [] => Ok paths
  | f :: rest =>
      match glob env (join3 hwmon_dir f "device/block/sd*") with
      | [] => Raise (ValueError FanController.ERROR_MSG_FILE_IO)
      | first :: _ =>
          match index (basename first) hd_sata_names with
          | None => hwmon_loop env hd_sata_names rest paths
          | Some idx =>
              match glob env (join3 hwmon_dir f "device/hwmon/hwmon*/temp1_input") with
              | [] => Raise (ValueError FanController.ERROR_MSG_FILE_IO)
              | file :: _ =>
                  match list_assign paths idx file with
                  | Ok paths' => hwmon_loop env hd_sata_names rest paths'
                  | Raise e => Raise e
                  end
              end
          end
      end
  end.

(** [HdZone.build_hwmon_path], for the disks [names]. *)
Definition build_hwmon_path (names : list string) (env : Env) (count : Z)
           (current : list string) (hwmon_str : option (list string))
  : res (list string) :=
  match hwmon_str with
  | Some _ => FanController.build_hwmon_path env count current hwmon_str
  | None =>
      match sata_loop env names (range count)
              (repeat EmptyString (Z.to_nat count)) with
      | Raise e => Raise e
      | Ok hd_sata_names =>
          match hwmon_loop env hd_sata_names (listdir env hwmon_dir) current with
          | Raise e => Raise e
          | Ok paths =>
              if negb (Z.of_nat (List.length paths) =? count) then
                Raise (ValueError "Invalid hd_names= parameter, not all hwmon files was found")
              else Ok paths
          end
      end
  end.

(** The object before the standby guard is configured; the attributes
    of the guard, which Python leaves unset when the guard is off, hold
    neutral values. *)
Definition without_guard (fc : FanController.t) (names : list string) : t :=
  {| fan := fc; hd_device_names := names;
     standby_guard_enabled := false; standby_hd_limit := 0;
     smartctl_path := EmptyString; standby_flag := false;
     standby_change_timestamp := 0%Q; standby_array_states := [] |}.

(** [HdZone.__init__] on the section [HD zone]. *)
Definition init (env : Env) (log : Log.t) (ipmi : Ipmi.t)
           (config : Config.section) : M.t unit t :=
  (* Read count parameter. *)
  let count := Config.fallback (Config.count config) 1 in
  if count <=? 0 then M.raise (ValueError "count <= 0")
  else
    match Config.hd_names config with
    | None => M.raise (ValueError "Parameter hd_names= is not specified.")
    | Some names =>
        if negb (Z.of_nat (List.length names) =? count) then
          M.raise (ValueError "Inconsistent count and size of hd_names")
        else
          (* Initialize FanController class. *)
          fc <- FanController.init (build_hwmon_path names) env log ipmi
                  Ipmi.HD_ZONE "HD zone" count
                  (Config.fallback (Config.temp_calc config) FanController.CALC_AVG)
                  (Config.fallback (Config.steps config) 4)
                  (Config.fallback (Config.sensitivity config) 2%Q)
                  (Config.fallback (Config.polling config) 10%Q)
                  (Config.fallback (Config.min_temp config) 32%Q)
                  (Config.fallback (Config.max_temp config) 46%Q)
                  (Config.fallback (Config.min_level config) 35)
                  (Config.fallback (Config.max_level config) 100)
                  (repeat EmptyString (Z.to_nat count))
                  (Config.hwmon_path config) ;;
          (* Read and validate the configuration of standby guard if enabled. *)
          let configured := Config.fallback (Config.standby_guard_enabled config) false in
          (if FanController.count fc =? 1 then
             Log.msg Log.LOG_INFO TxtGuardOffCount1
           else M.ret tt) ;;;
          let guard := if FanController.count fc =? 1 then false else configured in
          self <-
            (if guard then
               let limit := Config.fallback (Config.standby_hd_limit config) 1 in
               if limit <? 0 then M.raise (ValueError "standby_hd_limit < 0")
               else if FanController.count fc <? limit then
                 M.raise (ValueError "standby_hd_limit > count")
               else
                 let self0 :=
                   {| fan := fc; hd_device_names := names;
                      standby_guard_enabled := true;
                      standby_hd_limit := limit;
                      smartctl_path :=
                        Config.fallback (Config.smartctl_path config) "/usr/sbin/smartctl"%string;
                      standby_flag := false;
                      standby_change_timestamp := 0%Q;
                      standby_array_states := repeat false (Z.to_nat count) |} in
                 (* Get the current power state of the HD array. *)
                 ns <- M.on self0 (check_standby_state env) ;;
                 M.ret (set_standby_flag (fst ns =? FanController.count fc)
                          (set_standby_change_timestamp (monotonic_guard env) (snd ns)))
             else M.ret (without_guard fc names)) ;;
          (* Print configuration in DEBUG log level (or higher). *)
          (if Log.LOG_DEBUG <=? Log.log_level log then
             Log.msg Log.LOG_DEBUG (TxtParamPaths "hd_names" names) ;;;
             if standby_guard_enabled self then
               Log.msg Log.LOG_DEBUG TxtGuardEnabled ;;;
               Log.msg Log.LOG_DEBUG (TxtParamZ "standby_hd_limit" (standby_hd_limit self)) ;;;
               Log.msg Log.LOG_DEBUG (TxtParamStr "smartctl_path" (smartctl_path self))
             else
               Log.msg Log.LOG_DEBUG TxtGuardDisabled
           else M.ret tt) ;;;
          M.ret self
    end.

(** *** The answers of the disks, for the statements on the guard *)

(** The disk [device] answers the query with STANDBY. *)
Definition reports_standby (env : Env) (device : string) : bool :=
  match smartctl_check env device with
  | Ok r => contains "STANDBY" (stdout r)
  | Raise _ => false
  end.

(** The query of [device] runs and returns 0 or 2. *)
Definition query_ok (env : Env) (device : string) : Prop :=
  exists r, smartctl_check env device = Ok r
            /\ (returncode r = 0 \/ returncode r = 2).

(** The standby command on [device] runs and returns 0. *)
Definition write_ok (env : Env) (device : string) : Prop :=
  exists r, smartctl_standby env device = Ok r /\ returncode r = 0.

(** The number of disks that answer STANDBY. *)
Definition standby_count (env : Env) (names : list string) : Z :=
  Z.of_nat (List.length (filter (reports_standby env) names)).

(** The disks that answer that they are active, in configured order. *)
Definition active_disks (env : Env) (names : list string) : list string :=
  filter (fun d => negb (reports_standby env d)) names.

(** The lists of a constructed zone with the guard on: one name and one
    flag per disk. *)
Definition well_formed (self : t) : Prop :=
  Z.of_nat (List.length (hd_device_names self)) = count self
  /\ List.length (standby_array_states self) = List.length (hd_device_names self).

End HdZone.

#[export] Instance HdZone_Zone : Zone HdZone.t := {
  base := HdZone.fan;
  set_base := HdZone.set_fan;
  callback_func := HdZone.callback_func
}.

(** ** The main loop *)

Module Main.

(** The two controllers of [main]; [None] when the zone is not enabled. *)
Record t : Type := {
  my_cpu_zone : option CpuZone.t;
  my_hd_zone : option HdZone.t
}.

(** What the outside answers to the CPU tick and to the HD tick of each
    iteration of the loop. *)
Record World : Type := {
  cpu_env : nat -> Env;
  hd_env : nat -> Env
}.

(** The sleep time of the main loop. *)
Definition wait_time (self : t) : M.t t Q :=
  match my_cpu_zone self, my_hd_zone self with
  | Some c, Some h =>
      M.ret (Py.min (FanController.polling c) (FanController.polling (HdZone.fan h)) / 2)%Q
  | Some c, None => M.ret (FanController.polling c / 2)%Q
  | None, Some h => M.ret (FanController.polling (HdZone.fan h) / 2)%Q
  | None, None =>
      Log.msg Log.LOG_ERROR TxtNoController ;;;
      M.raise (SystemExit 8)
  end.

(** [if cpu_zone_enabled: my_cpu_zone.run()] *)
Definition run_cpu_zone (env : Env) : M.t t unit :=
  fun s =>
    match my_cpu_zone s with
    | Some z =>
        match run env z with
        | (r, z', tr) => (r, {| my_cpu_zone := Some z'; my_hd_zone := my_hd_zone s |}, tr)
        end
    | None => (Ok tt, s, [])
    end.

(** [if hd_zone_enabled: my_hd_zone.run()] *)
Definition run_hd_zone (env : Env) : M.t t unit :=
  fun s =>
    match my_hd_zone s with
    | Some z =>
        match run env z with
        | (r, z', tr) => (r, {| my_cpu_zone := my_cpu_zone s; my_hd_zone := Some z' |}, tr)
        end
    | None => (Ok tt, s, [])
    end.

(** The body of [while True], at iteration [i]. *)
Definition iteration (w : World) (wait : Q) (i : nat) : M.t t unit :=
  run_cpu_zone (cpu_env w i) ;;;
  run_hd_zone (hd_env w i) ;;;
  M.emit (EvSleep wait).

(** [n] iterations of the main execution loop from iteration [i].  The
    loop has no exit: [Ok] after [n] iterations means it is still
    running, [Raise] that an exception left it and ended the process. *)
Fixpoint loop (w : World) (wait : Q) (n i : nat) : M.t t unit :=
  match n with
  | O => M.ret tt
  | S n' => iteration w wait i ;;; loop w wait n' (S i)
  end.

(** The end of [main], from the computation of the sleep time on. *)
Definition main_loop (w : World) (n : nat) : M.t t unit :=
  self <- M.get ;;
  wait <- wait_time self ;;
  Log.msg Log.LOG_DEBUG (TxtMainWait wait) ;;;
  loop w wait n 0.

End Main.


(** ** Zones that respect the controller *)

(** The object once step 1 of [run] has recorded the time. *)
Definition polled {St} `{Zone St} (env : Env) (s : St) : St :=
  set_base (FanController.set_last_time (monotonic env) (base s)) s.

(** The laws every subclass obeys: the controller part is a field, and
    [callback_func] neither assigns to it, nor writes a fan level, nor
    logs an error. *)
Class ZoneLaws (St : Type) `{Zone St} : Prop := {
  base_set_base : forall b s, base (set_base b s) = b;
  set_base_set_base : forall b b' s, set_base b (set_base b' s) = set_base b s;
  callback_frames :
    forall env, frames base quiet (callback_func env)
}.

(** ** Sample machines *)

Module Sample.

Definition log : Log.t := {| Log.log_level := Log.LOG_ERROR; Log.log_output := 2 |}.

Definition ipmi : Ipmi.t :=
  {| Ipmi.command := "/usr/bin/ipmitool"; Ipmi.fan_mode_delay := 10;
     Ipmi.fan_level_delay := 2 |}.

(** A machine where every file reads [raw], every command works and
    every disk answers that it is active, at time [now]. *)
Definition env (now raw : Q) : Env :=
  {| monotonic := now; monotonic_guard := now;
     read_float := fun _ => Ok raw;
     ipmitool_found := true;
     smartctl_check := fun _ => Ok {| returncode := 0; stdout := "ACTIVE or IDLE" |};
     smartctl_standby := fun _ => Ok {| returncode := 0; stdout := EmptyString |};
     glob := fun p => [p];
     isfile := fun _ => true;
     islink := fun _ => true;
     readlink := fun p => p;
     listdir := fun _ => [] |}.

Definition empty_section : Config.section :=
  {| Config.enabled := Some true; Config.count := None; Config.temp_calc := None;
     Config.steps := None; Config.sensitivity := None; Config.polling := None;
     Config.min_temp := None; Config.max_temp := None;
     Config.min_level := None; Config.max_level := None;
     Config.hwmon_path := None; Config.hd_names := None;
     Config.standby_guard_enabled := None; Config.standby_hd_limit := None;
     Config.smartctl_path := None |}.

(** The CPU zone with the default values of the program: 6 steps,
    30 to 60 degrees, levels 35 to 100. *)
Definition cpu_section : Config.section :=
  {| Config.enabled := Some true; Config.count := None; Config.temp_calc := None;
     Config.steps := None; Config.sensitivity := None; Config.polling := None;
     Config.min_temp := None; Config.max_temp := None;
     Config.min_level := None; Config.max_level := None;
     Config.hwmon_path := Some ["/sys/class/hwmon/hwmon0/temp1_input"%string];
     Config.hd_names := None;
     Config.standby_guard_enabled := None; Config.standby_hd_limit := None;
     Config.smartctl_path := None |}.

Definition cpu : FanController.t :=
  {| FanController.log := log; FanController.ipmi := ipmi;
     FanController.ipmi_zone := Ipmi.CPU_ZONE; FanController.name := "CPU zone";
     FanController.count := 1; FanController.temp_calc := FanController.CALC_AVG;
     FanController.steps := 6; FanController.sensitivity := 3;
     FanController.polling := 2;
     FanController.min_temp := 30; FanController.max_temp := 60;
     FanController.min_level := 35; FanController.max_level := 100;
     FanController.hwmon_path := ["/sys/class/hwmon/hwmon0/temp1_input"%string];
     FanController.temp_step := ((60 - 30) / inject_Z 6)%Q;
     FanController.level_step := (inject_Z (100 - 35) / inject_Z 6)%Q;
     FanController.last_time := (100 - (2 + 1))%Q;
     FanController.last_temp := 0; FanController.last_level := 0;
     FanController.get_temp_func := FanController.Get1Temp |}.

(** The same zone with [min_temp = max_temp = 30]. *)
Definition flat_section : Config.section :=
  {| Config.enabled := Some true; Config.count := None; Config.temp_calc := None;
     Config.steps := None; Config.sensitivity := None; Config.polling := None;
     Config.min_temp := Some 30%Q; Config.max_temp := Some 30%Q;
     Config.min_level := None; Config.max_level := None;
     Config.hwmon_path := Some ["/sys/class/hwmon/hwmon0/temp1_input"%string];
     Config.hd_names := None;
     Config.standby_guard_enabled := None; Config.standby_hd_limit := None;
     Config.smartctl_path := None |}.

Definition flat : FanController.t :=
  {| FanController.log := log; FanController.ipmi := ipmi;
     FanController.ipmi_zone := Ipmi.CPU_ZONE; FanController.name := "CPU zone";
     FanController.count := 1; FanController.temp_calc := FanController.CALC_AVG;
     FanController.steps := 6; FanController.sensitivity := 3;
     FanController.polling := 2;
     FanController.min_temp := 30; FanController.max_temp := 30;
     FanController.min_level := 35; FanController.max_level := 100;
     FanController.hwmon_path := ["/sys/class/hwmon/hwmon0/temp1_input"%string];
     FanController.temp_step := ((30 - 30) / inject_Z 6)%Q;
     FanController.level_step := (inject_Z (100 - 35) / inject_Z 6)%Q;
     FanController.last_time := (100 - (2 + 1))%Q;
     FanController.last_temp := 0; FanController.last_level := 0;
     FanController.get_temp_func := FanController.Get1Temp |}.

(** A machine whose sensor files hold the given raw values; any other
    file cannot be read. *)
Fixpoint read_in (files : list (string * Q)) (path : string) : res Q :=
  match files with
  | [] => Raise (IOError path)
  | (p, raw) :: rest => if String.eqb p path then Ok raw else read_in rest path
  end.

Definition env_files (now : Q) (files : list (string * Q)) : Env :=
  {| monotonic := now; monotonic_guard := now;
     read_float := read_in files;
     ipmitool_found := true;
     smartctl_check := fun _ => Ok {| returncode := 0; stdout := "ACTIVE or IDLE" |};
     smartctl_standby := fun _ => Ok {| returncode := 0; stdout := EmptyString |};
     glob := fun p => [p];
     isfile := fun _ => true;
     islink := fun _ => true;
     readlink := fun p => p;
     listdir := fun _ => [] |}.

Definition built {A} (d : A) (x : res A * unit * list event) : A :=
  match x with
  | (Ok a, _, _) => a
  | _ => d
  end.

Definition sensor0 : string := "/sys/class/hwmon/hwmon0/temp1_input".
Definition sensor1 : string := "/sys/class/hwmon/hwmon1/temp1_input".
Definition sensor2 : string := "/sys/class/hwmon/hwmon2/temp1_input".

(** A zone of [n] sensors reduced by [calc], other values by default. *)
Definition multi_section (calc : Z) (paths : list string) : Config.section :=
  {| Config.enabled := Some true;
     Config.count := Some (Z.of_nat (List.length paths));
     Config.temp_calc := Some calc;
     Config.steps := None; Config.sensitivity := None; Config.polling := None;
     Config.min_temp := None; Config.max_temp := None;
     Config.min_level := None; Config.max_level := None;
     Config.hwmon_path := Some paths; Config.hd_names := None;
     Config.standby_guard_enabled := None; Config.standby_hd_limit := None;
     Config.smartctl_path := None |}.

(** Two sensors below zero: -5 and -3 degrees. *)
Definition cold_env : Env := env_files 100 [(sensor0, (-5000)%Q); (sensor1, (-3000)%Q)].

Definition cold_max : FanController.t :=
  Eval vm_compute in
    built cpu (CpuZone.init cold_env log ipmi
                 (multi_section FanController.CALC_MAX [sensor0; sensor1]) tt).

(** Three sensors at 30, 40 and 50 degrees. *)
Definition warm_env : Env :=
  env_files 100 [(sensor0, 30000%Q); (sensor1, 40000%Q); (sensor2, 50000%Q)].

Definition warm_avg : FanController.t :=
  Eval vm_compute in
    built cpu (CpuZone.init warm_env log ipmi
                 (multi_section FanController.CALC_AVG [sensor0; sensor1; sensor2]) tt).

(** Four disks, standby guard on with a limit of one disk. *)
Definition disks : list string :=
  ["/dev/disk/by-id/ata-A"; "/dev/disk/by-id/ata-B";
   "/dev/disk/by-id/ata-C"; "/dev/disk/by-id/ata-D"]%string.

Definition hd_section (limit : Z) : Config.section :=
  {| Config.enabled := Some true; Config.count := Some 4;
     Config.temp_calc := None;
     Config.steps := None; Config.sensitivity := None; Config.polling := None;
     Config.min_temp := None; Config.max_temp := None;
     Config.min_level := None; Config.max_level := None;
     Config.hwmon_path := Some [sensor0; sensor1; sensor2; sensor0];
     Config.hd_names := Some disks;
     Config.standby_guard_enabled := Some true;
     Config.standby_hd_limit := Some limit;
     Config.smartctl_path := None |}.

(** The zone as constructed while every disk is active. *)
Definition hd : HdZone.t :=
  Eval vm_compute in
    built (HdZone.without_guard cpu [])
          (HdZone.init (env 100 35000) log ipmi (hd_section 1) tt).

(** Later, the second disk alone answers that it is in standby. *)
Definition one_asleep : Env :=
  {| monotonic := 200; monotonic_guard := 201;
     read_float := fun _ => Ok 35000%Q;
     ipmitool_found := true;
     smartctl_check := fun d =>
       if String.eqb d "/dev/disk/by-id/ata-B"
       then Ok {| returncode := 2; stdout := "Device is in STANDBY mode, exit(2)" |}
       else Ok {| returncode := 0; stdout := "Power mode is: ACTIVE or IDLE" |};
     smartctl_standby := fun _ => Ok {| returncode := 0; stdout := EmptyString |};
     glob := fun p => [p];
     isfile := fun _ => true;
     islink := fun _ => true;
     readlink := fun p => p;
     listdir := fun _ => [] |}.

(** The zone after the guard has run in [one_asleep]. *)
Definition hd_asleep : HdZone.t :=
  Eval vm_compute in M.state (HdZone.run_standby_guard one_asleep hd).

(** The same zone with a single disk. *)
Definition hd1_section (guard : bool) : Config.section :=
  {| Config.enabled := Some true; Config.count := Some 1;
     Config.temp_calc := None;
     Config.steps := None; Config.sensitivity := None; Config.polling := None;
     Config.min_temp := None; Config.max_temp := None;
     Config.min_level := None; Config.max_level := None;
     Config.hwmon_path := Some [sensor0];
     Config.hd_names := Some ["/dev/disk/by-id/ata-A"%string];
     Config.standby_guard_enabled := Some guard;
     Config.standby_hd_limit := Some 1;
     Config.smartctl_path := None |}.

(** A first tick at time 100 reads 45 degrees and sets level 67; at the
    second tick, at time 200, the sensor file cannot be read. *)
Definition after_first_tick : CpuZone.t :=
  M.state (run (env 100 45000) cpu).

(** The CPU zone with [max_temp = 20] below [min_temp = 30]. *)
Definition reversed_section : Config.section :=
  {| Config.enabled := Some true; Config.count := None; Config.temp_calc := None;
     Config.steps := None; Config.sensitivity := None; Config.polling := None;
     Config.min_temp := Some 30%Q; Config.max_temp := Some 20%Q;
     Config.min_level := None; Config.max_level := None;
     Config.hwmon_path := Some [sensor0]; Config.hd_names := None;
     Config.standby_guard_enabled := None; Config.standby_hd_limit := None;
     Config.smartctl_path := None |}.


(** A CPU zone configured with levels 35 to 150. *)
Definition loud_section : Config.section :=
  {| Config.enabled := Some true; Config.count := None; Config.temp_calc := None;
     Config.steps := None; Config.sensitivity := None; Config.polling := None;
     Config.min_temp := None; Config.max_temp := None;
     Config.min_level := None; Config.max_level := Some 150;
     Config.hwmon_path := Some [sensor0]; Config.hd_names := None;
     Config.standby_guard_enabled := None; Config.standby_hd_limit := None;
     Config.smartctl_path := None |}.

Definition loud : FanController.t :=
  Eval vm_compute in
    built cpu (CpuZone.init (env 100 45000) log ipmi loud_section tt).

(** The second disk is in standby and the third disk is broken: smartctl
    returns 1 for its query and 4 for its standby command. *)
Definition third_broken (query_too : bool) : Env :=
  {| monotonic := 200; monotonic_guard := 201;
     read_float := fun _ => Ok 35000%Q;
     ipmitool_found := true;
     smartctl_check := fun d =>
       if String.eqb d "/dev/disk/by-id/ata-B"
       then Ok {| returncode := 2; stdout := "Device is in STANDBY mode, exit(2)" |}
       else if String.eqb d "/dev/disk/by-id/ata-C" && query_too
       then Ok {| returncode := 1; stdout := "Smartctl open device failed" |}
       else Ok {| returncode := 0; stdout := "Power mode is: ACTIVE or IDLE" |};
     smartctl_standby := fun d =>
       if String.eqb d "/dev/disk/by-id/ata-C"
       then Ok {| returncode := 4; stdout := EmptyString |}
       else Ok {| returncode := 0; stdout := EmptyString |};
     glob := fun p => [p];
     isfile := fun _ => true;
     islink := fun _ => true;
     readlink := fun p => p;
     listdir := fun _ => [] |}.

End Sample.

(** Both zones enabled; from the first iteration on the sensor file of
    the CPU zone cannot be read, while the disks and their sensors
    answer. *)
Module SampleMain.

Definition both : Main.t :=
  {| Main.my_cpu_zone := Some Sample.cpu; Main.my_hd_zone := Some Sample.hd |}.

Definition cpu_sensor_lost : Main.World :=
  {| Main.cpu_env := fun _ => Sample.env_files 200 [];
     Main.hd_env := fun _ => Sample.env 200 35000 |}.

(** Every sensor reads 45 degrees, every disk is active and every
    command works, at each iteration. *)
Definition steady : Main.World :=
  {| Main.cpu_env := fun _ => Sample.env 200 45000;
     Main.hd_env := fun _ => Sample.env 200 45000 |}.

(** The HD zone alone. *)
Definition hd_only : Main.t :=
  {| Main.my_cpu_zone := None; Main.my_hd_zone := Some Sample.hd |}.

(** No zone enabled. *)
Definition none : Main.t :=
  {| Main.my_cpu_zone := None; Main.my_hd_zone := None |}.

End SampleMain.

(** ** Notions for the statements on paths *)

(** How a configured entry [p] relates to the path [q] kept for it: its
    first match when it holds a wildcard, itself otherwise. *)
Definition resolved (env : Env) (p q : string) : Prop :=
  if contains "?" p || contains "*" p
  then hd_error (glob env p) = Some q
  else q = p.


(** ** Notions for the statements on the standby guard *)

(** One character per flag: S for standby, A for active. *)
Fixpoint state_chars (states : list bool) : string :=
  match states with
  | [] => EmptyString
  | true :: rest => String "S" (state_chars rest)
  | false :: rest => String "A" (state_chars rest)
  end.

(** The flags a state string stands for. *)
Fixpoint chars_states (str : string) : list bool :=
  match str with
  | EmptyString => []
  | String c rest => Ascii.eqb c "S" :: chars_states rest
  end.

(** The query of [device] fails with [e]: smartctl cannot be run, or it
    returns a code other than 0 and 2. *)
Definition query_raises (env : Env) (device : string) (e : exn) : Prop :=
  smartctl_check env device = Raise e
  \/ exists r, smartctl_check env device = Ok r
               /\ returncode r <> 0 /\ returncode r <> 2
               /\ e = Exception "Unknown smartctl return value" (returncode r).

(** The standby command on [device] fails with [e]; [ran] tells whether
    the command was run. *)
Definition write_raises (env : Env) (device : string) (e : exn) (ran : bool) : Prop :=
  (smartctl_standby env device = Raise e /\ ran = false)
  \/ exists r, smartctl_standby env device = Ok r
               /\ returncode r <> 0 /\ ran = true
               /\ e = Exception "Unknown smartctl return value" (returncode r).

(** What of an HD zone no method changes once it is constructed: the
    number of disks, their names, the number of flags and the
    configuration of the guard. *)
Definition shape (s : HdZone.t) : Z * list string * nat * bool * Z :=
  (HdZone.count s, HdZone.hd_device_names s,
   List.length (HdZone.standby_array_states s),
   HdZone.standby_guard_enabled s, HdZone.standby_hd_limit s).

(** A log line at INFO or DEBUG severity. *)
Definition is_info_or_debug (e : event) : bool :=
  match e with
  | EvLog level _ => (level =? 2) || (level =? 3)
  | _ => false
  end.

(** Not a log line at a severity other than INFO and DEBUG. *)
Definition no_alarm (e : event) : bool :=
  match e with
  | EvLog _ _ => is_info_or_debug e
  | _ => true
  end.

(** The log lines of a trace that the sink [log] prints. *)
Definition printed_lines (log : Log.t) (tr : list event) : list event :=
  filter (fun e => match e with
                   | EvLog level _ => Log.printed log level
                   | _ => false
                   end) tr.

(** A [time.sleep]. *)
Definition is_sleep (e : event) : bool :=
  match e with EvSleep _ => true | _ => false end.

(** What a tick with result [r] and trace [tr] has commanded: nothing,
    or one fan level and the pause that follows it, before the line
    logged at INFO severity that ends the tick. *)
Definition commands_then_pauses (b : FanController.t) (r : res unit)
           (tr : list event) : Prop :=
  (fan_writes tr = [] /\ filter is_sleep tr = [])
  \/ exists tr0 l text,
      tr = tr0 ++ [EvFanLevel (FanController.ipmi_zone b) l;
                   EvSleep (inject_Z (Ipmi.fan_level_delay (FanController.ipmi b)));
                   EvLog Log.LOG_INFO text]
      /\ fan_writes tr0 = [] /\ filter is_sleep tr0 = []
      /\ r = Ok tt.

(** ** Notions for the statements on ticks *)

(** The controller with the three attributes a tick writes erased: what
    is left is its configuration. *)
Definition configuration (b : FanController.t) : FanController.t :=
  FanController.set_last_level 0
    (FanController.set_last_temp 0 (FanController.set_last_time 0 b)).

(** The last level is the initial 0 or lies within the configured
    levels. *)
Definition last_level_in_range (b : FanController.t) : Prop :=
  FanController.last_level b = 0
  \/ FanController.min_level b <= FanController.last_level b
                              <= FanController.max_level b.

(** The invariant of a controller: a valid configuration and a last
    level that is the initial 0 or within the configured levels. *)
Definition sound (b : FanController.t) : Prop :=
  FanController.valid b /\ last_level_in_range b.

(** The invariant of the zones of [main]: each enabled controller is
    sound, and an HD zone with the standby guard on has one name and one
    flag per disk. *)
Definition zones_sound (st : Main.t) : Prop :=
  (forall c, Main.my_cpu_zone st = Some c -> sound c)
  /\ (forall h, Main.my_hd_zone st = Some h ->
                sound (HdZone.fan h)
                /\ (HdZone.standby_guard_enabled h = true -> HdZone.well_formed h)).


Section TickEnd.

Import FanController.

(** How a tick may end: the controller it leaves and the fan-level
    commands it has run. *)
Inductive tick_end (env : Env) (b : FanController.t)
  : res unit -> FanController.t -> list event -> Prop :=
| EndIdle :
    (monotonic env - last_time b < polling b)%Q ->
    tick_end env b (Ok tt) b []
| EndCallback e :
    (polling b <= monotonic env - last_time b)%Q ->
    tick_end env b (Raise e) (set_last_time (monotonic env) b) []
| EndRead e :
    (polling b <= monotonic env - last_time b)%Q ->
    call_get_temp_func env b = Raise e ->
    tick_end env b (Raise e) (set_last_time (monotonic env) b) []
| EndNear temp :
    (polling b <= monotonic env - last_time b)%Q ->
    call_get_temp_func env b = Ok temp ->
    (Qabs (temp - last_temp b) < sensitivity b)%Q ->
    tick_end env b (Ok tt) (set_last_time (monotonic env) b) []
| EndLevelError temp e :
    (polling b <= monotonic env - last_time b)%Q ->
    call_get_temp_func env b = Ok temp ->
    (sensitivity b <= Qabs (temp - last_temp b))%Q ->
    gain_and_level b temp = Raise e ->
    tick_end env b (Raise e)
      (set_last_temp temp (set_last_time (monotonic env) b)) []
| EndSame temp g :
    (polling b <= monotonic env - last_time b)%Q ->
    call_get_temp_func env b = Ok temp ->
    (sensitivity b <= Qabs (temp - last_temp b))%Q ->
    gain_and_level b temp = Ok (g, last_level b) ->
    tick_end env b (Ok tt)
      (set_last_temp temp (set_last_time (monotonic env) b)) []
| EndWriteError temp g l e :
    (polling b <= monotonic env - last_time b)%Q ->
    call_get_temp_func env b = Ok temp ->
    (sensitivity b <= Qabs (temp - last_temp b))%Q ->
    gain_and_level b temp = Ok (g, l) ->
    l <> last_level b ->
    tick_end env b (Raise e)
      (set_last_level l (set_last_temp temp (set_last_time (monotonic env) b))) []
| EndWritten temp g l :
    (polling b <= monotonic env - last_time b)%Q ->
    call_get_temp_func env b = Ok temp ->
    (sensitivity b <= Qabs (temp - last_temp b))%Q ->
    gain_and_level b temp = Ok (g, l) ->
    l <> last_level b ->
    0 <= l <= 100 ->
    tick_end env b (Ok tt)
      (set_last_level l (set_last_temp temp (set_last_time (monotonic env) b)))
      [EvFanLevel (ipmi_zone b) l].

End TickEnd.

(** * Proofs *)

(** ** Comparisons and rounding *)

Lemma Qleb_spec (a b : Q) : Qleb a b = true <-> (a <= b)%Q.
Proof. apply Qle_bool_iff. Qed.

Lemma Qltb_spec (a b : Q) : Qltb a b = true <-> (a < b)%Q.
Proof.
unfold Qltb. rewrite negb_true_iff. split; intro H.
- apply Qnot_le_lt. intro L. apply Qle_bool_iff in L. congruence.
- destruct (Qle_bool b a) eqn:E; [|reflexivity].
  apply Qle_bool_iff in E. exfalso. exact (Qlt_not_le _ _ H E).
Qed.

Lemma Qltb_false (a b : Q) : Qltb a b = false <-> (b <= a)%Q.
Proof.
unfold Qltb. rewrite negb_false_iff. apply Qle_bool_iff.
Qed.

Lemma Qleb_false (a b : Q) : Qleb a b = false <-> (b < a)%Q.
Proof.
unfold Qleb. split; intro H.
- apply Qnot_le_lt. intro L. apply Qle_bool_iff in L. congruence.
- destruct (Qle_bool a b) eqn:E; [|reflexivity].
  apply Qle_bool_iff in E. exfalso. exact (Qlt_not_le _ _ H E).
Qed.

(** *** Facts on [round] *)

Section Round.

Lemma round_bounds (x : Q) : Qfloor x <= round x <= Qfloor x + 1.
Proof.
  unfold round.
  destruct (Qcompare _ _); [destruct (Z.even _)| |]; lia.
Qed.

Lemma round_comp (x y : Q) : (x == y)%Q -> round x = round y.
Proof.
  intro E. unfold round. rewrite (Qfloor_comp _ _ E).
  assert (C : Qcompare (x - inject_Z (Qfloor y)) (1 # 2)
              = Qcompare (y - inject_Z (Qfloor y)) (1 # 2)).
  { apply Qcompare_comp; [rewrite E|]; reflexivity. }
  now rewrite C.
Qed.

Lemma round_Z (n : Z) : round (inject_Z n) = n.
Proof.
  unfold round. rewrite Qfloor_Z.
  assert (E : (inject_Z n - inject_Z n == 0)%Q) by ring.
  assert (C : Qcompare (inject_Z n - inject_Z n) (1 # 2) = Lt).
  { rewrite E. reflexivity. }
  rewrite C. reflexivity.
Qed.

(** Same floor: the result follows the fractional part. *)
Lemma round_same_floor (x y : Q) :
  (x <= y)%Q -> Qfloor x = Qfloor y -> round x <= round y.
Proof.
  intros L F. unfold round. rewrite <- F.
  set (f := Qfloor x).
  assert (D : (x - inject_Z f <= y - inject_Z f)%Q).
  { apply Qplus_le_l with (z := inject_Z f). ring_simplify. exact L. }
  destruct (Qcompare (x - inject_Z f) (1 # 2)) eqn:Cx;
    destruct (Qcompare (y - inject_Z f) (1 # 2)) eqn:Cy;
    try (destruct (Z.even f)); try lia; exfalso;
    repeat match goal with
      | H : Qcompare _ _ = Eq |- _ => apply Qeq_alt in H
      | H : Qcompare _ _ = Lt |- _ => apply Qlt_alt in H
      | H : Qcompare _ _ = Gt |- _ => apply Qgt_alt in H
      end.
  all: try (rewrite Cx in D; exact (Qlt_not_le _ _ Cy D)).
  all: try (rewrite Cy in D; exact (Qlt_not_le _ _ Cx D)).
  all: apply (Qlt_not_le _ _ Cx); apply Qle_trans with (y - inject_Z f)%Q;
    [exact D | apply Qlt_le_weak; exact Cy].
Qed.

Lemma round_mono (x y : Q) : (x <= y)%Q -> round x <= round y.
Proof.
  intro L.
  pose proof (Qfloor_resp_le _ _ L) as F.
  destruct (Z.eq_dec (Qfloor x) (Qfloor y)) as [E|N].
  - now apply round_same_floor.
  - pose proof (round_bounds x). pose proof (round_bounds y). lia.
Qed.

Lemma round_nonneg (x : Q) : (0 <= x)%Q -> 0 <= round x.
Proof.
  intro L. change 0 with (round (inject_Z 0)) at 1.
  - now apply round_mono.
Qed.

Lemma round_le_Z (x : Q) (n : Z) : (x <= inject_Z n)%Q -> round x <= n.
Proof.
  intro L. rewrite <- (round_Z n). now apply round_mono.
Qed.

End Round.

(** ** The level curve *)

Section Curve.

Import FanController.

Variable self : FanController.t.
Hypothesis V : valid self.

Lemma steps_pos : (0 < inject_Z (steps self))%Q.
Proof.
  pose proof (valid_steps self V) as S1.
  change 0%Q with (inject_Z 0). rewrite <- Zlt_Qlt. lia.
Qed.

Lemma temp_step_pos :
  (min_temp self < max_temp self)%Q -> (0 < temp_step self)%Q.
Proof.
  intro L. rewrite (valid_temp_step self V).
  apply Qlt_shift_div_l; [exact steps_pos|]. lra.
Qed.

Lemma level_step_nonneg : (0 <= level_step self)%Q.
Proof.
  rewrite (valid_level_step self V).
  apply Qle_shift_div_l; [exact steps_pos|].
  pose proof (valid_level self V) as L.
  assert (H : (inject_Z 0 <= inject_Z (max_level self - min_level self))%Q)
    by (rewrite <- Zle_Qle; lia).
  change (inject_Z 0) with 0%Q in H. lra.
Qed.

Lemma steps_level_step :
  (inject_Z (steps self) * level_step self
   == inject_Z (max_level self - min_level self))%Q.
Proof.
  rewrite (valid_level_step self V). field.
  intro E. pose proof steps_pos as P. rewrite E in P. exact (Qlt_irrefl _ P).
Qed.

Lemma steps_temp_step :
  (inject_Z (steps self) * temp_step self == max_temp self - min_temp self)%Q.
Proof.
  rewrite (valid_temp_step self V). field.
  intro E. pose proof steps_pos as P. rewrite E in P. exact (Qlt_irrefl _ P).
Qed.

(** The three branches of step 3. *)
Lemma gain_and_level_low (t : Q) :
  (t <= min_temp self)%Q -> gain_and_level self t = Ok (0, min_level self).
Proof.
  intro L. unfold gain_and_level.
  apply Qleb_spec in L. now rewrite L.
Qed.

Lemma gain_and_level_high (t : Q) :
  (min_temp self < t)%Q -> (max_temp self <= t)%Q ->
  gain_and_level self t = Ok (steps self, max_level self).
Proof.
  intros L1 L2. unfold gain_and_level.
  apply Qleb_false in L1. apply Qleb_spec in L2. now rewrite L1, L2.
Qed.

Lemma gain_and_level_mid (t : Q) :
  (min_temp self < t)%Q -> (t < max_temp self)%Q ->
  gain_and_level self t
  = Ok (round ((t - min_temp self) / temp_step self),
        round (inject_Z (round ((t - min_temp self) / temp_step self))
               * level_step self) + min_level self).
Proof.
  intros L1 L2. unfold gain_and_level.
  pose proof L1 as L1'. pose proof L2 as L2'.
  apply Qleb_false in L1'. apply Qleb_false in L2'. rewrite L1', L2'.
  unfold div.
  assert (P : (0 < temp_step self)%Q) by (apply temp_step_pos; lra).
  destruct (Qeq_bool (temp_step self) 0) eqn:E; [|reflexivity].
  apply Qeq_bool_eq in E. rewrite E in P. exfalso. exact (Qlt_irrefl _ P).
Qed.

(** Between the two ends the gain stays within [0, steps]. *)
Lemma gain_mid_bounds (t : Q) :
  (min_temp self < t)%Q -> (t < max_temp self)%Q ->
  0 <= round ((t - min_temp self) / temp_step self) <= steps self.
Proof.
  intros L1 L2.
  assert (P : (0 < temp_step self)%Q) by (apply temp_step_pos; lra).
  split.
  - apply round_nonneg. apply Qle_shift_div_l; [exact P|]. lra.
  - apply round_le_Z. apply Qle_shift_div_r; [exact P|].
    rewrite steps_temp_step. lra.
Qed.

(** The level of a gain grows with the gain and stays within the
    configured levels. *)
Lemma level_of_gain_mono (g1 g2 : Z) :
  g1 <= g2 ->
  round (inject_Z g1 * level_step self) <= round (inject_Z g2 * level_step self).
Proof.
  intro L. apply round_mono. apply Qmult_le_compat_r.
  - now rewrite <- Zle_Qle.
  - exact level_step_nonneg.
Qed.

Lemma level_of_gain_bounds (g : Z) :
  0 <= g <= steps self ->
  min_level self
  <= round (inject_Z g * level_step self) + min_level self
  <= max_level self.
Proof.
  intros [L0 L1]. split.
  - pose proof (level_of_gain_mono 0 g L0) as M0.
    assert (E : (inject_Z 0 * level_step self == inject_Z 0)%Q) by ring.
    assert (R0 : round (inject_Z 0 * level_step self) = 0).
    { rewrite (round_comp _ _ E). exact (round_Z 0). }
    lia.
  - pose proof (level_of_gain_mono g (steps self) L1) as M1.
    assert (R1 : round (inject_Z (steps self) * level_step self)
                 = max_level self - min_level self).
    { rewrite (round_comp _ _ steps_level_step). apply round_Z. }
    lia.
Qed.

End Curve.

(** The sample CPU zone is what [CpuZone.__init__] builds from the
    default values, and the flat one from [min_temp = max_temp = 30]. *)
Lemma sample_cpu_built :
  CpuZone.init (Sample.env 100 45000) Sample.log Sample.ipmi Sample.cpu_section tt
  = (Ok Sample.cpu, tt, []).
Proof. vm_compute. reflexivity. Qed.

Lemma sample_flat_built :
  CpuZone.init (Sample.env 100 45000) Sample.log Sample.ipmi Sample.flat_section tt
  = (Ok Sample.flat, tt, []).
Proof. vm_compute. reflexivity. Qed.

Lemma sample_cpu_valid : FanController.valid Sample.cpu.
Proof.
  constructor; try reflexivity; vm_compute; congruence.
Qed.

Lemma sample_flat_valid : FanController.valid Sample.flat.
Proof.
  constructor; try reflexivity; vm_compute; congruence.
Qed.

(** ** Claims on the level curve *)

Section CurveClaims.

Import FanController.

Lemma level_low (self : t) (V : valid self) (temp : Q) :
  (temp <= min_temp self)%Q -> level self temp = Ok (min_level self).
Proof.
  intro L. unfold level. now rewrite (gain_and_level_low self temp L).
Qed.

Lemma level_high (self : t) (V : valid self) (temp : Q) :
  (min_temp self < temp)%Q -> (max_temp self <= temp)%Q ->
  level self temp = Ok (max_level self).
Proof.
  intros L1 L2. unfold level. now rewrite (gain_and_level_high self temp L1 L2).
Qed.

(** Everywhere the level is defined and lies within the configured
    levels. *)
Lemma level_total (self : t) (V : valid self) (temp : Q) :
  exists l, level self temp = Ok l /\ min_level self <= l <= max_level self.
Proof.
  pose proof (valid_level self V) as VL.
  destruct (Qlt_le_dec (min_temp self) temp) as [L1|L1].
  - destruct (Qlt_le_dec temp (max_temp self)) as [L2|L2].
    + unfold level. rewrite (gain_and_level_mid self V temp L1 L2).
      eexists; split; [reflexivity|].
      apply level_of_gain_bounds; [exact V|].
      now apply gain_mid_bounds.
    + exists (max_level self). split; [now apply level_high | lia].
  - exists (min_level self). split; [now apply level_low | lia].
Qed.

(** C6. For every valid configuration (max_temp >= min_temp,
    max_level >= min_level, steps >= 1) the mapping from temperature to
    level computed in a tick is defined everywhere and monotonic
    non-decreasing: for t1 <= t2, level(t1) <= level(t2). *)
Theorem level_monotonic (self : t) (V : valid self) (t1 t2 : Q) :
  (t1 <= t2)%Q ->
  exists l1 l2,
    level self t1 = Ok l1 /\ level self t2 = Ok l2 /\ l1 <= l2.
Proof.
  intro L.
  destruct (level_total self V t1) as [l1 [E1 B1]].
  destruct (level_total self V t2) as [l2 [E2 B2]].
  exists l1, l2. split; [exact E1|]. split; [exact E2|].
  destruct (Qlt_le_dec (min_temp self) t1) as [A1|A1].
  - assert (A2 : (min_temp self < t2)%Q) by lra.
    destruct (Qlt_le_dec t2 (max_temp self)) as [C2|C2].
    + assert (C1 : (t1 < max_temp self)%Q) by lra.
      unfold level in E1, E2.
      rewrite (gain_and_level_mid self V t1 A1 C1) in E1.
      rewrite (gain_and_level_mid self V t2 A2 C2) in E2.
      injection E1 as <-. injection E2 as <-.
      apply Z.add_le_mono_r. apply level_of_gain_mono; [exact V|].
      apply round_mono.
      assert (P : (0 < temp_step self)%Q) by (apply temp_step_pos; [exact V|lra]).
      unfold Qdiv. apply Qmult_le_compat_r; [lra|].
      apply Qlt_le_weak. now apply Qinv_lt_0_compat.
    + rewrite (level_high self V t2 A2 C2) in E2. injection E2 as <-. lia.
  - rewrite (level_low self V t1 A1) in E1. injection E1 as <-. lia.
Qed.

Lemma level_monotonic_witness :
  valid Sample.cpu /\ (40 <= 52)%Q /\
  exists l1 l2,
    level Sample.cpu 40 = Ok l1 /\ level Sample.cpu 52 = Ok l2 /\ l1 <= l2.
Proof.
  split; [exact sample_cpu_valid|].
  split; [vm_compute; congruence|].
  apply (level_monotonic Sample.cpu sample_cpu_valid 40 52).
  vm_compute; congruence.
Defined.

(** C1 (as amended). For every valid configuration
    level(min_temp) = min_level, and level(max_temp) = max_level when
    min_temp < max_temp or min_level = max_level; with steps = 6,
    min_temp = 30, max_temp = 60, min_level = 35, max_level = 100 the
    curve gives level(30) = 35, level(45) = 67 (gain 3 of 6, the
    temperature step being 5) and level(60) = 100. *)
Theorem level_endpoints (self : t) (V : valid self) :
  level self (min_temp self) = Ok (min_level self)
  /\ ((min_temp self < max_temp self)%Q \/ min_level self = max_level self ->
      level self (max_temp self) = Ok (max_level self))
  /\ (temp_step Sample.cpu == 5)%Q
  /\ level Sample.cpu 30 = Ok 35
  /\ gain_and_level Sample.cpu 45 = Ok (3, 67)
  /\ level Sample.cpu 60 = Ok 100.
Proof.
  split; [apply level_low; [exact V | apply Qle_refl]|].
  split.
  - intros [L|E].
    + apply level_high; [exact V | exact L | apply Qle_refl].
    + destruct (Qlt_le_dec (min_temp self) (max_temp self)) as [L|L].
      * apply level_high; [exact V | exact L | apply Qle_refl].
      * rewrite <- E. now apply level_low.
  - repeat split; vm_compute; reflexivity.
Qed.

Lemma level_endpoints_witness :
  valid Sample.cpu
  /\ level Sample.cpu (min_temp Sample.cpu) = Ok (min_level Sample.cpu)
  /\ level Sample.cpu (max_temp Sample.cpu) = Ok (max_level Sample.cpu).
Proof.
  split; [exact sample_cpu_valid|].
  destruct (level_endpoints Sample.cpu sample_cpu_valid) as [A [B _]].
  split; [exact A|].
  apply B. left. vm_compute. reflexivity.
Defined.

(** C1 as stated fails: a configuration with min_temp = max_temp = 30
    and levels 35 to 100 is accepted by the constructor and valid, and
    its curve maps max_temp to min_level = 35, not to max_level = 100. *)
Lemma level_max_temp_counterexample :
  CpuZone.init (Sample.env 100 45000) Sample.log Sample.ipmi Sample.flat_section tt
  = (Ok Sample.flat, tt, [])
  /\ valid Sample.flat
  /\ level Sample.flat (max_temp Sample.flat) = Ok 35
  /\ level Sample.flat (max_temp Sample.flat) <> Ok (max_level Sample.flat).
Proof.
  split; [exact sample_flat_built|].
  split; [exact sample_flat_valid|].
  split; [vm_compute; reflexivity|].
  vm_compute. discriminate.
Qed.

End CurveClaims.

(** ** Aggregation of several sensors *)

Section Aggregation.

Import FanController.

Variable env : Env.

Let readings := readings env.



(** MIN: the least of 1000 and the temperatures read. *)
Lemma min_loop_readings (paths : list string) (vals : list Q) :
  readings paths vals ->
  forall minimum,
  exists r, min_loop env paths minimum = Ok r
            /\ (r <= minimum)%Q
            /\ Forall (fun v => (r <= v)%Q) vals
            /\ (r = minimum \/ In r vals).
Proof.
  induction 1 as [|p v paths vals R _ IH]; intros minimum; simpl.
  - exists minimum. repeat split; auto. apply Qle_refl.
  - rewrite R.
    destruct (IH (if Qltb v minimum then v else minimum)) as [r [E [L [F I]]]].
    exists r. split; [exact E|].
    destruct (Qltb v minimum) eqn:C.
    + apply Qltb_spec in C. repeat split.
      * lra.
      * constructor; [exact L | exact F].
      * right. destruct I as [->|I]; [now left | now right].
    + apply Qltb_false in C. repeat split.
      * exact L.
      * constructor; [lra | exact F].
      * destruct I as [->|I]; [now left | right; now right].
Qed.

(** MAX: the greatest of -1 and the temperatures read. *)
Lemma max_loop_readings (paths : list string) (vals : list Q) :
  readings paths vals ->
  forall maximum,
  exists r, max_loop env paths maximum = Ok r
            /\ (maximum <= r)%Q
            /\ Forall (fun v => (v <= r)%Q) vals
            /\ (r = maximum \/ In r vals).
Proof.
  induction 1 as [|p v paths vals R _ IH]; intros maximum; simpl.
  - exists maximum. repeat split; auto. apply Qle_refl.
  - rewrite R.
    destruct (IH (if Qltb maximum v then v else maximum)) as [r [E [L [F I]]]].
    exists r. split; [exact E|].
    destruct (Qltb maximum v) eqn:C.
    + apply Qltb_spec in C. repeat split.
      * lra.
      * constructor; [exact L | exact F].
      * right. destruct I as [->|I]; [now left | now right].
    + apply Qltb_false in C. repeat split.
      * exact L.
      * constructor; [lra | exact F].
      * destruct I as [->|I]; [now left | right; now right].
Qed.

End Aggregation.

Section AggregationClaims.

Import FanController.

(** With a reading at or below the initial 1000, MIN is the least
    reading. *)
Lemma get_min_temp_least (env : Env) (self : t) (vals : list Q) :
  readings env (hwmon_path self) vals ->
  Exists (fun v => (v <= 1000)%Q) vals ->
  exists r, get_min_temp env self = Ok r
            /\ Forall (fun v => (r <= v)%Q) vals
            /\ Exists (fun v => (v == r)%Q) vals.
Proof.
  intros R X. unfold get_min_temp.
  destruct (min_loop_readings env _ _ R 1000%Q) as [r [E [L [F I]]]].
  exists r. split; [exact E|]. split; [exact F|].
  destruct I as [->|I].
  - apply Exists_exists in X. destruct X as [v [Iv Lv]].
    apply Exists_exists. exists v. split; [exact Iv|].
    rewrite Forall_forall in F. specialize (F v Iv). lra.
  - apply Exists_exists. exists r. split; [exact I | reflexivity].
Qed.

(** With a reading at or above the initial -1, MAX is the greatest
    reading. *)
Lemma get_max_temp_greatest (env : Env) (self : t) (vals : list Q) :
  readings env (hwmon_path self) vals ->
  Exists (fun v => (-1 <= v)%Q) vals ->
  exists r, get_max_temp env self = Ok r
            /\ Forall (fun v => (v <= r)%Q) vals
            /\ Exists (fun v => (v == r)%Q) vals.
Proof.
  intros R X. unfold get_max_temp.
  destruct (max_loop_readings env _ _ R (-1)%Q) as [r [E [L [F I]]]].
  exists r. split; [exact E|]. split; [exact F|].
  destruct I as [->|I].
  - apply Exists_exists in X. destruct X as [v [Iv Lv]].
    apply Exists_exists. exists v. split; [exact Iv|].
    rewrite Forall_forall in F. specialize (F v Iv). lra.
  - apply Exists_exists. exists r. split; [exact I | reflexivity].
Qed.

(** AVG of the raw readings 30000, 40000 and 50000 over three sensors is
    40 degrees. *)
Lemma get_avg_temp_sample :
  CpuZone.init Sample.warm_env Sample.log Sample.ipmi
    (Sample.multi_section CALC_AVG [Sample.sensor0; Sample.sensor1; Sample.sensor2]) tt
  = (Ok Sample.warm_avg, tt, [])
  /\ get_temp_func Sample.warm_avg = GetAvgTemp
  /\ exists r, call_get_temp_func Sample.warm_env Sample.warm_avg = Ok r
               /\ (r == 40)%Q.
Proof.
  split; [vm_compute; reflexivity|].
  split; [reflexivity|].
  eexists. split; [vm_compute; reflexivity|]. vm_compute. reflexivity.
Qed.

(** C7 (the code departs from it). Two sensors read -5000 and -3000, that
    is -5 and -3 degrees; the zone is built with temp_calc = MAX, and its
    temperature function returns -1, the value [maximum] starts from,
    which is none of the readings: the maximum -3 is lost. *)
Theorem get_max_temp_below_start :
  CpuZone.init Sample.cold_env Sample.log Sample.ipmi
    (Sample.multi_section CALC_MAX [Sample.sensor0; Sample.sensor1]) tt
  = (Ok Sample.cold_max, tt, [])
  /\ get_temp_func Sample.cold_max = GetMaxTemp
  /\ (exists a b,
         readings Sample.cold_env (hwmon_path Sample.cold_max) [a; b]
         /\ (a == -5)%Q /\ (b == -3)%Q)
  /\ call_get_temp_func Sample.cold_env Sample.cold_max = Ok (-1)%Q.
Proof.
  split; [vm_compute; reflexivity|].
  split; [reflexivity|].
  split.
  - eexists. eexists. split.
    + repeat constructor.
    + split; vm_compute; reflexivity.
  - vm_compute. reflexivity.
Qed.

End AggregationClaims.

(** ** Frames: what a method leaves alone *)

Section Frames.

Context {St X : Type} (f : St -> X) (ok : event -> bool).

Lemma frames_ret {A} (a : A) : frames f ok (M.ret a).
Proof. intro s. split; reflexivity. Qed.

Lemma frames_raise {A} (e : exn) : frames f ok (@M.raise St A e).
Proof. intro s. split; reflexivity. Qed.

Lemma frames_get : frames f ok (@M.get St).
Proof. intro s. split; reflexivity. Qed.

Lemma frames_of_res {A} (r : res A) : frames f ok (@M.of_res St A r).
Proof. intro s. split; reflexivity. Qed.

Lemma frames_emit (e : event) : ok e = true -> frames f ok (@M.emit St e).
Proof. intros E s. split; [reflexivity|]. cbn. now rewrite E. Qed.

Lemma frames_modify (g : St -> St) :
  (forall s, f (g s) = f s) -> frames f ok (M.modify g).
Proof. intros G s. split; [apply G | reflexivity]. Qed.

Lemma frames_bind {A B} (c : M.t St A) (k : A -> M.t St B) :
  frames f ok c -> (forall a, frames f ok (k a)) -> frames f ok (M.bind c k).
Proof.
  intros Fc Fk s. unfold M.bind.
  destruct (Fc s) as [S1 T1].
  destruct (c s) as [[[a|e] s1] tr1]; cbn in *.
  - destruct (Fk a s1) as [S2 T2].
    destruct (k a s1) as [[r s2] tr2]; cbn in *.
    split; [congruence|]. rewrite forallb_app. now rewrite T1, T2.
  - split; assumption.
Qed.

Lemma frames_for_each {A} (xs : list A) (body : A -> M.t St unit) :
  (forall x, frames f ok (body x)) -> frames f ok (M.for_each xs body).
Proof.
  intro Fb. induction xs as [|x xs IH]; simpl.
  - apply frames_ret.
  - apply frames_bind; [apply Fb | intros _; exact IH].
Qed.

End Frames.

Lemma quiet_no_fan_writes (tr : list event) :
  forallb quiet tr = true -> fan_writes tr = [].
Proof.
  induction tr as [|e tr IH]; simpl; [reflexivity|].
  intro H. apply andb_prop in H. destruct H as [H1 H2].
  unfold fan_writes in *. simpl. unfold quiet in H1.
  destruct (is_fan_write e); [discriminate | now apply IH].
Qed.

(** ** The two zones respect the controller *)

#[export] Instance CpuZone_Laws : ZoneLaws CpuZone.t.
Proof.
  split.
  - reflexivity.
  - reflexivity.
  - intro env. apply frames_ret.
Qed.

Ltac frame_step :=
  match goal with
  | |- frames _ _ (M.bind _ _) => apply frames_bind; [|intro]
  | |- frames _ _ (M.ret _) => apply frames_ret
  | |- frames _ _ (M.raise _) => apply frames_raise
  | |- frames _ _ M.get => apply frames_get
  | |- frames _ _ (M.of_res _) => apply frames_of_res
  | |- frames _ _ (M.emit _) => apply frames_emit; reflexivity
  | |- frames _ _ (Log.msg _ _) => apply frames_emit; reflexivity
  | |- frames _ _ (M.modify _) => apply frames_modify; intro; reflexivity
  | |- frames _ _ (M.put _) => idtac
  | |- frames _ _ (M.for_each _ _) => apply frames_for_each; intro
  | |- frames _ _ (if ?c then _ else _) => destruct c
  | |- frames _ _ (match ?c with _ => _ end) => destruct c
  end.

Section HdZoneFrames.

Import HdZone.

Lemma assign_state_frames {X} (f : HdZone.t -> X) (ok : event -> bool)
      (i : nat) (v : bool) :
  (forall l s, f (set_standby_array_states l s) = f s) ->
  frames f ok (assign_state i v).
Proof.
  intros F s. unfold assign_state, M.bind, M.get, M.of_res, M.put.
  destruct (list_assign (standby_array_states s) i v); split; try reflexivity.
  apply F.
Qed.

Lemma check_standby_state_frames {X} (f : HdZone.t -> X) (ok : event -> bool)
      (env : Env) :
  (forall l s, f (set_standby_array_states l s) = f s) ->
  frames f ok (check_standby_state env).
Proof.
  intro F. unfold check_standby_state, check_one.
  repeat (first [apply assign_state_frames; exact F | frame_step]).
Qed.

Lemma go_standby_state_frames (env : Env) :
  frames fan quiet (go_standby_state env).
Proof.
  unfold go_standby_state, standby_one.
  repeat (first [apply assign_state_frames; reflexivity | frame_step]).
Qed.

Lemma run_standby_guard_frames (env : Env) :
  frames fan quiet (run_standby_guard env).
Proof.
  unfold run_standby_guard.
  repeat (first [apply check_standby_state_frames; reflexivity
                | apply go_standby_state_frames | frame_step]).
Qed.

End HdZoneFrames.

#[export] Instance HdZone_Laws : ZoneLaws HdZone.t.
Proof.
  split.
  - reflexivity.
  - reflexivity.
  - intro env. unfold callback_func; simpl. unfold HdZone.callback_func.
    repeat (first [apply run_standby_guard_frames | frame_step]).
Qed.

(** ** One tick *)

Section Tick.

Context {St : Type} `{ZoneLaws St}.

Import FanController.

Lemma base_polled (env : Env) (s : St) :
  base (polled env s) = set_last_time (monotonic env) (base s).
Proof. apply base_set_base. Qed.

Lemma base_after_callback (env : Env) (s : St) :
  base (M.state (callback_func env (polled env s)))
  = set_last_time (monotonic env) (base s).
Proof.
  destruct (callback_frames env (polled env s)) as [B _].
  rewrite B. apply base_polled.
Qed.

Lemma callback_no_fan_write (env : Env) (s : St) :
  fan_writes (M.trace (callback_func env s)) = [].
Proof.
  destruct (callback_frames env s) as [_ T].
  now apply quiet_no_fan_writes.
Qed.

Lemma fan_writes_app (a b : list event) :
  fan_writes (a ++ b) = fan_writes a ++ fan_writes b.
Proof. apply filter_app. Qed.

Lemma call_get_temp_func_last_time (env : Env) (v : Q) (b : FanController.t) :
  call_get_temp_func env (set_last_time v b) = call_get_temp_func env b.
Proof. reflexivity. Qed.

Lemma gain_and_level_last_time (v : Q) (b : FanController.t) (temp : Q) :
  gain_and_level (set_last_time v b) temp = gain_and_level b temp.
Proof. reflexivity. Qed.

Local Opaque Qabs Qminus Qplus Qmult Qltb Qleb.
Local Opaque call_get_temp_func gain_and_level.

(** The tick when the reading stays within the sensitivity. *)
Lemma run_steady (env : Env) (s s2 : St) (trc : list event) (temp : Q) :
  (polling (base s) <= monotonic env - last_time (base s))%Q ->
  callback_func env (polled env s) = (Ok tt, s2, trc) ->
  call_get_temp_func env (base s) = Ok temp ->
  (Qabs (temp - last_temp (base s)) < sensitivity (base s))%Q ->
  run env s
  = (Ok tt, s2, trc ++ [EvLog Log.LOG_DEBUG (TxtNewTemperature (name (base s)) temp)]).
Proof.
  intros Gate Cb Read Near.
  pose proof (base_after_callback env s) as B. rewrite Cb in B. cbn in B.
  apply Qltb_false in Gate. apply Qltb_spec in Near.
  unfold run, M.bind, M.get, M.modify, M.of_res, Log.msg, M.emit, M.ret.
  rewrite Gate. fold (polled env s). rewrite Cb.
  rewrite B, call_get_temp_func_last_time, Read. cbn.
  rewrite Near. reflexivity.
Qed.

(** What the tick leaves when the reading stays within the sensitivity. *)
Lemma run_steady_outcome (env : Env) (s : St) (temp : Q) :
  (polling (base s) <= monotonic env - last_time (base s))%Q ->
  M.result (callback_func env (polled env s)) = Ok tt ->
  call_get_temp_func env (base s) = Ok temp ->
  (Qabs (temp - last_temp (base s)) < sensitivity (base s))%Q ->
  M.result (run env s) = Ok tt
  /\ last_temp (base (M.state (run env s))) = last_temp (base s)
  /\ last_level (base (M.state (run env s))) = last_level (base s)
  /\ last_time (base (M.state (run env s))) = monotonic env
  /\ fan_writes (M.trace (run env s)) = []
  /\ M.trace (run env s)
     = M.trace (callback_func env (polled env s))
       ++ [EvLog Log.LOG_DEBUG (TxtNewTemperature (name (base s)) temp)].
Proof.
  intros Gate Cb Read Near.
  pose proof (base_after_callback env s) as B.
  pose proof (callback_no_fan_write env (polled env s)) as W.
  destruct (callback_func env (polled env s)) as [[r s2] trc] eqn:E.
  unfold M.result, M.state, M.trace in *. cbn [fst snd] in *. subst r.
  rewrite (run_steady env s s2 trc temp Gate E Read Near). cbn [fst snd].
  rewrite B.
  repeat split; try reflexivity.
  rewrite fan_writes_app, W. reflexivity.
Qed.

(** C2. When the polling interval has elapsed and the temperature read
    differs from last_temp by less than the sensitivity, the tick
    returns with last_temp and last_level unchanged and no fan-level
    write, and last_time is the current time; the only action after the
    callback is the debug line of the reading.  So with sensitivity 3
    and a move from 40 to 42.5 the level is not recomputed and last_temp
    stays 40. *)
Theorem run_within_sensitivity (env : Env) (s : St) (temp : Q) :
  (polling (base s) <= monotonic env - last_time (base s))%Q ->
  M.result (callback_func env (polled env s)) = Ok tt ->
  call_get_temp_func env (base s) = Ok temp ->
  (Qabs (temp - last_temp (base s)) < sensitivity (base s))%Q ->
  M.result (run env s) = Ok tt
  /\ last_temp (base (M.state (run env s))) = last_temp (base s)
  /\ last_level (base (M.state (run env s))) = last_level (base s)
  /\ last_time (base (M.state (run env s))) = monotonic env
  /\ fan_writes (M.trace (run env s)) = []
  /\ M.trace (run env s)
     = M.trace (callback_func env (polled env s))
       ++ [EvLog Log.LOG_DEBUG (TxtNewTemperature (name (base s)) temp)].
Proof. apply run_steady_outcome. Qed.

(** The tick when the sensors cannot be read. *)
Lemma run_read_failure (env : Env) (s s2 : St) (trc : list event) (e : exn) :
  (polling (base s) <= monotonic env - last_time (base s))%Q ->
  callback_func env (polled env s) = (Ok tt, s2, trc) ->
  call_get_temp_func env (base s) = Raise e ->
  run env s = (Raise e, s2, trc).
Proof.
  intros Gate Cb Read.
  pose proof (base_after_callback env s) as B. rewrite Cb in B. cbn in B.
  apply Qltb_false in Gate.
  unfold run, M.bind, M.get, M.modify, M.of_res, Log.msg, M.emit, M.ret.
  rewrite Gate. fold (polled env s). rewrite Cb.
  rewrite B, call_get_temp_func_last_time, Read. cbn.
  now rewrite app_nil_r.
Qed.

(** The tick when the new level differs from the last one, up to the
    outcome [r], [trw] of the fan-level command. *)
Lemma run_new_level (env : Env) (s s2 : St) (trc trw : list event)
      (temp : Q) (g l : Z) (r : res unit) :
  (polling (base s) <= monotonic env - last_time (base s))%Q ->
  callback_func env (polled env s) = (Ok tt, s2, trc) ->
  call_get_temp_func env (base s) = Ok temp ->
  (sensitivity (base s) <= Qabs (temp - last_temp (base s)))%Q ->
  gain_and_level (base s) temp = Ok (g, l) ->
  l <> last_level (base s) ->
  (forall u : St, set_fan_level env (base s) l u = (r, u, trw)) ->
  run env s
  = (r,
     set_base (set_last_level l (set_last_temp temp
                 (set_last_time (monotonic env) (base s)))) s2,
     trc ++ [EvLog Log.LOG_DEBUG (TxtNewTemperature (name (base s)) temp)]
         ++ trw
         ++ match r with
            | Ok _ => [EvLog Log.LOG_INFO
                         (TxtNewLevel (name (base s)) temp
                            (min_temp (base s) + inject_Z g * temp_step (base s))%Q l)]
            | Raise _ => []
            end).
Proof.
  intros Gate Cb Read Far Gain New Write.
  pose proof (base_after_callback env s) as B. rewrite Cb in B. cbn in B.
  apply Qltb_false in Gate. apply Qltb_false in Far.
  apply Z.eqb_neq in New.
  unfold run, M.bind, M.get, M.modify, M.of_res, Log.msg, M.emit, M.ret.
  rewrite Gate. fold (polled env s). rewrite Cb.
  rewrite B, call_get_temp_func_last_time, Read. cbn.
  rewrite Far. rewrite gain_and_level_last_time, Gain. cbn.
  rewrite New. cbn.
  rewrite !base_set_base. cbn.
  assert (W : forall u : St,
             set_fan_level env (set_last_time (monotonic env) (base s)) l u
             = (r, u, trw)) by exact Write.
  rewrite W. destruct r as [[]|e]; cbn;
    rewrite ?B, ?app_nil_r, ?set_base_set_base; reflexivity.
Qed.

Lemma set_fan_level_frames {X} (f : St -> X) (env : Env) (b : FanController.t) (l : Z) :
  frames f (fun _ => true) (set_fan_level env b l).
Proof.
  unfold set_fan_level, Ipmi.set_fan_level.
  repeat frame_step.
Qed.

Lemma callback_keeps_clock (env : Env) :
  frames (fun s => last_time (base s)) (fun _ => true) (callback_func env).
Proof.
  intro s. destruct (callback_frames env s) as [B _].
  split; [now rewrite B|]. apply forallb_forall. reflexivity.
Qed.

(** Once the gate of step 1 is passed, the tick ends with last_time at
    the current time, however it ends. *)
Lemma run_advances_clock (env : Env) (s : St) :
  (polling (base s) <= monotonic env - last_time (base s))%Q ->
  last_time (base (M.state (run env s))) = monotonic env.
Proof.
  intro Gate. apply Qltb_false in Gate.
  unfold run. unfold M.bind at 1, M.get at 1. rewrite Gate.
  unfold M.bind at 1, M.modify at 1. fold (polled env s).
  match goal with
  | |- context [M.bind (callback_func env) ?k (polled env s)] =>
      assert (F : frames (fun s => last_time (base s)) (fun _ => true)
                    (M.bind (callback_func env) k))
  end.
  { apply frames_bind; [apply callback_keeps_clock|intros _].
    apply frames_bind; [apply frames_get|intro self].
    apply frames_bind; [apply frames_of_res|intro temp].
    apply frames_bind; [apply frames_emit; reflexivity|intros _].
    match goal with
    | |- frames _ _ (if ?c then _ else _) => destruct c; [apply frames_ret|]
    end.
    apply frames_bind.
    { apply frames_modify. intro u. now rewrite base_set_base. }
    intros _. apply frames_bind; [apply frames_of_res|intro gl].
    match goal with
    | |- frames _ _ (if ?c then _ else _) => destruct c; [|apply frames_ret]
    end.
    apply frames_bind.
    { apply frames_modify. intro u. now rewrite base_set_base. }
    intros _. apply frames_bind; [apply set_fan_level_frames|intros _].
    apply frames_emit; reflexivity. }
  destruct (F (polled env s)) as [E _].
  match goal with
  | |- context [M.bind (callback_func env) ?k (polled env s)] =>
      destruct (M.bind (callback_func env) k (polled env s)) as [[r s2] tr]
  end.
  unfold M.state in *. cbn [fst snd] in *. rewrite E, base_polled. reflexivity.
Qed.

End Tick.

(** ** Construction *)

Lemma bind_ok_inv {St A B} (c : M.t St A) (k : A -> M.t St B)
      (s s' : St) (b : B) (tr : list event) :
  M.bind c k s = (Ok b, s', tr) ->
  exists a s1 tr1 tr2,
    c s = (Ok a, s1, tr1) /\ k a s1 = (Ok b, s', tr2) /\ tr = tr1 ++ tr2.
Proof.
  unfold M.bind. destruct (c s) as [[[a|e] s1] tr1]; [|discriminate].
  destruct (k a s1) as [[r s2] tr2] eqn:K. intro E. injection E as -> -> <-.
  exists a, s1, tr1, tr2. auto.
Qed.

Section Construction.

Import FanController.

Variable build : Env -> Z -> list string -> option (list string) -> res (list string).
Variables (env : Env) (log : Log.t) (ipmi : Ipmi.t) (ipmi_zone : Z) (name : string).
Variables (count temp_calc steps : Z) (sensitivity polling min_temp max_temp : Q).
Variables (min_level max_level : Z) (current : list string).
Variable hwmon_path : option (list string).

Let construct : M.t unit FanController.t :=
  init build env log ipmi ipmi_zone name count temp_calc steps sensitivity
    polling min_temp max_temp min_level max_level current hwmon_path.

(** What a successful construction has checked and stored. *)
Lemma init_ok (self : FanController.t) (u : unit) (tr : list event) :
  construct tt = (Ok self, u, tr) ->
  0 < count /\ 0 < steps /\ (0 < sensitivity)%Q /\ (0 <= polling)%Q
  /\ (min_temp <= max_temp)%Q /\ min_level <= max_level
  /\ exists paths,
      build env count current hwmon_path = Ok paths
      /\ self
         = {| FanController.log := log; FanController.ipmi := ipmi;
              FanController.ipmi_zone := ipmi_zone; FanController.name := name;
              FanController.count := count; FanController.temp_calc := temp_calc;
              FanController.steps := steps;
              FanController.sensitivity := sensitivity;
              FanController.polling := polling;
              FanController.min_temp := min_temp;
              FanController.max_temp := max_temp;
              FanController.min_level := min_level;
              FanController.max_level := max_level;
              FanController.hwmon_path := paths;
              temp_step := ((max_temp - min_temp) / inject_Z steps)%Q;
              level_step := (inject_Z (max_level - min_level) / inject_Z steps)%Q;
              last_time := (monotonic env - (polling + 1))%Q;
              last_temp := 0%Q;
              last_level := 0;
              get_temp_func :=
                if count =? 1 then Get1Temp
                else if temp_calc =? CALC_MIN then GetMinTemp
                else if temp_calc =? CALC_MAX then GetMaxTemp
                else GetAvgTemp |}.
Proof.
  unfold construct, init.
  repeat match goal with
         | |- (if ?c then _ else _) tt = _ -> _ =>
             let C := fresh "C" in destruct c eqn:C; [discriminate|]
         end.
  intro E.
  apply bind_ok_inv in E. destruct E as (paths & u1 & tr1 & tr2 & E1 & E & _).
  apply bind_ok_inv in E. destruct E as (x2 & u2 & tr3 & tr4 & _ & E & _).
  apply bind_ok_inv in E. destruct E as (x3 & u3 & tr5 & tr6 & _ & E & _).
  unfold M.ret in E. injection E as <- _ _.
  unfold M.of_res in E1. injection E1 as E1 _ _.
  repeat match goal with
         | C : (_ <=? _) = false |- _ => apply Z.leb_gt in C
         | C : (_ <? _) = false |- _ => apply Z.ltb_ge in C
         | C : Qleb _ _ = false |- _ => apply Qleb_false in C
         | C : Qltb _ _ = false |- _ => apply Qltb_false in C
         end.
  repeat (split; [assumption|]).
  exists paths. split; [exact E1 | reflexivity].
Qed.

(** A constructed controller is a valid configuration of the curve. *)
Lemma init_valid (self : FanController.t) (u : unit) (tr : list event) :
  construct tt = (Ok self, u, tr) -> valid self.
Proof.
  intro E. apply init_ok in E.
  destruct E as (C & S & _ & _ & T & L & paths & _ & ->).
  constructor; cbn; try reflexivity; try assumption. lia.
Qed.

End Construction.

(** ** Claims on the tick *)

Lemma run_within_sensitivity_witness :
  let s := FanController.set_last_temp 40 Sample.cpu in
  let env := Sample.env 200 42500 in
  ((FanController.polling s <= monotonic env - FanController.last_time s)%Q
   /\ FanController.call_get_temp_func env s = Ok (42500 / 1000)%Q
   /\ (Qabs (42500 / 1000 - 40) < FanController.sensitivity s)%Q)
  /\ M.result (run env s) = Ok tt
  /\ FanController.last_temp (M.state (run env s)) = 40%Q
  /\ FanController.last_level (M.state (run env s)) = 0
  /\ FanController.last_time (M.state (run env s)) = 200%Q
  /\ fan_writes (M.trace (run env s)) = [].
Proof.
  intros s env.
  assert (G : (FanController.polling s
               <= monotonic env - FanController.last_time s)%Q)
    by (vm_compute; congruence).
  assert (R : FanController.call_get_temp_func env s = Ok (42500 / 1000)%Q)
    by reflexivity.
  assert (N : (Qabs (42500 / 1000 - 40) < FanController.sensitivity s)%Q)
    by (vm_compute; reflexivity).
  split; [auto|].
  destruct (@run_within_sensitivity CpuZone.t CpuZone_Zone CpuZone_Laws
              env s (42500 / 1000)%Q G eq_refl R N) as (A & B & C & D & E & _).
  auto.
Defined.

Section TickFailure.

Context {St : Type} `{ZoneLaws St}.

Import FanController.

Lemma set_fan_level_raises (env : Env) (b : FanController.t) (l : Z) (e : exn) :
  M.result (set_fan_level env b l tt) = Raise e ->
  forall u : St, set_fan_level env b l u = (Raise e, u, []).
Proof.
  unfold set_fan_level, Ipmi.set_fan_level.
  destruct (negb _); [cbn; intros [= <-]; reflexivity|].
  destruct (negb _); [cbn; intros [= <-]; reflexivity|].
  destruct (negb _); [cbn; intros [= <-]; reflexivity|].
  cbn. discriminate.
Qed.

(** C4 (as amended). After the polling gate, a tick that ends with an
    exception has already moved last_time to the current time.  A failed
    sensor read ends the tick with that exception, last_temp and
    last_level as they were and no fan-level write; a failed fan-level
    write ends the tick with that exception and no fan-level command
    carried out. *)
Theorem run_failure_state (env : Env) (s : St) :
  (polling (base s) <= monotonic env - last_time (base s))%Q ->
  (forall e, M.result (run env s) = Raise e ->
             last_time (base (M.state (run env s))) = monotonic env)
  /\ (forall e,
        M.result (callback_func env (polled env s)) = Ok tt ->
        call_get_temp_func env (base s) = Raise e ->
        M.result (run env s) = Raise e
        /\ last_temp (base (M.state (run env s))) = last_temp (base s)
        /\ last_level (base (M.state (run env s))) = last_level (base s)
        /\ fan_writes (M.trace (run env s)) = [])
  /\ (forall temp g l e,
        M.result (callback_func env (polled env s)) = Ok tt ->
        call_get_temp_func env (base s) = Ok temp ->
        (sensitivity (base s) <= Qabs (temp - last_temp (base s)))%Q ->
        gain_and_level (base s) temp = Ok (g, l) ->
        l <> last_level (base s) ->
        M.result (set_fan_level env (base s) l tt) = Raise e ->
        M.result (run env s) = Raise e
        /\ fan_writes (M.trace (run env s)) = []).
Proof.
  intro Gate. split; [|split].
  - intros e _. now apply run_advances_clock.
  - intros e Cb Read.
    pose proof (base_after_callback env s) as B.
    pose proof (callback_no_fan_write env (polled env s)) as W.
    destruct (callback_func env (polled env s)) as [[r s2] trc] eqn:E.
    unfold M.result, M.state, M.trace in *. cbn [fst snd] in *. subst r.
    rewrite (run_read_failure env s s2 trc e Gate E Read). cbn [fst snd].
    rewrite B. auto.
  - intros temp g l e Cb Read Far Gain New Write.
    pose proof (callback_no_fan_write env (polled env s)) as W.
    destruct (callback_func env (polled env s)) as [[r s2] trc] eqn:E.
    unfold M.result, M.state, M.trace in Cb, W. cbn [fst snd] in Cb, W. subst r.
    rewrite (run_new_level env s s2 trc [] temp g l (Raise e)
               Gate E Read Far Gain New (set_fan_level_raises env _ l e Write)).
    unfold M.result, M.trace. cbn [fst snd]. split; [reflexivity|].
    rewrite !fan_writes_app, W. reflexivity.
Qed.

End TickFailure.

Lemma run_failure_state_witness :
  let env := Sample.env_files 200 [] in
  (FanController.polling Sample.after_first_tick
   <= monotonic env - FanController.last_time Sample.after_first_tick)%Q
  /\ M.result (run env Sample.after_first_tick) = Raise (IOError Sample.sensor0)
  /\ FanController.last_time (M.state (run env Sample.after_first_tick)) = 200%Q
  /\ FanController.last_temp (M.state (run env Sample.after_first_tick))
     = FanController.last_temp Sample.after_first_tick
  /\ FanController.last_level (M.state (run env Sample.after_first_tick)) = 67.
Proof.
  intro env.
  assert (G : (FanController.polling Sample.after_first_tick
               <= monotonic env - FanController.last_time Sample.after_first_tick)%Q)
    by (vm_compute; congruence).
  split; [exact G|].
  destruct (@run_failure_state CpuZone.t CpuZone_Zone CpuZone_Laws
              env Sample.after_first_tick G)
    as (A & B & _).
  destruct (B (IOError Sample.sensor0) eq_refl eq_refl) as (R & T & L & _).
  split; [exact R|]. split; [exact (A _ R)|]. split; [exact T|].
  etransitivity; [exact L | vm_compute; reflexivity].
Defined.

(** C4 as stated fails: the first tick succeeds and leaves last_time at
    100; the second tick aborts on the sensor read, and the state it
    leaves differs from the one after the first tick: last_time is 200. *)
Lemma run_failure_counterexample :
  M.result (run (Sample.env 100 45000) Sample.cpu) = Ok tt
  /\ FanController.last_time Sample.after_first_tick = 100%Q
  /\ M.result (run (Sample.env_files 200 []) Sample.after_first_tick)
     = Raise (IOError Sample.sensor0)
  /\ FanController.last_time
       (M.state (run (Sample.env_files 200 []) Sample.after_first_tick)) = 200%Q
  /\ M.state (run (Sample.env_files 200 []) Sample.after_first_tick) <> Sample.after_first_tick.
Proof.
  repeat split; try (vm_compute; reflexivity).
  intro E. apply (f_equal FanController.last_time) in E.
  vm_compute in E. discriminate.
Qed.

Section FirstTick.

Import FanController.

Variable build : Env -> Z -> list string -> option (list string) -> res (list string).
Variables (env0 : Env) (log : Log.t) (ipmi : Ipmi.t) (ipmi_zone : Z) (name : string).
Variables (count temp_calc steps : Z) (sensitivity polling min_temp max_temp : Q).
Variables (min_level max_level : Z) (current : list string).
Variable hwmon_path : option (list string).

(** C10. A constructed controller has last_temp = 0, last_level = 0 and
    last_time = now - (polling + 1).  Hence, the clock being monotonic,
    the first tick of any zone built on it passes the polling gate, and
    its sensitivity test compares the reading with 0: a first reading of
    absolute value below the sensitivity returns without computing a
    level or writing one, the only action after the callback being the
    debug line of the reading. *)
Theorem first_tick (self : FanController.t) (u : unit) (tr0 : list event) :
  init build env0 log ipmi ipmi_zone name count temp_calc steps sensitivity
    polling min_temp max_temp min_level max_level current hwmon_path tt
  = (Ok self, u, tr0) ->
  last_temp self = 0%Q
  /\ last_level self = 0
  /\ last_time self = (monotonic env0 - (polling + 1))%Q
  /\ forall (St : Type) (Z0 : Zone St) (L0 : ZoneLaws St) (s : St) (env : Env),
      base s = self ->
      (monotonic env0 <= monotonic env)%Q ->
      Qltb (monotonic env - last_time (base s)) (FanController.polling (base s)) = false
      /\ forall temp,
          M.result (callback_func env (polled env s)) = Ok tt ->
          call_get_temp_func env (base s) = Ok temp ->
          (Qabs temp < FanController.sensitivity (base s))%Q ->
          M.result (run env s) = Ok tt
          /\ fan_writes (M.trace (run env s)) = []
          /\ last_temp (base (M.state (run env s))) = 0%Q
          /\ last_level (base (M.state (run env s))) = 0
          /\ M.trace (run env s)
             = M.trace (callback_func env (polled env s))
               ++ [EvLog Log.LOG_DEBUG
                     (TxtNewTemperature (FanController.name (base s)) temp)].
Proof.
  intro E. apply init_ok in E.
  destruct E as (_ & _ & _ & P & _ & _ & paths & _ & ->).
  repeat (split; [reflexivity|]).
  intros St Z0 L0 s env B Mono.
  assert (Gate : (FanController.polling (base s)
                  <= monotonic env - last_time (base s))%Q).
  { rewrite B. cbn. lra. }
  split; [now apply Qltb_false|].
  intros temp Cb Read Near.
  assert (Near' : (Qabs (temp - last_temp (base s))
                   < FanController.sensitivity (base s))%Q).
  { assert (LT : last_temp (base s) = 0%Q) by (rewrite B; reflexivity).
    rewrite LT.
    assert (T : (temp - 0 == temp)%Q) by ring.
    rewrite T. exact Near. }
  destruct (run_steady_outcome env s temp Gate Cb Read Near')
    as (R & T & Lv & _ & W & Tr).
  split; [exact R|]. split; [exact W|].
  split; [rewrite T, B; reflexivity|].
  split; [rewrite Lv, B; reflexivity | exact Tr].
Qed.

End FirstTick.

Lemma first_tick_witness :
  CpuZone.init (Sample.env 100 45000) Sample.log Sample.ipmi Sample.cpu_section tt
  = (Ok Sample.cpu, tt, [])
  /\ FanController.last_temp Sample.cpu = 0%Q
  /\ FanController.last_level Sample.cpu = 0
  /\ FanController.last_time Sample.cpu = (100 - (2 + 1))%Q
  /\ M.result (run (Sample.env 101 2000) Sample.cpu) = Ok tt
  /\ fan_writes (M.trace (run (Sample.env 101 2000) Sample.cpu)) = [].
Proof.
  split; [exact sample_cpu_built|].
  destruct (first_tick _ _ _ _ _ _ _ _ _ _ _ _ _ _ _ _ _ _ _ _ sample_cpu_built)
    as (A & B & C & D).
  split; [exact A|]. split; [exact B|]. split; [exact C|].
  destruct (D CpuZone.t CpuZone_Zone CpuZone_Laws Sample.cpu
              (Sample.env 101 2000) eq_refl) as (_ & F).
  - vm_compute. congruence.
  - destruct (F (2000 / 1000)%Q eq_refl eq_refl) as (R & W & _).
    + vm_compute. reflexivity.
    + split; [exact R | exact W].
Defined.

(** ** The standby guard *)

Section ListIndex.

Context {A : Type}.

Lemma list_assign_at (pre post : list A) (x v : A) :
  list_assign (pre ++ x :: post) (List.length pre) v = Ok (pre ++ v :: post).
Proof.
  induction pre as [|y pre IH]; simpl; [reflexivity|]. now rewrite IH.
Qed.

Lemma list_item_at (pre post : list A) (x : A) :
  list_item (pre ++ x :: post) (List.length pre) = Ok x.
Proof.
  unfold list_item. rewrite nth_error_app2 by lia.
  now rewrite Nat.sub_diag.
Qed.

End ListIndex.

Section Guard.

Import HdZone.

Variable env : Env.

Lemma set_states_same (s : HdZone.t) :
  set_standby_array_states (standby_array_states s) s = s.
Proof. now destruct s. Qed.

(** One turn of the loop of [check_standby_state]. *)
Lemma check_one_ok (s : HdZone.t) (pre post : list bool) (x : bool)
      (npre npost : list string) (d : string) :
  standby_array_states s = pre ++ x :: post ->
  hd_device_names s = npre ++ d :: npost ->
  List.length pre = List.length npre ->
  query_ok env d ->
  check_one env (List.length pre) s
  = (Ok tt, set_standby_array_states (pre ++ reports_standby env d :: post) s, []).
Proof.
  intros S N L (r & Q & RC).
  unfold check_one, assign_state, M.bind, M.get, M.of_res, M.put, M.raise, M.ret.
  rewrite S, list_assign_at. cbn.
  rewrite N, L, list_item_at, Q. cbn.
  assert (C : negb ((returncode r =? 0) || (returncode r =? 2)) = false).
  { destruct RC as [-> | ->]; reflexivity. }
  rewrite C. unfold reports_standby. rewrite Q.
  destruct (contains "STANDBY" (stdout r)); cbn.
  - rewrite <- L, list_assign_at. reflexivity.
  - reflexivity.
Qed.

Lemma check_loop_ok (npost : list string) :
  forall (s : HdZone.t) (pre post : list bool) (npre : list string),
    standby_array_states s = pre ++ post ->
    hd_device_names s = npre ++ npost ->
    List.length pre = List.length npre ->
    List.length post = List.length npost ->
    Forall (query_ok env) npost ->
    M.for_each (seq (List.length pre) (List.length npost)) (check_one env) s
    = (Ok tt,
       set_standby_array_states (pre ++ map (reports_standby env) npost) s, []).
Proof.
  induction npost as [|d npost IH]; intros s pre post npre S N L LP Q.
  - destruct post; [|discriminate]. simpl.
    rewrite <- S. now rewrite set_states_same.
  - destruct post as [|x post]; [discriminate|].
    inversion Q as [|? ? Qd Qr]; subst.
    simpl. unfold M.bind.
    rewrite (check_one_ok s pre post x npre npost d S N L Qd).
    specialize (IH (set_standby_array_states
                      (pre ++ reports_standby env d :: post) s)
                   (pre ++ [reports_standby env d]) post (npre ++ [d])).
    rewrite !length_app in IH. simpl in IH.
    rewrite !Nat.add_1_r in IH.
    rewrite IH.
    + cbn. rewrite <- app_assoc. reflexivity.
    + cbn. now rewrite <- app_assoc.
    + cbn. now rewrite <- app_assoc.
    + congruence.
    + simpl in LP. congruence.
    + exact Qr.
Qed.

Lemma count_occ_true (l : list string) (f : string -> bool) :
  count_occ bool_dec (map f l) true = List.length (filter f l).
Proof.
  induction l as [|x l IH]; simpl; [reflexivity|].
  destruct (f x); simpl; [now rewrite IH | exact IH].
Qed.

(** With every query answered, [check_standby_state] stores the answers
    and returns the number of disks in standby. *)
Lemma check_standby_state_ok (s : HdZone.t) :
  well_formed s ->
  Forall (query_ok env) (hd_device_names s) ->
  check_standby_state env s
  = (Ok (standby_count env (hd_device_names s)),
     set_standby_array_states (map (reports_standby env) (hd_device_names s)) s,
     []).
Proof.
  intros [WC WL] Q.
  unfold check_standby_state, M.bind at 1, M.get at 1. unfold M.bind at 1.
  unfold range. rewrite <- WC, Nat2Z.id.
  pose proof (check_loop_ok (hd_device_names s) s [] (standby_array_states s) []
                eq_refl eq_refl eq_refl WL Q) as E.
  cbn [List.length app] in E. rewrite E.
  unfold M.bind, M.get, M.ret. cbn.
  unfold standby_count. now rewrite count_occ_true.
Qed.

(** One turn of the loop of [go_standby_state]. *)
Lemma standby_one_ok (s : HdZone.t) (pre post : list bool) (x : bool)
      (npre npost : list string) (d : string) :
  standby_array_states s = pre ++ x :: post ->
  hd_device_names s = npre ++ d :: npost ->
  List.length pre = List.length npre ->
  (x = false -> write_ok env d) ->
  standby_one env (List.length pre) s
  = (Ok tt, set_standby_array_states (pre ++ true :: post) s,
     if x then [] else [EvStandby d]).
Proof.
  intros S N L W.
  unfold standby_one, assign_state, M.bind, M.get, M.of_res, M.put, M.raise,
    M.ret, M.emit.
  rewrite S, list_item_at. destruct x; cbn.
  - rewrite <- S. now rewrite set_states_same.
  - destruct (W eq_refl) as (r & Q & RC).
    rewrite N, L, list_item_at, Q. cbn. rewrite RC. cbn.
    rewrite S, <- L, list_assign_at. reflexivity.
Qed.

Lemma go_loop_ok (npost : list string) :
  forall (s : HdZone.t) (pre : list bool) (npre : list string),
    standby_array_states s = pre ++ map (reports_standby env) npost ->
    hd_device_names s = npre ++ npost ->
    List.length pre = List.length npre ->
    Forall (fun d => reports_standby env d = false -> write_ok env d) npost ->
    M.for_each (seq (List.length pre) (List.length npost)) (standby_one env) s
    = (Ok tt,
       set_standby_array_states (pre ++ map (fun _ => true) npost) s,
       map EvStandby (active_disks env npost)).
Proof.
  induction npost as [|d npost IH]; intros s pre npre S N L W.
  - simpl in *. rewrite <- S. now rewrite set_states_same.
  - inversion W as [|? ? Wd Wr]; subst.
    simpl in S. simpl. unfold M.bind.
    rewrite (standby_one_ok s pre _ _ npre npost d S N L Wd).
    specialize (IH (set_standby_array_states
                      (pre ++ true :: map (reports_standby env) npost) s)
                   (pre ++ [true]) (npre ++ [d])).
    rewrite !length_app in IH. simpl in IH.
    rewrite !Nat.add_1_r in IH.
    rewrite IH.
    + cbn. rewrite <- app_assoc. cbn.
      destruct (reports_standby env d); reflexivity.
    + cbn. now rewrite <- app_assoc.
    + cbn. now rewrite <- app_assoc.
    + congruence.
    + exact Wr.
Qed.

(** With every needed command carried out, [go_standby_state] puts each
    disk recorded as active to standby, once, in order. *)
Lemma go_standby_state_ok (s : HdZone.t) :
  Z.of_nat (List.length (hd_device_names s)) = count s ->
  standby_array_states s = map (reports_standby env) (hd_device_names s) ->
  Forall (fun d => reports_standby env d = false -> write_ok env d)
         (hd_device_names s) ->
  go_standby_state env s
  = (Ok tt,
     set_standby_array_states (map (fun _ => true) (hd_device_names s)) s,
     map EvStandby (active_disks env (hd_device_names s))).
Proof.
  intros WC S W.
  unfold go_standby_state, M.bind at 1, M.get at 1.
  unfold range. rewrite <- WC, Nat2Z.id.
  pose proof (go_loop_ok (hd_device_names s) s [] [] S eq_refl eq_refl W) as E.
  cbn [List.length app] in E. rewrite E. reflexivity.
Qed.

Lemma state_str_loop_ok (states : list bool) (idx : list nat) :
  Forall (fun i => (i < List.length states)%nat) idx ->
  forall acc, exists str, state_str_loop states idx acc = Ok str.
Proof.
  induction 1 as [|i idx Li _ IH]; intro acc; simpl.
  - now exists acc.
  - unfold list_item. destruct (nth_error states i) as [b|] eqn:E.
    + destruct b; apply IH.
    + apply nth_error_None in E. lia.
Qed.

Lemma get_standby_state_str_ok (s : HdZone.t) :
  Z.of_nat (List.length (standby_array_states s)) = count s ->
  exists str, get_standby_state_str s = Ok str.
Proof.
  intro L. unfold get_standby_state_str. apply state_str_loop_ok.
  apply Forall_forall. intros i I. unfold range in I.
  apply in_seq in I. lia.
Qed.

End Guard.

Section GuardClaims.

Import HdZone.

Variable env : Env.

Lemma filter_length_lt_iff (f : string -> bool) (l : list string) :
  (List.length (filter f l) < List.length l)%nat
  <-> Exists (fun d => f d = false) l.
Proof.
  induction l as [|x l IH]; simpl.
  - split; [lia | intro E; inversion E].
  - pose proof (filter_length_le f l) as LE.
    destruct (f x) eqn:F; simpl.
    + split.
      * intro L. right. apply IH. lia.
      * intro E. inversion E as [? ? Fx|? ? El]; subst; [congruence|].
        apply IH in El. lia.
    + split; [intros _; now left | lia].
Qed.

Lemma standby_writes_log (level : Z) (text : log_text) (tr : list event) :
  standby_writes (EvLog level text :: tr) = standby_writes tr.
Proof. reflexivity. Qed.

Lemma standby_writes_map (l : list string) :
  standby_writes (map EvStandby l) = map EvStandby l.
Proof.
  induction l as [|d l IH]; [reflexivity|].
  unfold standby_writes in *. simpl. now rewrite IH.
Qed.

(** C3. On an invocation of the standby guard in which the disks answer
    the queries and carry out the commands sent to them: if the
    aggregate flag is false and the number of disks reporting standby is
    at least the threshold, every disk reporting active receives one
    standby command, in configured order, the flag becomes true and the
    timestamp is the current time; if the flag is true and some disk
    reports active, the flag becomes false and the timestamp is the
    current time, with no standby command; otherwise the flag and the
    timestamp are unchanged. *)
Theorem run_standby_guard_transitions (s : HdZone.t) :
  well_formed s ->
  Forall (query_ok env) (hd_device_names s) ->
  (standby_flag s = false ->
   standby_hd_limit s <= standby_count env (hd_device_names s) ->
   Forall (write_ok env) (active_disks env (hd_device_names s)) ->
   M.result (run_standby_guard env s) = Ok tt
   /\ standby_writes (M.trace (run_standby_guard env s))
      = map EvStandby (active_disks env (hd_device_names s))
   /\ standby_flag (M.state (run_standby_guard env s)) = true
   /\ standby_change_timestamp (M.state (run_standby_guard env s))
      = monotonic_guard env)
  /\ (standby_flag s = true ->
      Exists (fun d => reports_standby env d = false) (hd_device_names s) ->
      M.result (run_standby_guard env s) = Ok tt
      /\ standby_writes (M.trace (run_standby_guard env s)) = []
      /\ standby_flag (M.state (run_standby_guard env s)) = false
      /\ standby_change_timestamp (M.state (run_standby_guard env s))
         = monotonic_guard env)
  /\ (~ (standby_flag s = false
         /\ standby_hd_limit s <= standby_count env (hd_device_names s)) ->
      ~ (standby_flag s = true
         /\ Exists (fun d => reports_standby env d = false) (hd_device_names s)) ->
      M.result (run_standby_guard env s) = Ok tt
      /\ standby_writes (M.trace (run_standby_guard env s)) = []
      /\ standby_flag (M.state (run_standby_guard env s)) = standby_flag s
      /\ standby_change_timestamp (M.state (run_standby_guard env s))
         = standby_change_timestamp s).
Proof.
  intros WF Q.
  pose proof (check_standby_state_ok env s WF Q) as C.
  destruct WF as [WC WL].
  set (s1 := set_standby_array_states
               (map (reports_standby env) (hd_device_names s)) s) in *.
  assert (STR : exists str, get_standby_state_str s1 = Ok str).
  { apply get_standby_state_str_ok. subst s1. cbn.
    rewrite length_map. exact WC. }
  destruct STR as [str STR].
  assert (ACT : (standby_count env (hd_device_names s) <? count s) = true
                <-> Exists (fun d => reports_standby env d = false)
                           (hd_device_names s)).
  { rewrite <- filter_length_lt_iff. rewrite Z.ltb_lt.
    unfold standby_count. rewrite <- WC. lia. }
  split; [|split].
  - intros F L W.
    assert (W' : Forall (fun d => reports_standby env d = false -> write_ok env d)
                        (hd_device_names s1)).
    { apply Forall_forall. intros d I A.
      rewrite Forall_forall in W. apply W. unfold active_disks.
      apply filter_In. split; [exact I | now rewrite A]. }
    pose proof (go_standby_state_ok env s1 WC eq_refl W') as G.
    apply Z.leb_le in L.
    unfold run_standby_guard, M.bind, M.get, M.of_res, M.modify, Log.msg, M.emit.
    rewrite C. cbn [standby_flag s1 set_standby_array_states standby_hd_limit].
    fold s1. rewrite F, L. cbn [negb andb]. rewrite STR, G.
    unfold M.result, M.state, M.trace. cbn [fst snd app].
    rewrite standby_writes_log, app_nil_r, standby_writes_map.
    repeat split; reflexivity.
  - intros F A. apply ACT in A.
    unfold run_standby_guard, M.bind, M.get, M.of_res, M.modify, Log.msg, M.emit.
    rewrite C. cbn [standby_flag s1 set_standby_array_states standby_hd_limit].
    fold s1. rewrite F. cbn [negb andb].
    change (count s1) with (count s). rewrite A, STR.
    unfold M.result, M.state, M.trace. cbn [fst snd app].
    repeat split; reflexivity.
  - intros N1 N2.
    unfold run_standby_guard, M.bind, M.get, M.of_res, M.modify, Log.msg, M.emit,
      M.ret.
    rewrite C. cbn [standby_flag s1 set_standby_array_states standby_hd_limit].
    fold s1. change (count s1) with (count s).
    destruct (standby_flag s) eqn:F; cbn [negb andb].
    + destruct (standby_count env (hd_device_names s) <? count s) eqn:A.
      * exfalso. apply N2. split; [reflexivity | now apply ACT].
      * unfold M.result, M.state, M.trace. cbn [fst snd app].
        repeat split; try reflexivity. exact F.
    + destruct (standby_hd_limit s <=? standby_count env (hd_device_names s)) eqn:L.
      * exfalso. apply N1. split; [reflexivity | now apply Z.leb_le].
      * unfold M.result, M.state, M.trace. cbn [fst snd app].
        repeat split; try reflexivity. exact F.
Qed.

End GuardClaims.

Lemma sample_hd_built :
  HdZone.init (Sample.env 100 35000) Sample.log Sample.ipmi (Sample.hd_section 1) tt
  = (Ok Sample.hd, tt, []).
Proof. vm_compute. reflexivity. Qed.

Lemma sample_hd_well_formed : HdZone.well_formed Sample.hd.
Proof. split; reflexivity. Qed.

Lemma sample_hd_asleep_well_formed : HdZone.well_formed Sample.hd_asleep.
Proof. split; reflexivity. Qed.

Lemma run_standby_guard_transitions_witness :
  (HdZone.standby_flag Sample.hd = false
   /\ HdZone.standby_hd_limit Sample.hd = 1
   /\ HdZone.standby_count Sample.one_asleep Sample.disks = 1)
  /\ (M.result (HdZone.run_standby_guard Sample.one_asleep Sample.hd) = Ok tt
      /\ standby_writes (M.trace (HdZone.run_standby_guard Sample.one_asleep Sample.hd))
         = [EvStandby "/dev/disk/by-id/ata-A"; EvStandby "/dev/disk/by-id/ata-C";
            EvStandby "/dev/disk/by-id/ata-D"]
      /\ HdZone.standby_flag Sample.hd_asleep = true
      /\ HdZone.standby_change_timestamp Sample.hd_asleep = 201%Q)
  /\ (M.result (HdZone.run_standby_guard (Sample.env 300 35000) Sample.hd_asleep) = Ok tt
      /\ standby_writes
           (M.trace (HdZone.run_standby_guard (Sample.env 300 35000) Sample.hd_asleep))
         = []
      /\ HdZone.standby_flag
           (M.state (HdZone.run_standby_guard (Sample.env 300 35000) Sample.hd_asleep))
         = false).
Proof.
  split; [repeat split|].
  assert (Q1 : Forall (HdZone.query_ok Sample.one_asleep)
                      (HdZone.hd_device_names Sample.hd)).
  { repeat constructor; eexists; (split; [reflexivity|]); cbn; auto. }
  assert (Q2 : Forall (HdZone.query_ok (Sample.env 300 35000))
                      (HdZone.hd_device_names Sample.hd_asleep)).
  { repeat constructor; eexists; (split; [reflexivity|]); cbn; auto. }
  destruct (run_standby_guard_transitions Sample.one_asleep Sample.hd
              sample_hd_well_formed Q1) as (A & _ & _).
  destruct (run_standby_guard_transitions (Sample.env 300 35000) Sample.hd_asleep
              sample_hd_asleep_well_formed Q2) as (_ & B & _).
  split.
  - destruct A as (R & W & F & T).
    + reflexivity.
    + vm_compute. congruence.
    + repeat constructor; eexists; (split; reflexivity).
    + split; [exact R|]. split; [exact W|]. split; [exact F | exact T].
  - destruct B as (R & W & F & _).
    + reflexivity.
    + left. reflexivity.
    + split; [exact R|]. split; [exact W | exact F].
Defined.

(** ** Construction of the HD zone *)

Section HdConstruction.

Import HdZone.

Lemma init_only_debug build env log ipmi ipmi_zone name count temp_calc steps
      sensitivity polling min_temp max_temp min_level max_level current hwmon_path :
  frames (fun _ : unit => tt) is_debug_log
    (FanController.init build env log ipmi ipmi_zone name count temp_calc steps
       sensitivity polling min_temp max_temp min_level max_level current hwmon_path).
Proof.
  unfold FanController.init, FanController.print_temp_level_mapping.
  repeat frame_step.
Qed.

Lemma debug_is_no_notice (tr : list event) :
  forallb is_debug_log tr = true -> filter is_guard_notice tr = [].
Proof.
  induction tr as [|e tr IH]; simpl; [reflexivity|].
  intro H. apply andb_prop in H. destruct H as [H1 H2].
  rewrite (IH H2).
  destruct e as [level text| | |]; try discriminate.
  simpl in H1. apply Z.eqb_eq in H1. subst level. now destruct text.
Qed.

(** C9. When the HD zone has one disk, whatever the configured flag, a
    successful construction leaves the standby guard disabled and has
    logged the notice exactly once; the callback of every tick then does
    nothing: no query, no command, no change. *)
Theorem single_disk_guard_off (env : Env) (log : Log.t) (ipmi : Ipmi.t)
        (config : Config.section) (self : HdZone.t) (u : unit) (tr : list event) :
  Config.fallback (Config.count config) 1 = 1 ->
  init env log ipmi config tt = (Ok self, u, tr) ->
  standby_guard_enabled self = false
  /\ List.length (filter is_guard_notice tr) = 1%nat
  /\ forall env', callback_func env' self = (Ok tt, self, []).
Proof.
  intros C1 E. unfold init in E. rewrite C1 in E.
  change (1 <=? 0) with false in E. cbv iota in E.
  destruct (Config.hd_names config) as [names|]; [|discriminate].
  destruct (negb _); [discriminate|].
  apply bind_ok_inv in E. destruct E as (fc & u1 & tr1 & tr2 & E1 & E & ->).
  assert (D : forallb is_debug_log tr1 = true).
  { match type of E1 with
    | ?c tt = _ =>
        assert (F : frames (fun _ : unit => tt) is_debug_log c)
          by apply init_only_debug;
        destruct (F tt) as [_ D]
    end.
    rewrite E1 in D. exact D. }
  apply init_ok in E1.
  destruct E1 as (_ & _ & _ & _ & _ & _ & paths & _ & ->).
  cbn [FanController.count] in E.
  change (1 =? 1) with true in E. cbv iota in E.
  apply bind_ok_inv in E. destruct E as ([] & u2 & tr3 & tr4 & E2 & E & ->).
  cbv in E2. injection E2 as <- <-.
  apply bind_ok_inv in E. destruct E as (s0 & u3 & tr5 & tr6 & E3 & E & ->).
  cbv [M.ret] in E3. injection E3 as <- <- <-.
  apply bind_ok_inv in E. destruct E as ([] & u4 & tr7 & tr8 & E4 & E & ->).
  cbv [M.ret] in E. injection E as <- <- <-.
  split; [reflexivity|]. split.
  - rewrite !filter_app, (debug_is_no_notice _ D). cbn [app].
    destruct (Log.LOG_DEBUG <=? Log.log_level log).
    + cbv in E4. injection E4; intros; subst; reflexivity.
    + cbv in E4. injection E4; intros; subst; reflexivity.
  - intro env'. reflexivity.
Qed.

Lemma single_disk_guard_off_witness :
  Config.fallback (Config.count (Sample.hd1_section true)) 1 = 1
  /\ Config.standby_guard_enabled (Sample.hd1_section true) = Some true
  /\ M.result (init (Sample.env 100 35000) Sample.log Sample.ipmi
                 (Sample.hd1_section true) tt)
     = Ok (Sample.built (without_guard Sample.cpu [])
             (init (Sample.env 100 35000) Sample.log Sample.ipmi
                (Sample.hd1_section true) tt))
  /\ standby_guard_enabled
       (Sample.built (without_guard Sample.cpu [])
          (init (Sample.env 100 35000) Sample.log Sample.ipmi
             (Sample.hd1_section true) tt)) = false
  /\ List.length
       (filter is_guard_notice
          (M.trace (init (Sample.env 100 35000) Sample.log Sample.ipmi
                      (Sample.hd1_section true) tt))) = 1%nat.
Proof.
  split; [reflexivity|]. split; [reflexivity|]. split; [reflexivity|].
  destruct (init (Sample.env 100 35000) Sample.log Sample.ipmi
              (Sample.hd1_section true) tt) as [[r u] tr] eqn:E.
  destruct r as [self|e]; [|vm_compute in E; discriminate].
  destruct (single_disk_guard_off (Sample.env 100 35000) Sample.log Sample.ipmi
              (Sample.hd1_section true) self u tr eq_refl E) as (A & B & _).
  split; [exact A | exact B].
Defined.

End HdConstruction.

(** ** What construction refuses *)

Section Rejection.

Lemma config_error_bind {St A B} (c : M.t St A) (k : A -> M.t St B) (s : St) :
  config_error (M.result (c s)) -> config_error (M.result (M.bind c k s)).
Proof.
  intros [msg E]. exists msg. unfold M.bind.
  destruct (c s) as [[r s1] tr1]. unfold M.result in *. cbn [fst] in *.
  now subst r.
Qed.

(** [FanController.__init__] refuses reversed temperatures, reversed
    levels and a path list that the subclass refuses. *)
Lemma init_rejects build env log ipmi ipmi_zone name count temp_calc steps
      sensitivity polling (min_temp max_temp : Q) (min_level max_level : Z)
      current hwmon_path :
  (max_temp < min_temp)%Q
  \/ max_level < min_level
  \/ config_error (build env count current hwmon_path) ->
  config_error
    (M.result
       (FanController.init build env log ipmi ipmi_zone name count temp_calc
          steps sensitivity polling min_temp max_temp min_level max_level
          current hwmon_path tt)).
Proof.
  intro Bad. unfold FanController.init.
  repeat match goal with
         | |- config_error (M.result ((if ?c then _ else _) tt)) =>
             let C := fresh "C" in
             destruct c eqn:C; [eexists; reflexivity|]
         end.
  destruct Bad as [T | [L | [msg B]]].
  - exfalso. apply Qltb_spec in T. congruence.
  - exfalso. apply Z.ltb_lt in L. congruence.
  - apply config_error_bind. exists msg.
    unfold M.of_res, M.result. cbn [fst]. exact B.
Qed.

Lemma build_hwmon_path_length env count current (paths : list string) :
  Z.of_nat (List.length paths) <> count ->
  config_error (FanController.build_hwmon_path env count current (Some paths)).
Proof.
  intro N. unfold FanController.build_hwmon_path.
  apply Z.eqb_neq in N. rewrite N. eexists; reflexivity.
Qed.

(** The standby-guard attributes survive the first query of the disks. *)
Lemma check_keeps_guard_config (env : Env) (s : HdZone.t) :
  HdZone.standby_hd_limit (M.state (HdZone.check_standby_state env s))
  = HdZone.standby_hd_limit s
  /\ HdZone.count (M.state (HdZone.check_standby_state env s)) = HdZone.count s.
Proof.
  split.
  - now destruct (check_standby_state_frames HdZone.standby_hd_limit
                    (fun _ => true) env (fun _ _ => eq_refl) s).
  - now destruct (check_standby_state_frames HdZone.count
                    (fun _ => true) env (fun _ _ => eq_refl) s).
Qed.

(** C8 (as amended). Construction of a zone controller fails with a
    configuration error, and creates no controller, when the list of
    sensor endpoints given has a length different from the sensor count,
    when max_temp < min_temp, or when max_level < min_level; and
    construction of the standby guard enforces 0 <= threshold <= disk
    count: a zone built with the guard on satisfies it, and a threshold
    outside it lets no zone be built. *)
Theorem construction_rejects (env : Env) (log : Log.t) (ipmi : Ipmi.t)
        (config : Config.section) :
  ((exists paths, Config.hwmon_path config = Some paths
                  /\ Z.of_nat (List.length paths)
                     <> Config.fallback (Config.count config) 1)
   \/ (Config.fallback (Config.max_temp config) 60
       < Config.fallback (Config.min_temp config) 30)%Q
   \/ Config.fallback (Config.max_level config) 100
      < Config.fallback (Config.min_level config) 35 ->
   config_error (M.result (CpuZone.init env log ipmi config tt)))
  /\ ((exists paths, Config.hwmon_path config = Some paths
                     /\ Z.of_nat (List.length paths)
                        <> Config.fallback (Config.count config) 1)
      \/ (Config.fallback (Config.max_temp config) 46
          < Config.fallback (Config.min_temp config) 32)%Q
      \/ Config.fallback (Config.max_level config) 100
         < Config.fallback (Config.min_level config) 35 ->
      config_error (M.result (HdZone.init env log ipmi config tt)))
  /\ (forall self u tr,
         HdZone.init env log ipmi config tt = (Ok self, u, tr) ->
         HdZone.standby_guard_enabled self = true ->
         0 <= HdZone.standby_hd_limit self <= HdZone.count self)
  /\ (Config.fallback (Config.standby_guard_enabled config) false = true ->
      Config.fallback (Config.count config) 1 <> 1 ->
      Config.fallback (Config.standby_hd_limit config) 1 < 0
      \/ Config.fallback (Config.count config) 1
         < Config.fallback (Config.standby_hd_limit config) 1 ->
      forall self, M.result (HdZone.init env log ipmi config tt) <> Ok self).
Proof.
  split; [|split; [|split]].
  - intro Bad. unfold CpuZone.init.
    destruct (_ <=? 0); [eexists; reflexivity|].
    apply init_rejects.
    destruct Bad as [(paths & P & N) | [T | L]]; auto.
    right. right. rewrite P. unfold CpuZone.build_hwmon_path.
    now apply build_hwmon_path_length.
  - intro Bad. unfold HdZone.init.
    destruct (_ <=? 0); [eexists; reflexivity|].
    destruct (Config.hd_names config) as [names|]; [|eexists; reflexivity].
    destruct (negb _); [eexists; reflexivity|].
    apply config_error_bind. apply init_rejects.
    destruct Bad as [(paths & P & N) | [T | L]]; auto.
    right. right. rewrite P. unfold HdZone.build_hwmon_path.
    now apply build_hwmon_path_length.
  - intros self u tr E G. unfold HdZone.init in E.
    destruct (_ <=? 0); [discriminate|].
    destruct (Config.hd_names config) as [names|]; [|discriminate].
    destruct (negb _); [discriminate|].
    apply bind_ok_inv in E. destruct E as (fc & u1 & tr1 & tr2 & E1 & E & ->).
    apply bind_ok_inv in E. destruct E as ([] & u2 & tr3 & tr4 & _ & E & ->).
    apply bind_ok_inv in E. destruct E as (s0 & u3 & tr5 & tr6 & E3 & E & ->).
    apply bind_ok_inv in E. destruct E as ([] & u4 & tr7 & tr8 & _ & E & ->).
    cbv [M.ret] in E. injection E as <- <- <-.
    destruct (if FanController.count fc =? 1 then false
              else Config.fallback (Config.standby_guard_enabled config) false).
    + destruct (_ <? 0) eqn:L0; [discriminate|].
      destruct (FanController.count fc <? _) eqn:L1; [discriminate|].
      apply bind_ok_inv in E3.
      destruct E3 as ([n s1] & u5 & tr9 & tr10 & E5 & E3 & ->).
      cbv [M.ret] in E3. injection E3 as <- <- <-.
      unfold M.on in E5.
      match type of E5 with
      | context [HdZone.check_standby_state env ?s] =>
          pose proof (check_keeps_guard_config env s) as [K1 K2];
          destruct (HdZone.check_standby_state env s) as [[[n'|e] s2] tr11];
          [|discriminate]
      end.
      injection E5 as <- <- <- <-.
      unfold M.state in K1, K2. cbn [fst snd] in K1, K2.
      cbn [HdZone.standby_hd_limit HdZone.set_standby_flag
             HdZone.set_standby_change_timestamp].
      unfold HdZone.count in *.
      cbn [HdZone.fan HdZone.set_standby_flag
             HdZone.set_standby_change_timestamp].
      rewrite K1, K2. cbn [HdZone.standby_hd_limit HdZone.fan].
      apply Z.ltb_ge in L0. apply Z.ltb_ge in L1. lia.
    + cbv [M.ret] in E3. injection E3 as <- <- <-. discriminate.
  - intros G C1 Bad self E.
    destruct (HdZone.init env log ipmi config tt) as [[r u] tr] eqn:E0.
    unfold M.result in E. cbn [fst] in E. subst r.
    unfold HdZone.init in E0.
    destruct (_ <=? 0); [discriminate|].
    destruct (Config.hd_names config) as [names|]; [|discriminate].
    destruct (negb _); [discriminate|].
    apply bind_ok_inv in E0. destruct E0 as (fc & u1 & tr1 & tr2 & E1 & E & ->).
    apply init_ok in E1.
    destruct E1 as (_ & _ & _ & _ & _ & _ & paths & _ & ->).
    cbn [FanController.count] in E.
    apply Z.eqb_neq in C1. rewrite C1, G in E.
    apply bind_ok_inv in E. destruct E as ([] & u2 & tr3 & tr4 & _ & E & ->).
    apply bind_ok_inv in E. destruct E as (s0 & u3 & tr5 & tr6 & E3 & _ & ->).
    destruct Bad as [B | B].
    + apply Z.ltb_lt in B. rewrite B in E3. discriminate.
    + destruct (_ <? 0); [discriminate|].
      apply Z.ltb_lt in B. rewrite B in E3. discriminate.
Qed.

End Rejection.

Lemma construction_rejects_witness :
  ((Config.fallback (Config.max_temp Sample.reversed_section) 60
    < Config.fallback (Config.min_temp Sample.reversed_section) 30)%Q
   /\ config_error
        (M.result (CpuZone.init (Sample.env 100 45000) Sample.log Sample.ipmi
                     Sample.reversed_section tt)))
  /\ (Config.fallback (Config.count (Sample.hd_section 5)) 1
      < Config.fallback (Config.standby_hd_limit (Sample.hd_section 5)) 1
      /\ forall self,
           M.result (HdZone.init (Sample.env 100 35000) Sample.log Sample.ipmi
                       (Sample.hd_section 5) tt) <> Ok self).
Proof.
  split.
  - assert (T : (Config.fallback (Config.max_temp Sample.reversed_section) 60
                 < Config.fallback (Config.min_temp Sample.reversed_section) 30)%Q)
      by reflexivity.
    split; [exact T|].
    destruct (construction_rejects (Sample.env 100 45000) Sample.log Sample.ipmi
                Sample.reversed_section) as (A & _).
    apply A. right. left. exact T.
  - assert (L : Config.fallback (Config.count (Sample.hd_section 5)) 1
                < Config.fallback (Config.standby_hd_limit (Sample.hd_section 5)) 1)
      by reflexivity.
    split; [exact L|].
    destruct (construction_rejects (Sample.env 100 35000) Sample.log Sample.ipmi
                (Sample.hd_section 5)) as (_ & _ & _ & D).
    apply D; [reflexivity | discriminate | right; exact L].
Defined.

(** C8 as stated fails on the lower bound: with four disks, the guard
    enabled and a threshold of 0 the HD zone is constructed, with the
    guard on and the threshold 0 stored. *)
Lemma guard_limit_zero_counterexample :
  Config.standby_hd_limit (Sample.hd_section 0) = Some 0
  /\ exists self,
      M.result (HdZone.init (Sample.env 100 35000) Sample.log Sample.ipmi
                  (Sample.hd_section 0) tt) = Ok self
      /\ HdZone.standby_guard_enabled self = true
      /\ HdZone.standby_hd_limit self = 0
      /\ HdZone.count self = 4
      /\ ~ (1 <= HdZone.standby_hd_limit self <= HdZone.count self).
Proof.
  split; [reflexivity|].
  eexists. split; [vm_compute; reflexivity|].
  split; [reflexivity|]. split; [reflexivity|]. split; [reflexivity|].
  cbn. lia.
Qed.

(** ** The main loop *)

Lemma frames_weaken {St A X Y} (f : St -> X) (g : X -> Y) (ok ok' : event -> bool)
      (c : M.t St A) :
  (forall e, ok e = true -> ok' e = true) ->
  frames f ok c -> frames (fun s => g (f s)) ok' c.
Proof.
  intros W F s. destruct (F s) as [E T]. split; [now rewrite E|].
  rewrite forallb_forall in *. auto.
Qed.

Lemma run_not_error {St} `{ZoneLaws St} (env : Env) :
  frames (fun _ : St => tt) not_error (run env).
Proof.
  unfold run.
  apply frames_bind; [apply frames_get|intro self].
  destruct (Qltb _ _); [apply frames_ret|].
  apply frames_bind; [apply frames_modify; reflexivity|intros _].
  apply frames_bind.
  { apply (frames_weaken base (fun _ => tt) quiet not_error).
    - intros e Q. unfold quiet in Q. apply andb_prop in Q. tauto.
    - apply callback_frames. }
  intros _.
  unfold FanController.set_fan_level, Ipmi.set_fan_level.
  repeat frame_step.
Qed.

Lemma not_error_filter (tr : list event) :
  forallb not_error tr = true -> filter is_error_log tr = [].
Proof.
  induction tr as [|e tr IH]; simpl; [reflexivity|].
  intro H. apply andb_prop in H. destruct H as [H1 H2].
  unfold not_error in H1. destruct (is_error_log e); [discriminate|auto].
Qed.

Section MainLoop.

Import Main.

Variables (w : World) (wait : Q).

Lemma run_cpu_zone_quiet (env : Env) (st : Main.t) :
  my_hd_zone (M.state (run_cpu_zone env st)) = my_hd_zone st
  /\ filter is_error_log (M.trace (run_cpu_zone env st)) = [].
Proof.
  unfold run_cpu_zone. destruct (my_cpu_zone st) as [z|]; [|split; reflexivity].
  destruct (run_not_error (St := CpuZone.t) env z) as [_ T].
  destruct (run env z) as [[r z'] tr]. split; [reflexivity|].
  now apply not_error_filter.
Qed.

Lemma run_hd_zone_quiet (env : Env) (st : Main.t) :
  filter is_error_log (M.trace (run_hd_zone env st)) = [].
Proof.
  unfold run_hd_zone. destruct (my_hd_zone st) as [z|]; [|reflexivity].
  destruct (run_not_error (St := HdZone.t) env z) as [_ T].
  destruct (run env z) as [[r z'] tr].
  now apply not_error_filter.
Qed.

(** C5 (as amended). An error raised in a tick is not caught: it leaves
    [run] and the main loop, which ends with it.  When the tick of the
    CPU zone raises, the loop ends as that tick ended, the HD zone is not
    run and stays as it was; when the tick of the HD zone raises, the
    loop ends there, before sleeping.  In both cases no later iteration
    takes place and no line is logged at ERROR severity. *)
Theorem tick_error_ends_loop (n i : nat) (st : Main.t) (e : exn) :
  (M.result (run_cpu_zone (cpu_env w i) st) = Raise e ->
   loop w wait (S n) i st = run_cpu_zone (cpu_env w i) st
   /\ M.result (loop w wait (S n) i st) = Raise e
   /\ my_hd_zone (M.state (loop w wait (S n) i st)) = my_hd_zone st
   /\ filter is_error_log (M.trace (loop w wait (S n) i st)) = [])
  /\ (M.result (run_cpu_zone (cpu_env w i) st) = Ok tt ->
      M.result (run_hd_zone (hd_env w i) (M.state (run_cpu_zone (cpu_env w i) st)))
      = Raise e ->
      M.result (loop w wait (S n) i st) = Raise e
      /\ M.trace (loop w wait (S n) i st)
         = M.trace (run_cpu_zone (cpu_env w i) st)
           ++ M.trace (run_hd_zone (hd_env w i)
                         (M.state (run_cpu_zone (cpu_env w i) st)))
      /\ filter is_error_log (M.trace (loop w wait (S n) i st)) = []).
Proof.
  split.
  - intro E.
    assert (L : loop w wait (S n) i st = run_cpu_zone (cpu_env w i) st).
    { simpl. unfold iteration, M.bind.
      destruct (run_cpu_zone (cpu_env w i) st) as [[r st1] tr1].
      unfold M.result in E. cbn [fst] in E. now subst r. }
    rewrite L. split; [reflexivity|]. split; [exact E|].
    apply run_cpu_zone_quiet.
  - intros E1 E2.
    pose proof (run_cpu_zone_quiet (cpu_env w i) st) as [_ Q1].
    pose proof (run_hd_zone_quiet (hd_env w i)
                  (M.state (run_cpu_zone (cpu_env w i) st))) as Q2.
    simpl. unfold iteration, M.bind.
    destruct (run_cpu_zone (cpu_env w i) st) as [[r st1] tr1].
    unfold M.result, M.state, M.trace in *. cbn [fst snd] in *. subst r.
    destruct (run_hd_zone (hd_env w i) st1) as [[r st2] tr2].
    cbn [fst snd] in *. subst r. cbn [fst snd].
    split; [reflexivity|]. split; [reflexivity|].
    now rewrite filter_app, Q1, Q2.
Qed.

End MainLoop.

Lemma tick_error_ends_loop_witness :
  M.result (Main.run_cpu_zone (Main.cpu_env SampleMain.cpu_sensor_lost 0)
              SampleMain.both) = Raise (IOError Sample.sensor0)
  /\ M.result (Main.loop SampleMain.cpu_sensor_lost 1 3 0 SampleMain.both)
     = Raise (IOError Sample.sensor0)
  /\ Main.my_hd_zone
       (M.state (Main.loop SampleMain.cpu_sensor_lost 1 3 0 SampleMain.both))
     = Some Sample.hd
  /\ filter is_error_log
       (M.trace (Main.loop SampleMain.cpu_sensor_lost 1 3 0 SampleMain.both)) = [].
Proof.
  assert (E : M.result (Main.run_cpu_zone
                          (Main.cpu_env SampleMain.cpu_sensor_lost 0)
                          SampleMain.both) = Raise (IOError Sample.sensor0))
    by reflexivity.
  split; [exact E|].
  destruct (tick_error_ends_loop SampleMain.cpu_sensor_lost 1 2 0 SampleMain.both
              (IOError Sample.sensor0)) as (A & _).
  destruct (A E) as (_ & R & H & Q).
  split; [exact R|]. split; [exact H | exact Q].
Defined.

(** C5 as stated fails: both zones are enabled and the HD zone could run
    its tick, but the sensor of the CPU zone cannot be read; the loop,
    asked for three iterations, ends in the first with the IOError of the
    CPU tick, the HD zone has not run, and nothing was logged at ERROR
    severity. *)
Lemma tick_error_counterexample :
  M.result (run (Main.hd_env SampleMain.cpu_sensor_lost 0) Sample.hd) = Ok tt
  /\ M.result (Main.main_loop SampleMain.cpu_sensor_lost 3 SampleMain.both)
     = Raise (IOError Sample.sensor0)
  /\ Main.my_hd_zone
       (M.state (Main.main_loop SampleMain.cpu_sensor_lost 3 SampleMain.both))
     = Some Sample.hd
  /\ filter is_error_log
       (M.trace (Main.main_loop SampleMain.cpu_sensor_lost 3 SampleMain.both)) = []
  /\ List.length
       (M.trace (Main.main_loop SampleMain.cpu_sensor_lost 3 SampleMain.both))
     = 1%nat.
Proof.
  repeat split; vm_compute; reflexivity.
Qed.

(** * Further properties of the code *)

(** ** Every way a tick can go *)

Section TickCases.

Context {St : Type} `{ZoneLaws St}.

Import FanController.

Local Opaque Qabs Qminus Qplus Qmult Qltb Qleb.
Local Opaque call_get_temp_func gain_and_level.

(** Before the polling interval has elapsed the tick does nothing. *)
Lemma run_gate_closed (env : Env) (s : St) :
  (monotonic env - last_time (base s) < polling (base s))%Q ->
  run env s = (Ok tt, s, []).
Proof.
  intro Gate. apply Qltb_spec in Gate.
  unfold run, M.bind, M.get, M.ret. now rewrite Gate.
Qed.

(** The tick when the callback raises. *)
Lemma run_callback_failure (env : Env) (s s2 : St) (trc : list event) (e : exn) :
  (polling (base s) <= monotonic env - last_time (base s))%Q ->
  callback_func env (polled env s) = (Raise e, s2, trc) ->
  run env s = (Raise e, s2, trc).
Proof.
  intros Gate Cb. apply Qltb_false in Gate.
  unfold run, M.bind, M.get, M.modify.
  rewrite Gate. fold (polled env s). now rewrite Cb.
Qed.

(** The tick when the computed level is the last level. *)
Lemma run_same_level (env : Env) (s s2 : St) (trc : list event)
      (temp : Q) (g : Z) :
  (polling (base s) <= monotonic env - last_time (base s))%Q ->
  callback_func env (polled env s) = (Ok tt, s2, trc) ->
  call_get_temp_func env (base s) = Ok temp ->
  (sensitivity (base s) <= Qabs (temp - last_temp (base s)))%Q ->
  gain_and_level (base s) temp = Ok (g, last_level (base s)) ->
  run env s
  = (Ok tt,
     set_base (set_last_temp temp (set_last_time (monotonic env) (base s))) s2,
     trc ++ [EvLog Log.LOG_DEBUG (TxtNewTemperature (name (base s)) temp)]).
Proof.
  intros Gate Cb Read Far Gain.
  pose proof (base_after_callback env s) as B. rewrite Cb in B. cbn in B.
  apply Qltb_false in Gate. apply Qltb_false in Far.
  unfold run, M.bind, M.get, M.modify, M.of_res, Log.msg, M.emit, M.ret.
  rewrite Gate. fold (polled env s). rewrite Cb.
  rewrite B, call_get_temp_func_last_time, Read. cbn.
  rewrite Far. rewrite gain_and_level_last_time, Gain. cbn.
  rewrite Z.eqb_refl. cbn. rewrite ?B, ?app_nil_r. reflexivity.
Qed.

(** The tick when the level cannot be computed. *)
Lemma run_level_failure (env : Env) (s s2 : St) (trc : list event)
      (temp : Q) (e : exn) :
  (polling (base s) <= monotonic env - last_time (base s))%Q ->
  callback_func env (polled env s) = (Ok tt, s2, trc) ->
  call_get_temp_func env (base s) = Ok temp ->
  (sensitivity (base s) <= Qabs (temp - last_temp (base s)))%Q ->
  gain_and_level (base s) temp = Raise e ->
  run env s
  = (Raise e,
     set_base (set_last_temp temp (set_last_time (monotonic env) (base s))) s2,
     trc ++ [EvLog Log.LOG_DEBUG (TxtNewTemperature (name (base s)) temp)]).
Proof.
  intros Gate Cb Read Far Gain.
  pose proof (base_after_callback env s) as B. rewrite Cb in B. cbn in B.
  apply Qltb_false in Gate. apply Qltb_false in Far.
  unfold run, M.bind, M.get, M.modify, M.of_res, Log.msg, M.emit, M.ret.
  rewrite Gate. fold (polled env s). rewrite Cb.
  rewrite B, call_get_temp_func_last_time, Read. cbn.
  rewrite Far. rewrite gain_and_level_last_time, Gain. cbn.
  rewrite ?B, ?app_nil_r. reflexivity.
Qed.

(** The two outcomes of the fan-level command. *)
Lemma set_fan_level_outcome (env : Env) (b : FanController.t) (l : Z) :
  (exists e, forall u : St, set_fan_level env b l u = (Raise e, u, []))
  \/ ((forall u : St,
         set_fan_level env b l u
         = (Ok tt, u, [EvFanLevel (ipmi_zone b) l;
                       EvSleep (inject_Z (Ipmi.fan_level_delay (ipmi b)))]))
      /\ 0 <= l <= 100 /\ ipmitool_found env = true
      /\ (ipmi_zone b = Ipmi.CPU_ZONE \/ ipmi_zone b = Ipmi.HD_ZONE)).
Proof.
  unfold set_fan_level, Ipmi.set_fan_level.
  destruct ((ipmi_zone b =? Ipmi.CPU_ZONE) || (ipmi_zone b =? Ipmi.HD_ZONE)) eqn:Z1;
    cbn [negb]; [|left; eexists; reflexivity].
  destruct ((0 <=? l) && (l <? 101)) eqn:Z2;
    cbn [negb]; [|left; eexists; reflexivity].
  destruct (ipmitool_found env) eqn:Z3;
    cbn [negb]; [|left; eexists; reflexivity].
  right. split; [reflexivity|].
  apply andb_prop in Z2. destruct Z2 as [A B].
  apply Z.leb_le in A. apply Z.ltb_lt in B.
  apply orb_prop in Z1.
  split; [lia|]. split; [reflexivity|].
  destruct Z1 as [Z1|Z1]; apply Z.eqb_eq in Z1; auto.
Qed.

Lemma fan_writes_debug_line (trc : list event) (text : log_text) (rest : list event) :
  fan_writes trc = [] ->
  fan_writes (trc ++ EvLog Log.LOG_DEBUG text :: rest) = fan_writes rest.
Proof.
  intro W. rewrite fan_writes_app, W. reflexivity.
Qed.

(** Every tick of every zone ends in one of these ways. *)
Lemma run_tick_end (env : Env) (s : St) :
  tick_end env (base s)
    (M.result (run env s)) (base (M.state (run env s)))
    (fan_writes (M.trace (run env s))).
Proof.
  destruct (Qlt_le_dec (monotonic env - last_time (base s)) (polling (base s)))
    as [Closed|Gate].
  { rewrite (run_gate_closed env s Closed). eapply EndIdle; eauto. }
  pose proof (base_after_callback env s) as B.
  pose proof (callback_no_fan_write env (polled env s)) as W.
  destruct (callback_func env (polled env s)) as [[[[]|e] s2] trc] eqn:Cb;
    unfold M.state, M.trace in B, W; cbn [fst snd] in B, W.
  2:{ rewrite (run_callback_failure env s s2 trc e Gate Cb).
      unfold M.result, M.state, M.trace. cbn [fst snd]. rewrite B, W.
      eapply EndCallback; eauto. }
  destruct (call_get_temp_func env (base s)) as [temp|e] eqn:Read.
  2:{ rewrite (run_read_failure env s s2 trc e Gate Cb Read).
      unfold M.result, M.state, M.trace. cbn [fst snd]. rewrite B, W.
      eapply EndRead; eauto. }
  destruct (Qlt_le_dec (Qabs (temp - last_temp (base s))) (sensitivity (base s)))
    as [Near|Far].
  { rewrite (run_steady env s s2 trc temp Gate Cb Read Near).
    unfold M.result, M.state, M.trace. cbn [fst snd].
    rewrite B, (fan_writes_debug_line trc _ [] W).
    eapply EndNear; eauto. }
  destruct (gain_and_level (base s) temp) as [[g l]|e] eqn:Gain.
  2:{ rewrite (run_level_failure env s s2 trc temp e Gate Cb Read Far Gain).
      unfold M.result, M.state, M.trace. cbn [fst snd].
      rewrite base_set_base, (fan_writes_debug_line trc _ [] W).
      eapply EndLevelError; eauto. }
  destruct (Z.eq_dec l (last_level (base s))) as [Same|New].
  { subst l.
    rewrite (run_same_level env s s2 trc temp g Gate Cb Read Far Gain).
    unfold M.result, M.state, M.trace. cbn [fst snd].
    rewrite base_set_base, (fan_writes_debug_line trc _ [] W).
    eapply EndSame; eauto. }
  destruct (set_fan_level_outcome env (base s) l) as [[e Wr]|[Wr [R _]]].
  - rewrite (run_new_level env s s2 trc [] temp g l (Raise e)
               Gate Cb Read Far Gain New Wr).
    unfold M.result, M.state, M.trace. cbn [fst snd app].
    rewrite base_set_base, (fan_writes_debug_line trc _ _ W).
    eapply EndWriteError; eauto.
  - rewrite (run_new_level env s s2 trc _ temp g l (Ok tt)
               Gate Cb Read Far Gain New Wr).
    unfold M.result, M.state, M.trace. cbn [fst snd app].
    rewrite base_set_base, (fan_writes_debug_line trc _ _ W).
    eapply EndWritten; eauto.
Qed.

End TickCases.

(** The gain and the level computed for a temperature stay within the
    configured steps and levels. *)
Lemma gain_and_level_bounds (b : FanController.t) (temp : Q) (g l : Z) :
  FanController.valid b ->
  FanController.gain_and_level b temp = Ok (g, l) ->
  0 <= g <= FanController.steps b
  /\ FanController.min_level b <= l <= FanController.max_level b.
Proof.
  intros V E.
  pose proof (FanController.valid_steps b V) as VS.
  pose proof (FanController.valid_level b V) as VL.
  destruct (Qlt_le_dec (FanController.min_temp b) temp) as [L1|L1].
  - destruct (Qlt_le_dec temp (FanController.max_temp b)) as [L2|L2].
    + rewrite (gain_and_level_mid b V temp L1 L2) in E.
      injection E as <- <-.
      pose proof (gain_mid_bounds b V temp L1 L2) as G.
      split; [exact G|]. now apply level_of_gain_bounds.
    + rewrite (gain_and_level_high b temp L1 L2) in E.
      injection E as <- <-. lia.
  - rewrite (gain_and_level_low b temp L1) in E.
    injection E as <- <-. lia.
Qed.

Lemma gain_and_level_total (b : FanController.t) (temp : Q) :
  FanController.valid b ->
  exists g l, FanController.gain_and_level b temp = Ok (g, l).
Proof.
  intro V.
  destruct (Qlt_le_dec (FanController.min_temp b) temp) as [L1|L1].
  - destruct (Qlt_le_dec temp (FanController.max_temp b)) as [L2|L2].
    + rewrite (gain_and_level_mid b V temp L1 L2). eauto.
    + rewrite (gain_and_level_high b temp L1 L2). eauto.
  - rewrite (gain_and_level_low b temp L1). eauto.
Qed.

Section TickProperties.

Context {St : Type} `{ZoneLaws St}.

Import FanController.

(** X1. A tick made before the polling interval has elapsed does
    nothing: it returns, the object is unchanged and no action is
    performed.  Consequently, after any tick that passed the gate at
    time t, returned or not, a tick at a time less than the polling
    interval after t does nothing. *)
Theorem tick_inside_interval_idle (env1 env2 : Env) (s : St) :
  ((monotonic env2 - last_time (base s) < polling (base s))%Q ->
   run env2 s = (Ok tt, s, []))
  /\ ((polling (base s) <= monotonic env1 - last_time (base s))%Q ->
      (monotonic env2 - monotonic env1 < polling (base s))%Q ->
      run env2 (M.state (run env1 s)) = (Ok tt, M.state (run env1 s), [])).
Proof.
  split; [apply run_gate_closed|].
  intros Gate Close. apply run_gate_closed.
  rewrite (run_advances_clock env1 s Gate).
  pose proof (run_tick_end env1 s) as T.
  inversion T; subst; try exact Close;
    match goal with
    | E : _ = base (M.state (run env1 s)) |- _ => rewrite <- E; exact Close
    end.
Qed.

(** X2. A tick never changes the configuration of the controller: only
    last_time, last_temp and last_level can differ afterwards, and a
    valid configuration stays valid, whether the tick returns or
    raises. *)
Theorem tick_keeps_configuration (env : Env) (s : St) :
  configuration (base (M.state (run env s))) = configuration (base s)
  /\ (valid (base s) -> valid (base (M.state (run env s)))).
Proof.
  pose proof (run_tick_end env s) as T.
  inversion T; subst; split; try reflexivity; try (intro V; exact V);
    intro V; destruct V; constructor; assumption.
Qed.

(** X3. A tick runs at most one fan-level command.  When it runs one,
    the tick returns, the command is for the zone of the controller,
    its level differs from the level applied before, is stored as
    last_level, lies within 0..100 and, the configuration being valid,
    within the configured levels. *)
Theorem tick_writes_at_most_once (env : Env) (s : St) :
  fan_writes (M.trace (run env s)) = []
  \/ exists l,
      fan_writes (M.trace (run env s)) = [EvFanLevel (ipmi_zone (base s)) l]
      /\ M.result (run env s) = Ok tt
      /\ l <> last_level (base s)
      /\ last_level (base (M.state (run env s))) = l
      /\ 0 <= l <= 100
      /\ (valid (base s) -> min_level (base s) <= l <= max_level (base s)).
Proof.
  pose proof (run_tick_end env s) as T.
  inversion T; subst; try (left; reflexivity).
  right. exists l.
  match goal with
  | G : gain_and_level _ _ = Ok (_, l) |- _ =>
      pose proof (fun V => proj2 (gain_and_level_bounds _ _ _ _ V G)) as B
  end.
  split; [reflexivity|]. split; [reflexivity|]. split; [assumption|].
  split; [reflexivity|]. split; [assumption | exact B].
Qed.

(** X4. With a valid configuration, a last_level that is 0 or within the
    configured levels stays so after any tick, whether it returns or
    raises. *)
Theorem tick_keeps_last_level_in_range (env : Env) (s : St) :
  valid (base s) ->
  last_level_in_range (base s) ->
  last_level_in_range (base (M.state (run env s))).
Proof.
  intros V R.
  pose proof (run_tick_end env s) as T.
  inversion T; subst; try exact R;
    right; cbn [last_level set_last_level min_level max_level
                  set_last_temp set_last_time];
    match goal with
    | G : gain_and_level _ _ = Ok _ |- _ =>
        now destruct (gain_and_level_bounds _ _ _ _ V G)
    end.
Qed.

End TickProperties.

Section TickOutcomes.

Context {St : Type} `{ZoneLaws St}.

Import FanController.

Lemma set_fan_level_ok (env : Env) (b : FanController.t) (l : Z) :
  ipmi_zone b = Ipmi.CPU_ZONE \/ ipmi_zone b = Ipmi.HD_ZONE ->
  0 <= l <= 100 ->
  ipmitool_found env = true ->
  forall u : St,
    set_fan_level env b l u
    = (Ok tt, u, [EvFanLevel (ipmi_zone b) l;
                  EvSleep (inject_Z (Ipmi.fan_level_delay (ipmi b)))]).
Proof.
  intros Zn L F u. unfold set_fan_level, Ipmi.set_fan_level.
  assert (Z1 : (ipmi_zone b =? Ipmi.CPU_ZONE) || (ipmi_zone b =? Ipmi.HD_ZONE) = true).
  { destruct Zn as [-> | ->]; reflexivity. }
  assert (Z2 : (0 <=? l) && (l <? 101) = true).
  { apply andb_true_intro. split; [apply Z.leb_le | apply Z.ltb_lt]; lia. }
  rewrite Z1, Z2, F. reflexivity.
Qed.

Lemma set_fan_level_out_of_range (env : Env) (b : FanController.t) (l : Z) :
  ipmi_zone b = Ipmi.CPU_ZONE \/ ipmi_zone b = Ipmi.HD_ZONE ->
  l < 0 \/ 100 < l ->
  forall u : St,
    set_fan_level env b l u = (Raise (ValueError "Invalid value: level"), u, []).
Proof.
  intros Zn L u. unfold set_fan_level, Ipmi.set_fan_level.
  assert (Z1 : (ipmi_zone b =? Ipmi.CPU_ZONE) || (ipmi_zone b =? Ipmi.HD_ZONE) = true).
  { destruct Zn as [-> | ->]; reflexivity. }
  assert (Z2 : (0 <=? l) && (l <? 101) = false).
  { apply andb_false_iff. destruct L; [left; apply Z.leb_gt | right; apply Z.ltb_ge]; lia. }
  rewrite Z1, Z2. reflexivity.
Qed.



(** X7. A tick returns whenever the configuration is valid with levels
    within 0..100 and a zone that is the CPU or the HD zone, ipmitool is
    present, the callback returns and the sensors can be read. *)
Theorem tick_returns (env : Env) (s : St) (temp : Q) :
  valid (base s) ->
  0 <= min_level (base s) ->
  max_level (base s) <= 100 ->
  ipmi_zone (base s) = Ipmi.CPU_ZONE \/ ipmi_zone (base s) = Ipmi.HD_ZONE ->
  ipmitool_found env = true ->
  M.result (callback_func env (polled env s)) = Ok tt ->
  call_get_temp_func env (base s) = Ok temp ->
  M.result (run env s) = Ok tt.
Proof.
  intros V L0 L1 Zn F Cb Read.
  destruct (Qlt_le_dec (monotonic env - last_time (base s)) (polling (base s)))
    as [Closed|Gate].
  { now rewrite (run_gate_closed env s Closed). }
  destruct (callback_func env (polled env s)) as [[r s2] trc] eqn:E.
  unfold M.result in Cb. cbn [fst] in Cb. subst r.
  destruct (Qlt_le_dec (Qabs (temp - last_temp (base s))) (sensitivity (base s)))
    as [Near|Far].
  { now rewrite (run_steady env s s2 trc temp Gate E Read Near). }
  destruct (gain_and_level_total (base s) temp V) as (g & l & Gain).
  destruct (gain_and_level_bounds _ _ _ _ V Gain) as [_ B].
  destruct (Z.eq_dec l (last_level (base s))) as [Same|New].
  { subst l. now rewrite (run_same_level env s s2 trc temp g Gate E Read Far Gain). }
  assert (R : 0 <= l <= 100) by lia.
  now rewrite (run_new_level env s s2 trc _ temp g l (Ok tt)
                 Gate E Read Far Gain New (set_fan_level_ok env _ l Zn R F)).
Qed.

(** X8. The levels are not checked against 0..100 at construction but at
    the write: a tick that computes a new level outside 0..100 raises
    ValueError from the fan-level function and runs no command, with
    last_temp and last_level already holding the new values. *)
Theorem tick_level_out_of_range (env : Env) (s : St) (temp : Q) (g l : Z) :
  (polling (base s) <= monotonic env - last_time (base s))%Q ->
  M.result (callback_func env (polled env s)) = Ok tt ->
  call_get_temp_func env (base s) = Ok temp ->
  (sensitivity (base s) <= Qabs (temp - last_temp (base s)))%Q ->
  gain_and_level (base s) temp = Ok (g, l) ->
  l <> last_level (base s) ->
  ipmi_zone (base s) = Ipmi.CPU_ZONE \/ ipmi_zone (base s) = Ipmi.HD_ZONE ->
  l < 0 \/ 100 < l ->
  M.result (run env s) = Raise (ValueError "Invalid value: level")
  /\ fan_writes (M.trace (run env s)) = []
  /\ last_temp (base (M.state (run env s))) = temp
  /\ last_level (base (M.state (run env s))) = l.
Proof.
  intros Gate Cb Read Far Gain New Zn L.
  pose proof (callback_no_fan_write env (polled env s)) as W.
  destruct (callback_func env (polled env s)) as [[r s2] trc] eqn:E.
  unfold M.result, M.trace in Cb, W. cbn [fst snd] in Cb, W. subst r.
  rewrite (run_new_level env s s2 trc _ temp g l _
             Gate E Read Far Gain New (set_fan_level_out_of_range env _ l Zn L)).
  unfold M.result, M.state, M.trace. cbn [fst snd app].
  rewrite base_set_base, fan_writes_app, W. auto.
Qed.

End TickOutcomes.

Lemma tick_inside_interval_idle_witness :
  ((FanController.polling Sample.cpu
    <= monotonic (Sample.env 100 45000) - FanController.last_time Sample.cpu)%Q
   /\ (monotonic (Sample.env 101 60000) - monotonic (Sample.env 100 45000)
       < FanController.polling Sample.cpu)%Q)
  /\ run (Sample.env 101 60000) (M.state (run (Sample.env 100 45000) Sample.cpu))
     = (Ok tt, M.state (run (Sample.env 100 45000) Sample.cpu), []).
Proof.
  assert (G : (FanController.polling Sample.cpu
               <= monotonic (Sample.env 100 45000)
                  - FanController.last_time Sample.cpu)%Q)
    by (vm_compute; congruence).
  assert (C : (monotonic (Sample.env 101 60000) - monotonic (Sample.env 100 45000)
               < FanController.polling Sample.cpu)%Q)
    by (vm_compute; reflexivity).
  split; [split; assumption|].
  destruct (@tick_inside_interval_idle CpuZone.t CpuZone_Zone CpuZone_Laws
              (Sample.env 100 45000) (Sample.env 101 60000) Sample.cpu)
    as [_ B].
  exact (B G C).
Defined.

Lemma tick_keeps_configuration_witness :
  FanController.valid Sample.cpu
  /\ configuration (M.state (run (Sample.env 100 45000) Sample.cpu))
     = configuration Sample.cpu
  /\ FanController.valid (M.state (run (Sample.env 100 45000) Sample.cpu)).
Proof.
  split; [exact sample_cpu_valid|].
  destruct (@tick_keeps_configuration CpuZone.t CpuZone_Zone CpuZone_Laws
              (Sample.env 100 45000) Sample.cpu) as [A B].
  split; [exact A | exact (B sample_cpu_valid)].
Defined.

Lemma tick_writes_at_most_once_witness :
  FanController.valid Sample.cpu
  /\ exists l,
      fan_writes (M.trace (run (Sample.env 100 45000) Sample.cpu))
      = [EvFanLevel Ipmi.CPU_ZONE l]
      /\ FanController.min_level Sample.cpu <= l
         <= FanController.max_level Sample.cpu.
Proof.
  split; [exact sample_cpu_valid|].
  destruct (@tick_writes_at_most_once CpuZone.t CpuZone_Zone CpuZone_Laws
              (Sample.env 100 45000) Sample.cpu)
    as [N | (l & W & _ & _ & _ & _ & B)].
  - vm_compute in N. discriminate.
  - exists l. split; [exact W | exact (B sample_cpu_valid)].
Defined.

Lemma tick_keeps_last_level_in_range_witness :
  (FanController.valid Sample.cpu /\ last_level_in_range Sample.cpu)
  /\ last_level_in_range (M.state (run (Sample.env 100 45000) Sample.cpu)).
Proof.
  assert (R : last_level_in_range Sample.cpu) by (left; reflexivity).
  split; [split; [exact sample_cpu_valid | exact R]|].
  exact (@tick_keeps_last_level_in_range CpuZone.t CpuZone_Zone CpuZone_Laws
           (Sample.env 100 45000) Sample.cpu sample_cpu_valid R).
Defined.



Lemma tick_returns_witness :
  FanController.valid Sample.cpu
  /\ M.result (run (Sample.env 100 45000) Sample.cpu) = Ok tt.
Proof.
  split; [exact sample_cpu_valid|].
  assert (L0 : 0 <= FanController.min_level Sample.cpu) by (vm_compute; congruence).
  assert (L1 : FanController.max_level Sample.cpu <= 100) by (vm_compute; congruence).
  exact (@tick_returns CpuZone.t CpuZone_Zone CpuZone_Laws
           (Sample.env 100 45000) Sample.cpu (45000 / 1000)%Q
           sample_cpu_valid L0 L1 (or_introl eq_refl) eq_refl eq_refl eq_refl).
Defined.

Lemma tick_level_out_of_range_witness :
  CpuZone.init (Sample.env 100 45000) Sample.log Sample.ipmi Sample.loud_section tt
  = (Ok Sample.loud, tt, [])
  /\ FanController.gain_and_level Sample.loud (70000 / 1000) = Ok (6, 150)
  /\ M.result (run (Sample.env 100 70000) Sample.loud)
     = Raise (ValueError "Invalid value: level")
  /\ fan_writes (M.trace (run (Sample.env 100 70000) Sample.loud)) = []
  /\ FanController.last_level (M.state (run (Sample.env 100 70000) Sample.loud))
     = 150.
Proof.
  split; [vm_compute; reflexivity|].
  assert (G : FanController.gain_and_level Sample.loud (70000 / 1000) = Ok (6, 150))
    by reflexivity.
  split; [exact G|].
  assert (Gate : (FanController.polling Sample.loud
                  <= monotonic (Sample.env 100 70000)
                     - FanController.last_time Sample.loud)%Q)
    by (vm_compute; congruence).
  assert (Far : (FanController.sensitivity Sample.loud
                 <= Qabs (70000 / 1000 - FanController.last_temp Sample.loud))%Q)
    by (vm_compute; congruence).
  assert (New : 150 <> FanController.last_level Sample.loud) by discriminate.
  assert (L : 150 < 0 \/ 100 < 150) by (right; lia).
  destruct (@tick_level_out_of_range CpuZone.t CpuZone_Zone CpuZone_Laws
              (Sample.env 100 70000) Sample.loud (70000 / 1000)%Q 6 150
              Gate eq_refl eq_refl Far G New (or_introl eq_refl) L)
    as (R & W & _ & Lv).
  split; [exact R|]. split; [exact W | exact Lv].
Defined.

(** ** The steps of the curve *)

Lemma Qfloor_unique (q : Q) (n : Z) :
  (inject_Z n <= q)%Q -> (q < inject_Z (n + 1))%Q -> Qfloor q = n.
Proof.
  intros L U.
  pose proof (Qfloor_resp_le _ _ L) as A. rewrite Qfloor_Z in A.
  pose proof (Qfloor_le q) as B.
  assert (C : (inject_Z (Qfloor q) < inject_Z (n + 1))%Q) by lra.
  rewrite <- Zlt_Qlt in C. lia.
Qed.

Lemma Qfloor_add_Z (m : Z) (x : Q) :
  Qfloor (inject_Z m + x) = m + Qfloor x.
Proof.
  apply Qfloor_unique.
  - rewrite inject_Z_plus. pose proof (Qfloor_le x). lra.
  - pose proof (Qlt_floor x) as U.
    rewrite !inject_Z_plus in *. change (inject_Z 1) with 1%Q in *. lra.
Qed.

Lemma int_nonneg (q : Q) : (0 <= q)%Q -> Py.int q = Qfloor q.
Proof.
  intro P. unfold Py.int, Qfloor. destruct q as [n d]. cbn [Qnum Qden].
  apply Z.quot_div_nonneg; [|lia].
  unfold Qle in P. cbn in P. lia.
Qed.


Lemma for_each_emit {St A} (f : A -> event) (xs : list A) (s : St) :
  M.for_each xs (fun x => M.emit (f x)) s = (Ok tt, s, map f xs).
Proof.
  induction xs as [|x xs IH]; [reflexivity|].
  unfold M.emit in *. cbn [M.for_each]. unfold M.bind. rewrite IH. reflexivity.
Qed.

(** What [print_temp_level_mapping] writes: the heading and one row per
    step, from 0 to [steps]. *)
Lemma print_temp_level_mapping_trace {St} (b : FanController.t) (s : St) :
  FanController.print_temp_level_mapping b s
  = (Ok tt, s,
     EvLog Log.LOG_DEBUG TxtMappingHead
     :: map (fun i =>
               EvLog Log.LOG_DEBUG
                 (TxtMappingRow (Z.of_nat i)
                    (FanController.min_temp b
                     + inject_Z (Z.of_nat i) * FanController.temp_step b)%Q
                    (Py.int (inject_Z (FanController.min_level b)
                             + inject_Z (Z.of_nat i) * FanController.level_step b)%Q)))
            (range (FanController.steps b + 1))).
Proof.
  unfold FanController.print_temp_level_mapping, Log.msg, M.bind.
  unfold M.emit at 1. cbv beta iota.
  rewrite for_each_emit. reflexivity.
Qed.

Section Steps.

Import FanController.

Variable b : FanController.t.
Hypothesis V : valid b.
Hypothesis Wide : (min_temp b < max_temp b)%Q.

(** The temperature of step [i]. *)
Let step_temp (i : Z) : Q := (min_temp b + inject_Z i * temp_step b)%Q.

Lemma gain_at_step (i : Z) :
  0 <= i <= steps b ->
  gain_and_level b (step_temp i)
  = Ok (i, round (inject_Z i * level_step b) + min_level b).
Proof.
  intros [I0 I1].
  pose proof (temp_step_pos b V Wide) as P.
  pose proof (steps_temp_step b V) as ST.
  assert (I0' : (inject_Z 0 <= inject_Z i)%Q) by (rewrite <- Zle_Qle; lia).
  assert (I1' : (inject_Z i <= inject_Z (steps b))%Q) by (rewrite <- Zle_Qle; lia).
  change (inject_Z 0) with 0%Q in I0'.
  destruct (Z.eq_dec i 0) as [->|N0].
  { rewrite gain_and_level_low.
    - reflexivity.
    - unfold step_temp. change (inject_Z 0) with 0%Q. lra. }
  assert (Pos : (0 < inject_Z i)%Q).
  { change 0%Q with (inject_Z 0). rewrite <- Zlt_Qlt. lia. }
  assert (Low : (min_temp b < step_temp i)%Q).
  { unfold step_temp. pose proof (Qmult_lt_0_compat _ _ Pos P). lra. }
  destruct (Z.eq_dec i (steps b)) as [->|N1].
  { rewrite gain_and_level_high; [|exact Low|unfold step_temp; lra].
    f_equal. f_equal.
    rewrite (round_comp _ _ (steps_level_step b V)), round_Z. lia. }
  assert (Lt : (inject_Z i < inject_Z (steps b))%Q) by (rewrite <- Zlt_Qlt; lia).
  assert (High : (step_temp i < max_temp b)%Q).
  { unfold step_temp.
    assert (M : (inject_Z i * temp_step b < inject_Z (steps b) * temp_step b)%Q).
    { apply Qmult_lt_compat_r; assumption. }
    lra. }
  rewrite (gain_and_level_mid b V _ Low High).
  assert (E : ((step_temp i - min_temp b) / temp_step b == inject_Z i)%Q).
  { unfold step_temp. field. intro Z0. rewrite Z0 in P. exact (Qlt_irrefl _ P). }
  rewrite (round_comp _ _ E), round_Z. reflexivity.
Qed.

Lemma printed_level_floor (i : Z) :
  0 <= min_level b -> 0 <= i ->
  Py.int (inject_Z (min_level b) + inject_Z i * level_step b)
  = min_level b + Qfloor (inject_Z i * level_step b).
Proof.
  intros M I.
  assert (P : (0 <= inject_Z i * level_step b)%Q).
  { apply Qmult_le_0_compat; [|apply level_step_nonneg; exact V].
    change 0%Q with (inject_Z 0). rewrite <- Zle_Qle. lia. }
  assert (M' : (0 <= inject_Z (min_level b))%Q).
  { change 0%Q with (inject_Z 0). now rewrite <- Zle_Qle. }
  rewrite int_nonneg by lra. apply Qfloor_add_Z.
Qed.

End Steps.

Section StepClaims.

Import FanController.


(** X10. For a valid configuration with min_temp < max_temp and
    min_level >= 0, each row (i, T, L) of the table written by
    print_temp_level_mapping has 0 <= i <= steps, and at its temperature
    T a tick computes the gain i and a level that is L or L + 1: the table
    truncates where the tick rounds. *)
Theorem mapping_table_rows (b : FanController.t) (i : Z) (T : Q) (L : Z) :
  valid b ->
  (min_temp b < max_temp b)%Q ->
  0 <= min_level b ->
  In (EvLog Log.LOG_DEBUG (TxtMappingRow i T L))
     (M.trace (print_temp_level_mapping b tt)) ->
  0 <= i <= steps b
  /\ exists l, gain_and_level b T = Ok (i, l) /\ L <= l <= L + 1.
Proof.
  intros V Wide M I.
  pose proof (valid_steps b V) as VS.
  rewrite print_temp_level_mapping_trace in I.
  unfold M.trace in I. cbn [snd] in I.
  destruct I as [I|I]; [discriminate|].
  apply in_map_iff in I. destruct I as (n & E & R).
  injection E as <- <- <-.
  unfold range in R. apply in_seq in R.
  assert (B : 0 <= Z.of_nat n <= steps b) by lia.
  split; [exact B|].
  rewrite (gain_at_step b V Wide _ B).
  eexists. split; [reflexivity|].
  rewrite (printed_level_floor b V _ M (proj1 B)).
  pose proof (round_bounds (inject_Z (Z.of_nat n) * level_step b)). lia.
Qed.

End StepClaims.


Lemma mapping_table_rows_witness :
  In (EvLog Log.LOG_DEBUG
        (TxtMappingRow 1
           (FanController.min_temp Sample.cpu
            + inject_Z 1 * FanController.temp_step Sample.cpu) 45))
     (M.trace (FanController.print_temp_level_mapping Sample.cpu tt))
  /\ FanController.gain_and_level Sample.cpu
       (FanController.min_temp Sample.cpu
        + inject_Z 1 * FanController.temp_step Sample.cpu) = Ok (1, 46)
  /\ exists l,
      FanController.gain_and_level Sample.cpu
        (FanController.min_temp Sample.cpu
         + inject_Z 1 * FanController.temp_step Sample.cpu) = Ok (1, l)
      /\ 45 <= l <= 45 + 1.
Proof.
  assert (I : In (EvLog Log.LOG_DEBUG
                    (TxtMappingRow 1
                       (FanController.min_temp Sample.cpu
                        + inject_Z 1 * FanController.temp_step Sample.cpu) 45))
                 (M.trace (FanController.print_temp_level_mapping Sample.cpu tt))).
  { right. right. left. reflexivity. }
  split; [exact I|]. split; [reflexivity|].
  assert (W : (FanController.min_temp Sample.cpu
               < FanController.max_temp Sample.cpu)%Q) by reflexivity.
  assert (M0 : 0 <= FanController.min_level Sample.cpu)
    by (vm_compute; congruence).
  exact (proj2 (mapping_table_rows Sample.cpu 1 _ 45 sample_cpu_valid W M0 I)).
Defined.

(** ** More on the aggregation of sensors *)

Section AggregationMore.

Import FanController.

Variable env : Env.

Lemma min_loop_failure (pre : list string) (vals : list Q) (p : string)
      (post : list string) (e : exn) :
  readings env pre vals -> read_temp env p = Raise e ->
  forall m, min_loop env (pre ++ p :: post) m = Raise e.
Proof.
  intros R F. induction R as [|q v pre vals Rq _ IH]; intro m; simpl.
  - now rewrite F.
  - rewrite Rq. apply IH.
Qed.

Lemma max_loop_failure (pre : list string) (vals : list Q) (p : string)
      (post : list string) (e : exn) :
  readings env pre vals -> read_temp env p = Raise e ->
  forall m, max_loop env (pre ++ p :: post) m = Raise e.
Proof.
  intros R F. induction R as [|q v pre vals Rq _ IH]; intro m; simpl.
  - now rewrite F.
  - rewrite Rq. apply IH.
Qed.

Lemma avg_loop_failure (pre : list string) (vals : list Q) (p : string)
      (post : list string) (e : exn) :
  readings env pre vals -> read_temp env p = Raise e ->
  forall a c, avg_loop env (pre ++ p :: post) a c = Raise e.
Proof.
  intros R F. induction R as [|q v pre vals Rq _ IH]; intros a c; simpl.
  - now rewrite F.
  - rewrite Rq. apply IH.
Qed.



End AggregationMore.

Section AggregationProperties.

Import FanController.

(** X11. When an endpoint cannot be read, MIN, AVG and MAX all raise the
    exception of the first such endpoint: no value is computed from the
    endpoints that could be read. *)
Theorem aggregation_fails_whole (env : Env) (self : FanController.t)
        (pre : list string) (vals : list Q) (p : string) (post : list string)
        (e : exn) :
  hwmon_path self = pre ++ p :: post ->
  readings env pre vals ->
  read_temp env p = Raise e ->
  get_min_temp env self = Raise e
  /\ get_avg_temp env self = Raise e
  /\ get_max_temp env self = Raise e.
Proof.
  intros P R F. unfold get_min_temp, get_avg_temp, get_max_temp. rewrite P.
  rewrite (min_loop_failure env pre vals p post e R F).
  rewrite (avg_loop_failure env pre vals p post e R F).
  rewrite (max_loop_failure env pre vals p post e R F).
  auto.
Qed.


End AggregationProperties.

Lemma aggregation_fails_whole_witness :
  FanController.hwmon_path Sample.cold_max = [Sample.sensor0] ++ Sample.sensor1 :: []
  /\ FanController.read_temp (Sample.env_files 100 [(Sample.sensor0, 41000%Q)])
       Sample.sensor1 = Raise (IOError Sample.sensor1)
  /\ FanController.get_min_temp (Sample.env_files 100 [(Sample.sensor0, 41000%Q)])
       Sample.cold_max = Raise (IOError Sample.sensor1)
  /\ FanController.get_avg_temp (Sample.env_files 100 [(Sample.sensor0, 41000%Q)])
       Sample.cold_max = Raise (IOError Sample.sensor1)
  /\ FanController.get_max_temp (Sample.env_files 100 [(Sample.sensor0, 41000%Q)])
       Sample.cold_max = Raise (IOError Sample.sensor1).
Proof.
  split; [reflexivity|]. split; [reflexivity|].
  apply (aggregation_fails_whole (Sample.env_files 100 [(Sample.sensor0, 41000%Q)])
           Sample.cold_max [Sample.sensor0] [(41000 / 1000)%Q] Sample.sensor1 []
           (IOError Sample.sensor1)).
  - reflexivity.
  - repeat constructor.
  - reflexivity.
Defined.


(** ** The sensor paths *)

Section Paths.

Variable env : Env.

Lemma resolve_paths_ok (paths : list string) :
  forall result,
    FanController.resolve_paths env paths = Ok result ->
    Forall2 (resolved env) paths result
    /\ Forall (fun q => isfile env q = true) result.
Proof.
  induction paths as [|p paths IH]; intros result E; simpl in E.
  - injection E as <-. split; constructor.
  - assert (X : exists q,
               resolved env p q /\ isfile env q = true
               /\ exists rest, FanController.resolve_paths env paths = Ok rest
                               /\ result = q :: rest).
    { unfold resolved.
      destruct (contains "?" p || contains "*" p).
      - destruct (glob env p) as [|first more]; [discriminate|].
        destruct (isfile env first) eqn:F; [|discriminate]. cbn [negb] in E.
        destruct (FanController.resolve_paths env paths) as [rest|]; [|discriminate].
        injection E as <-. exists first. eauto.
      - destruct (isfile env p) eqn:F; [|discriminate]. cbn [negb] in E.
        destruct (FanController.resolve_paths env paths) as [rest|]; [|discriminate].
        injection E as <-. exists p. eauto. }
    destruct X as (q & Rq & F & rest & Er & ->).
    destruct (IH rest Er) as [A B]. split; constructor; assumption.
Qed.

Lemma list_assign_length {A} (l : list A) :
  forall i v l', list_assign l i v = Ok l' -> List.length l' = List.length l.
Proof.
  induction l as [|x l IH]; intros i v l' E; destruct i; simpl in E;
    try discriminate.
  - injection E as <-. reflexivity.
  - destruct (list_assign l i v) as [r|] eqn:R; [|discriminate].
    injection E as <-. simpl. f_equal. eauto.
Qed.

(** The loop of the CPU zone fills the places of the indices given. *)
Lemma auto_loop_ok (n : nat) :
  forall (pre post result : list string),
    List.length post = n ->
    CpuZone.auto_loop env (seq (List.length pre) n) (pre ++ post) = Ok result ->
    exists found,
      result = pre ++ found
      /\ Forall2 (fun i q => hd_error (glob env (CpuZone.auto_path i)) = Some q)
                 (seq (List.length pre) n) found.
Proof.
  induction n as [|n IH]; intros pre post result L E.
  - destruct post; [|discriminate]. simpl in E. injection E as <-.
    exists []. split; [reflexivity | constructor].
  - destruct post as [|x post]; [discriminate|].
    simpl in E.
    destruct (glob env (CpuZone.auto_path (List.length pre))) as [|first more] eqn:G;
      [discriminate|].
    rewrite list_assign_at in E.
    specialize (IH (pre ++ [first]) post result).
    rewrite length_app, Nat.add_1_r, <- app_assoc in IH. cbn [app] in IH.
    destruct IH as (found & -> & F); [simpl in L; lia | exact E |].
    exists (first :: found). rewrite <- app_assoc. split; [reflexivity|].
    constructor; [now rewrite G | exact F].
Qed.

End Paths.

Lemma forall2_nth_error {A B} (R : A -> B -> Prop) (l1 : list A) (l2 : list B) :
  Forall2 R l1 l2 ->
  forall i a, nth_error l1 i = Some a ->
              exists b, nth_error l2 i = Some b /\ R a b.
Proof.
  induction 1 as [|x y l1 l2 Rxy _ IH]; intros i a E.
  - destruct i; discriminate.
  - destruct i; simpl in *.
    + injection E as <-. eauto.
    + now apply IH.
Qed.

Section PathClaims.

Lemma build_hwmon_path_ok (env : Env) (count : Z) (current paths result : list string) :
  FanController.build_hwmon_path env count current (Some paths) = Ok result ->
  Z.of_nat (List.length result) = count
  /\ Forall (fun q => isfile env q = true) result
  /\ Forall2 (resolved env) paths result.
Proof.
  unfold FanController.build_hwmon_path.
  destruct (Z.of_nat (List.length paths) =? count) eqn:L; [|discriminate].
  cbn [negb]. intro E. apply Z.eqb_eq in L.
  destruct (resolve_paths_ok env paths result E) as [A B].
  rewrite <- (Forall2_length A). auto.
Qed.

(** X13. When the entries of hwmon_path= are accepted, the list kept has
    one path per controlled entity, each an existing file: an entry
    without wildcard is kept as it is and an entry with ? or * is
    replaced by its first match. *)
Theorem build_hwmon_path_result (env : Env) (count : Z) (current paths result : list string) :
  FanController.build_hwmon_path env count current (Some paths) = Ok result ->
  Z.of_nat (List.length result) = count
  /\ Forall (fun q => isfile env q = true) result
  /\ Forall2 (resolved env) paths result.
Proof. apply build_hwmon_path_ok. Qed.

(** X14. Without hwmon_path=, the CPU zone looks for the coretemp file
    of each CPU: when the search succeeds the list has one path per CPU,
    the first match of the pattern of CPU i at place i. *)
Theorem cpu_auto_paths (env : Env) (count : Z) (result : list string) :
  CpuZone.build_hwmon_path env count (repeat EmptyString (Z.to_nat count)) None
  = Ok result ->
  List.length result = Z.to_nat count
  /\ forall i, (i < Z.to_nat count)%nat ->
               nth_error result i = hd_error (glob env (CpuZone.auto_path i)).
Proof.
  unfold CpuZone.build_hwmon_path, range. intro E.
  destruct (auto_loop_ok env (Z.to_nat count) [] _ result (repeat_length _ _) E)
    as (found & -> & F).
  cbn [app List.length] in *.
  pose proof (Forall2_length F) as L. rewrite length_seq in L.
  split; [now rewrite <- L|].
  intros i I.
  assert (S : nth_error (seq 0 (Z.to_nat count)) i = Some i).
  { rewrite nth_error_seq. destruct (Nat.ltb_spec i (Z.to_nat count)); [reflexivity|lia]. }
  destruct (forall2_nth_error _ _ _ F i i S) as (q & N & Hd).
  now rewrite N, Hd.
Qed.

End PathClaims.

Lemma build_hwmon_path_result_witness :
  FanController.build_hwmon_path (Sample.env 100 45000) 2 []
    (Some ["/sys/class/hwmon/hwmon?/temp1_input"%string; Sample.sensor1])
  = Ok ["/sys/class/hwmon/hwmon?/temp1_input"%string; Sample.sensor1]
  /\ Z.of_nat (List.length ["/sys/class/hwmon/hwmon?/temp1_input"%string; Sample.sensor1]) = 2
  /\ Forall2 (resolved (Sample.env 100 45000))
       ["/sys/class/hwmon/hwmon?/temp1_input"%string; Sample.sensor1]
       ["/sys/class/hwmon/hwmon?/temp1_input"%string; Sample.sensor1].
Proof.
  assert (E : FanController.build_hwmon_path (Sample.env 100 45000) 2 []
                (Some ["/sys/class/hwmon/hwmon?/temp1_input"%string; Sample.sensor1])
              = Ok ["/sys/class/hwmon/hwmon?/temp1_input"%string; Sample.sensor1])
    by reflexivity.
  split; [exact E|].
  destruct (build_hwmon_path_result _ _ _ _ _ E) as (A & _ & C).
  split; [exact A | exact C].
Defined.

Lemma cpu_auto_paths_witness :
  CpuZone.build_hwmon_path (Sample.env 100 45000) 2
    (repeat EmptyString (Z.to_nat 2)) None
  = Ok [CpuZone.auto_path 0; CpuZone.auto_path 1]
  /\ List.length [CpuZone.auto_path 0; CpuZone.auto_path 1] = Z.to_nat 2
  /\ nth_error [CpuZone.auto_path 0; CpuZone.auto_path 1] 1
     = hd_error (glob (Sample.env 100 45000) (CpuZone.auto_path 1)).
Proof.
  assert (E : CpuZone.build_hwmon_path (Sample.env 100 45000) 2
                (repeat EmptyString (Z.to_nat 2)) None
              = Ok [CpuZone.auto_path 0; CpuZone.auto_path 1])
    by reflexivity.
  split; [exact E|].
  destruct (cpu_auto_paths _ _ _ E) as (A & B).
  split; [exact A|]. apply B. vm_compute. lia.
Defined.

(** ** The paths of the disks found automatically *)

Section HdPaths.

Variable env : Env.



Lemma hwmon_loop_length (sata : list string) (entries : list string) :
  forall paths result,
    HdZone.hwmon_loop env sata entries paths = Ok result ->
    List.length result = List.length paths.
Proof.
  induction entries as [|f entries IH]; intros paths result E; simpl in E.
  - now injection E as <-.
  - destruct (glob env (join3 HdZone.hwmon_dir f "device/block/sd*"))
      as [|first more]; [discriminate|].
    destruct (index (basename first) sata) as [idx|]; [|eauto].
    destruct (glob env (join3 HdZone.hwmon_dir f "device/hwmon/hwmon*/temp1_input"))
      as [|file more']; [discriminate|].
    destruct (list_assign paths idx file) as [paths'|] eqn:A; [|discriminate].
    rewrite (IH paths' result E).
    exact (list_assign_length paths idx file paths' A).
Qed.

End HdPaths.

Section HdPathClaims.



End HdPathClaims.

Section SingleSensor.

Import FanController.

(** X16. A CPU zone constructed with one sensor and an hwmon_path= entry
    keeps one path, resolved from that entry, and its temperature
    function returns the value of that file divided by 1000, whatever
    temp_calc is configured. *)
Theorem single_sensor_reads_first (env : Env) (log : Log.t) (ipmi : Ipmi.t)
        (config : Config.section) (paths : list string)
        (self : FanController.t) (u : unit) (tr : list event) :
  Config.fallback (Config.count config) 1 = 1 ->
  Config.hwmon_path config = Some paths ->
  CpuZone.init env log ipmi config tt = (Ok self, u, tr) ->
  exists p q,
    paths = [p] /\ resolved env p q /\ hwmon_path self = [q]
    /\ forall env', call_get_temp_func env' self = read_temp env' q.
Proof.
  intros C P E. unfold CpuZone.init in E. rewrite C, P in E.
  change (1 <=? 0) with false in E. cbv iota in E.
  apply init_ok in E.
  destruct E as (_ & _ & _ & _ & _ & _ & result & B & ->).
  unfold CpuZone.build_hwmon_path in B.
  destruct (build_hwmon_path_ok _ _ _ _ _ B) as (L & _ & F).
  destruct result as [|q [|q' result]]; try (simpl in L; lia).
  inversion F as [|p q0 ps qs R F']; subst. inversion F'; subst.
  exists p, q. repeat split; auto.
Qed.

Lemma single_sensor_reads_first_witness :
  Config.fallback (Config.count Sample.cpu_section) 1 = 1
  /\ CpuZone.init (Sample.env 100 45000) Sample.log Sample.ipmi Sample.cpu_section tt
     = (Ok Sample.cpu, tt, [])
  /\ exists q,
      hwmon_path Sample.cpu = [q]
      /\ forall env', call_get_temp_func env' Sample.cpu = read_temp env' q.
Proof.
  split; [reflexivity|]. split; [exact sample_cpu_built|].
  destruct (single_sensor_reads_first _ _ _ Sample.cpu_section _ _ _ _
              eq_refl eq_refl sample_cpu_built) as (p & q & _ & _ & A & B).
  exists q. auto.
Defined.

End SingleSensor.

(** ** More on the standby guard *)

Section StateString.

Import HdZone.

Lemma append_char (acc : string) (c : ascii) (rest : string) :
  ((acc ++ String c EmptyString) ++ rest)%string = (acc ++ String c rest)%string.
Proof.
  induction acc as [|a acc IH]; simpl; [reflexivity | now rewrite IH].
Qed.

Lemma state_str_loop_chars (post : list bool) :
  forall (pre : list bool) (acc : string),
    state_str_loop (pre ++ post) (seq (List.length pre) (List.length post)) acc
    = Ok (acc ++ state_chars post)%string.
Proof.
  induction post as [|b post IH]; intros pre acc; simpl.
  - f_equal. induction acc as [|a acc IHa]; simpl; [reflexivity | now f_equal].
  - rewrite list_item_at.
    specialize (IH (pre ++ [b])).
    rewrite length_app, Nat.add_1_r, <- app_assoc in IH. cbn [app] in IH.
    destruct b; rewrite IH; now rewrite append_char.
Qed.

Lemma chars_states_chars (states : list bool) :
  chars_states (state_chars states) = states.
Proof.
  induction states as [|[] states IH]; simpl; [reflexivity | |]; now rewrite IH.
Qed.

Lemma state_chars_length (states : list bool) :
  String.length (state_chars states) = List.length states.
Proof.
  induction states as [|[] states IH]; simpl; [reflexivity | |]; now rewrite IH.
Qed.

(** X17. With one flag per disk, the state string has one character per
    disk, in configured order, S where the flag is set and A elsewhere,
    so that the flags can be read back from it; with fewer flags than
    disks the function raises IndexError. *)
Theorem get_standby_state_str_encodes (self : HdZone.t) :
  (Z.of_nat (List.length (standby_array_states self)) = count self ->
   get_standby_state_str self = Ok (state_chars (standby_array_states self))
   /\ String.length (state_chars (standby_array_states self))
      = List.length (standby_array_states self)
   /\ chars_states (state_chars (standby_array_states self))
      = standby_array_states self)
  /\ (Z.of_nat (List.length (standby_array_states self)) < count self ->
      get_standby_state_str self = Raise IndexError).
Proof.
  split.
  - intro L. unfold get_standby_state_str, range. rewrite <- L, Nat2Z.id.
    pose proof (state_str_loop_chars (standby_array_states self) [] EmptyString) as E.
    cbn [app List.length append] in E.
    split; [exact E|]. split; [apply state_chars_length | apply chars_states_chars].
  - intro L. unfold get_standby_state_str, range.
    pose proof (state_str_loop_chars (standby_array_states self) [] EmptyString) as E.
    cbn [app List.length] in E.
    assert (Sp : Z.to_nat (count self)
                 = (List.length (standby_array_states self)
                    + Datatypes.S (Z.to_nat (count self)
                         - Datatypes.S (List.length (standby_array_states self))))%nat)
      by lia.
    rewrite Sp, seq_app. cbn [seq Nat.add].
    match goal with
    | |- context [_ :: seq ?x ?y] => generalize (seq x y)
    end.
    intro tail.
    assert (G : forall idx acc r,
               state_str_loop (standby_array_states self) idx acc = Ok r ->
               state_str_loop (standby_array_states self)
                 (idx ++ List.length (standby_array_states self) :: tail) acc
               = Raise IndexError).
    { induction idx as [|i idx IH]; intros acc r Ei; simpl.
      - unfold list_item.
        assert (N : nth_error (standby_array_states self)
                      (List.length (standby_array_states self)) = None)
          by (apply nth_error_None; lia).
        now rewrite N.
      - simpl in Ei. destruct (list_item (standby_array_states self) i) as [[]|];
          [eauto | eauto | discriminate]. }
    exact (G _ _ _ E).
Qed.

End StateString.

Lemma get_standby_state_str_encodes_witness :
  Z.of_nat (List.length (HdZone.standby_array_states Sample.hd_asleep))
  = HdZone.count Sample.hd_asleep
  /\ HdZone.get_standby_state_str Sample.hd_asleep = Ok "SSSS"%string
  /\ HdZone.get_standby_state_str
       (M.state (HdZone.check_standby_state Sample.one_asleep Sample.hd))
     = Ok "ASAA"%string.
Proof.
  split; [reflexivity|].
  destruct (get_standby_state_str_encodes Sample.hd_asleep) as [A _].
  destruct (A eq_refl) as (E & _).
  split; [exact E|].
  destruct (get_standby_state_str_encodes
              (M.state (HdZone.check_standby_state Sample.one_asleep Sample.hd)))
    as [B _].
  exact (proj1 (B eq_refl)).
Defined.

(** ** When a disk does not answer or obey *)

Lemma for_each_app {St A} (xs ys : list A) (body : A -> M.t St unit) (s : St) :
  M.for_each (xs ++ ys) body s
  = M.bind (M.for_each xs body) (fun _ => M.for_each ys body) s.
Proof.
  revert s. induction xs as [|x xs IH]; intro s.
  - cbn [app M.for_each]. unfold M.bind, M.ret.
    destruct (M.for_each ys body s) as [[r s1] tr]. reflexivity.
  - cbn [app M.for_each]. unfold M.bind.
    destruct (body x s) as [[[u|e] s1] tr1]; [|reflexivity].
    rewrite IH. unfold M.bind.
    destruct (M.for_each xs body s1) as [[[u2|e2] s2] tr2]; [|reflexivity].
    destruct (M.for_each ys body s2) as [[r s3] tr3].
    now rewrite app_assoc.
Qed.

Section GuardFailure.

Import HdZone.

Variable env : Env.

(** The loop of [check_standby_state] over the disks [oks], which
    answer, the other disks being left for later. *)
Lemma check_loop_prefix (oks : list string) :
  forall (s : HdZone.t) (pre mid tail : list bool) (npre nrest : list string),
    standby_array_states s = pre ++ mid ++ tail ->
    hd_device_names s = npre ++ oks ++ nrest ->
    List.length pre = List.length npre ->
    List.length mid = List.length oks ->
    Forall (query_ok env) oks ->
    M.for_each (seq (List.length pre) (List.length oks)) (check_one env) s
    = (Ok tt,
       set_standby_array_states
         (pre ++ map (reports_standby env) oks ++ tail) s, []).
Proof.
  induction oks as [|d oks IH]; intros s pre mid tail npre nrest S N L LM Q.
  - destruct mid; [|discriminate]. cbn [app] in S. simpl.
    rewrite <- S. now rewrite set_states_same.
  - destruct mid as [|x mid]; [discriminate|].
    inversion Q as [|? ? Qd Qr]; subst.
    cbn [List.length seq M.for_each]. unfold M.bind.
    rewrite (check_one_ok env s pre (mid ++ tail) x npre (oks ++ nrest) d S N L Qd).
    specialize (IH (set_standby_array_states
                      (pre ++ reports_standby env d :: mid ++ tail) s)
                   (pre ++ [reports_standby env d]) mid tail (npre ++ [d]) nrest).
    rewrite !length_app in IH. cbn [List.length] in IH.
    rewrite !Nat.add_1_r in IH.
    rewrite IH.
    + cbn. rewrite <- app_assoc. reflexivity.
    + cbn. now rewrite <- app_assoc.
    + cbn. now rewrite <- app_assoc.
    + congruence.
    + simpl in LM. congruence.
    + exact Qr.
Qed.

(** One turn of the loop for a disk whose query fails. *)
Lemma check_one_failure (s : HdZone.t) (pre post : list bool) (x : bool)
      (npre npost : list string) (d : string) (e : exn) :
  standby_array_states s = pre ++ x :: post ->
  hd_device_names s = npre ++ d :: npost ->
  List.length pre = List.length npre ->
  query_raises env d e ->
  check_one env (List.length pre) s
  = (Raise e, set_standby_array_states (pre ++ false :: post) s, []).
Proof.
  intros S N L Q.
  unfold check_one, assign_state, M.bind, M.get, M.of_res, M.put, M.raise, M.ret.
  rewrite S, list_assign_at. cbn.
  rewrite N, L, list_item_at.
  destruct Q as [Q | (r & Q & R0 & R2 & ->)]; rewrite Q; cbn; [reflexivity|].
  apply Z.eqb_neq in R0. apply Z.eqb_neq in R2. rewrite R0, R2. reflexivity.
Qed.

(** The queries stop at the first disk that fails. *)
Lemma check_standby_state_failure (s : HdZone.t) (oks : list string) (d : string)
      (nrest : list string) (e : exn) :
  well_formed s ->
  hd_device_names s = oks ++ d :: nrest ->
  Forall (query_ok env) oks ->
  query_raises env d e ->
  check_standby_state env s
  = (Raise e,
     set_standby_array_states
       (map (reports_standby env) oks
        ++ false :: skipn (S (List.length oks)) (standby_array_states s)) s,
     []).
Proof.
  intros [WC WL] N Q F.
  assert (Sp : standby_array_states s
               = firstn (List.length oks) (standby_array_states s)
                 ++ skipn (List.length oks) (standby_array_states s))
    by (symmetry; apply firstn_skipn).
  assert (LT : (List.length oks < List.length (standby_array_states s))%nat).
  { rewrite WL, N, length_app. simpl. lia. }
  destruct (skipn (List.length oks) (standby_array_states s)) as [|x tail] eqn:K.
  { apply (f_equal (@List.length bool)) in K. rewrite length_skipn in K.
    simpl in K. lia. }
  assert (T : skipn (S (List.length oks)) (standby_array_states s) = tail).
  { change (S (List.length oks)) with (1 + List.length oks)%nat.
    rewrite <- skipn_skipn, K. reflexivity. }
  set (mid := firstn (List.length oks) (standby_array_states s)) in *.
  assert (LM : List.length mid = List.length oks).
  { unfold mid. rewrite length_firstn. lia. }
  unfold check_standby_state, M.bind at 1, M.get at 1. unfold M.bind at 1.
  unfold range. rewrite <- WC, Nat2Z.id, N, length_app.
  cbn [List.length].
  replace (List.length oks + S (List.length nrest))%nat
    with (List.length oks + (1 + List.length nrest))%nat by lia.
  rewrite seq_app, for_each_app. unfold M.bind at 1.
  pose proof (check_loop_prefix oks s [] mid (x :: tail) [] (d :: nrest)
                Sp N eq_refl LM Q) as E.
  cbn [List.length app Nat.add] in E. cbn [Nat.add]. rewrite E.
  cbn [seq M.for_each]. unfold M.bind at 1.
  set (s1 := set_standby_array_states
               (map (reports_standby env) oks ++ x :: tail) s).
  pose proof (check_one_failure s1 (map (reports_standby env) oks) tail x
                oks nrest d e eq_refl N (length_map _ _) F) as E1.
  rewrite length_map in E1. rewrite E1. rewrite T. reflexivity.
Qed.

(** Every list of disks either answers throughout or has a first disk
    whose query fails. *)
Lemma first_failing_query (names : list string) :
  Forall (query_ok env) names
  \/ exists oks d nrest e,
      names = oks ++ d :: nrest
      /\ Forall (query_ok env) oks /\ query_raises env d e.
Proof.
  induction names as [|d names IH]; [left; constructor|].
  assert (D : query_ok env d \/ exists e, query_raises env d e).
  { unfold query_ok, query_raises.
    destruct (smartctl_check env d) as [r|e] eqn:Q; [|right; eauto].
    destruct (Z.eq_dec (returncode r) 0) as [R0|R0]; [left; eauto|].
    destruct (Z.eq_dec (returncode r) 2) as [R2|R2]; [left; eauto|].
    right. eexists. right. exists r. eauto. }
  destruct D as [D|[e D]].
  - destruct IH as [IH|(oks & d' & nrest & e & -> & Q & F)].
    + left. now constructor.
    + right. exists (d :: oks), d', nrest, e. split; [reflexivity|].
      split; [now constructor | exact F].
  - right. exists [], d, names, e. split; [reflexivity|]. split; [constructor|exact D].
Qed.

End GuardFailure.

Section WriteFailure.

Import HdZone.

Variable env : Env.

(** The loop of [go_standby_state] over the disks [oks], whose commands
    are carried out, the other disks being left for later. *)
Lemma go_loop_prefix (oks : list string) :
  forall (s : HdZone.t) (pre tail : list bool) (npre nrest : list string),
    standby_array_states s = pre ++ map (reports_standby env) oks ++ tail ->
    hd_device_names s = npre ++ oks ++ nrest ->
    List.length pre = List.length npre ->
    Forall (fun d => reports_standby env d = false -> write_ok env d) oks ->
    M.for_each (seq (List.length pre) (List.length oks)) (standby_one env) s
    = (Ok tt,
       set_standby_array_states (pre ++ map (fun _ => true) oks ++ tail) s,
       map EvStandby (active_disks env oks)).
Proof.
  induction oks as [|d oks IH]; intros s pre tail npre nrest S N L W.
  - cbn [map app] in *. simpl. rewrite <- S. now rewrite set_states_same.
  - inversion W as [|? ? Wd Wr]; subst.
    cbn [map app] in S. cbn [List.length seq M.for_each]. unfold M.bind.
    rewrite (standby_one_ok env s pre _ _ npre (oks ++ nrest) d S N L Wd).
    specialize (IH (set_standby_array_states
                      (pre ++ true :: map (reports_standby env) oks ++ tail) s)
                   (pre ++ [true]) tail (npre ++ [d]) nrest).
    rewrite !length_app in IH. cbn [List.length] in IH.
    rewrite !Nat.add_1_r in IH.
    rewrite IH.
    + cbn. rewrite <- app_assoc. cbn.
      destruct (reports_standby env d); reflexivity.
    + cbn. now rewrite <- app_assoc.
    + cbn. now rewrite <- app_assoc.
    + congruence.
    + exact Wr.
Qed.

(** One turn of the loop for an active disk whose command fails. *)
Lemma standby_one_failure (s : HdZone.t) (pre post : list bool)
      (npre npost : list string) (d : string) (e : exn) (ran : bool) :
  standby_array_states s = pre ++ false :: post ->
  hd_device_names s = npre ++ d :: npost ->
  List.length pre = List.length npre ->
  write_raises env d e ran ->
  standby_one env (List.length pre) s
  = (Raise e, s, if ran then [EvStandby d] else []).
Proof.
  intros S N L W.
  unfold standby_one, assign_state, M.bind, M.get, M.of_res, M.put, M.raise,
    M.ret, M.emit.
  rewrite S, list_item_at. cbn.
  rewrite N, L, list_item_at.
  destruct W as [[Q ->] | (r & Q & R0 & -> & ->)]; rewrite Q; cbn; [reflexivity|].
  apply Z.eqb_neq in R0. rewrite R0. reflexivity.
Qed.

(** The commands stop at the first active disk that fails. *)
Lemma go_standby_state_failure (s : HdZone.t) (oks : list string) (d : string)
      (nrest : list string) (e : exn) (ran : bool) :
  Z.of_nat (List.length (hd_device_names s)) = count s ->
  hd_device_names s = oks ++ d :: nrest ->
  standby_array_states s = map (reports_standby env) (hd_device_names s) ->
  Forall (fun d => reports_standby env d = false -> write_ok env d) oks ->
  reports_standby env d = false ->
  write_raises env d e ran ->
  go_standby_state env s
  = (Raise e,
     set_standby_array_states
       (map (fun _ => true) oks ++ map (reports_standby env) (d :: nrest)) s,
     map EvStandby (active_disks env oks)
     ++ (if ran then [EvStandby d] else [])).
Proof.
  intros WC N Sts W A F.
  rewrite N, map_app in Sts. cbn [map] in Sts. rewrite A in Sts.
  unfold go_standby_state, M.bind at 1, M.get at 1.
  unfold range. rewrite <- WC, Nat2Z.id, N, length_app.
  cbn [List.length].
  replace (List.length oks + S (List.length nrest))%nat
    with (List.length oks + (1 + List.length nrest))%nat by lia.
  rewrite seq_app, for_each_app. unfold M.bind at 1.
  pose proof (go_loop_prefix oks s [] (false :: map (reports_standby env) nrest)
                [] (d :: nrest) Sts N eq_refl W) as E.
  cbn [List.length app Nat.add] in E. cbn [Nat.add]. rewrite E.
  cbn [seq M.for_each]. unfold M.bind at 1.
  set (s1 := set_standby_array_states
               (map (fun _ => true) oks
                ++ false :: map (reports_standby env) nrest) s).
  pose proof (standby_one_failure s1 (map (fun _ => true) oks)
                (map (reports_standby env) nrest) oks nrest d e ran
                eq_refl N (length_map _ _) F) as E1.
  rewrite length_map in E1. rewrite E1.
  subst s1. cbn [map]. rewrite A. reflexivity.
Qed.

End WriteFailure.

Section GuardFailureClaims.

Import HdZone.

Variable env : Env.

(** X18. When the query of a disk fails, the disks before it having
    answered, the standby guard raises that error at once: no standby
    command is run and nothing is logged, the aggregate flag and the
    timestamp are unchanged; the flags of the disks already asked hold
    their answers, the flag of the failing disk is reset to active and
    the flags of the later disks are as before. *)
Theorem guard_query_failure (s : HdZone.t) (oks : list string) (d : string)
        (nrest : list string) (e : exn) :
  well_formed s ->
  hd_device_names s = oks ++ d :: nrest ->
  Forall (query_ok env) oks ->
  query_raises env d e ->
  M.result (run_standby_guard env s) = Raise e
  /\ M.trace (run_standby_guard env s) = []
  /\ standby_flag (M.state (run_standby_guard env s)) = standby_flag s
  /\ standby_change_timestamp (M.state (run_standby_guard env s))
     = standby_change_timestamp s
  /\ standby_array_states (M.state (run_standby_guard env s))
     = map (reports_standby env) oks
       ++ false :: skipn (S (List.length oks)) (standby_array_states s).
Proof.
  intros WF N Q F.
  assert (E : run_standby_guard env s
              = (Raise e,
                 set_standby_array_states
                   (map (reports_standby env) oks
                    ++ false :: skipn (S (List.length oks)) (standby_array_states s)) s,
                 [])).
  { unfold run_standby_guard, M.bind at 1.
    now rewrite (check_standby_state_failure env s oks d nrest e WF N Q F). }
  rewrite E. repeat split.
Qed.

(** X19. When the guard decides to put the array to standby and the
    command of an active disk fails, the active disks before it having
    obeyed, the guard raises that error: the commands run are those of
    the active disks up to the failing one, in order, and the aggregate
    flag stays false with the timestamp unchanged, so that the next
    invocation decides again. *)
Theorem guard_write_failure (s : HdZone.t) (oks : list string) (d : string)
        (nrest : list string) (e : exn) (ran : bool) :
  well_formed s ->
  hd_device_names s = oks ++ d :: nrest ->
  Forall (query_ok env) (hd_device_names s) ->
  standby_flag s = false ->
  standby_hd_limit s <= standby_count env (hd_device_names s) ->
  Forall (write_ok env) (active_disks env oks) ->
  reports_standby env d = false ->
  write_raises env d e ran ->
  M.result (run_standby_guard env s) = Raise e
  /\ standby_writes (M.trace (run_standby_guard env s))
     = map EvStandby (active_disks env oks)
       ++ (if ran then [EvStandby d] else [])
  /\ standby_flag (M.state (run_standby_guard env s)) = false
  /\ standby_change_timestamp (M.state (run_standby_guard env s))
     = standby_change_timestamp s.
Proof.
  intros WF N Q Fl L W A F.
  pose proof (check_standby_state_ok env s WF Q) as C.
  destruct WF as [WC WL].
  set (s1 := set_standby_array_states
               (map (reports_standby env) (hd_device_names s)) s) in *.
  assert (STR : exists str, get_standby_state_str s1 = Ok str).
  { apply get_standby_state_str_ok. subst s1. cbn.
    rewrite length_map. exact WC. }
  destruct STR as [str STR].
  assert (W' : Forall (fun d => reports_standby env d = false -> write_ok env d) oks).
  { apply Forall_forall. intros x I Ax.
    rewrite Forall_forall in W. apply W. unfold active_disks.
    apply filter_In. split; [exact I | now rewrite Ax]. }
  pose proof (go_standby_state_failure env s1 oks d nrest e ran WC N eq_refl W' A F)
    as G.
  apply Z.leb_le in L.
  unfold run_standby_guard, M.bind, M.get, M.of_res, M.modify, Log.msg, M.emit.
  rewrite C. cbn [standby_flag s1 set_standby_array_states standby_hd_limit].
  fold s1. rewrite Fl, L. cbn [negb andb]. rewrite STR, G.
  unfold M.result, M.state, M.trace. cbn [fst snd app].
  rewrite standby_writes_log.
  split; [reflexivity|]. split.
  - unfold standby_writes. rewrite filter_app.
    fold (standby_writes (map EvStandby (active_disks env oks))).
    rewrite standby_writes_map. now destruct ran.
  - split; [exact Fl | reflexivity].
Qed.

End GuardFailureClaims.

Lemma guard_query_failure_witness :
  HdZone.hd_device_names Sample.hd
  = ["/dev/disk/by-id/ata-A"; "/dev/disk/by-id/ata-B"]%string
    ++ "/dev/disk/by-id/ata-C"%string :: ["/dev/disk/by-id/ata-D"%string]
  /\ M.result (HdZone.run_standby_guard (Sample.third_broken true) Sample.hd)
     = Raise (Exception "Unknown smartctl return value" 1)
  /\ M.trace (HdZone.run_standby_guard (Sample.third_broken true) Sample.hd) = []
  /\ HdZone.standby_flag
       (M.state (HdZone.run_standby_guard (Sample.third_broken true) Sample.hd))
     = false.
Proof.
  split; [reflexivity|].
  destruct (guard_query_failure (Sample.third_broken true) Sample.hd
              ["/dev/disk/by-id/ata-A"; "/dev/disk/by-id/ata-B"]%string
              "/dev/disk/by-id/ata-C"%string ["/dev/disk/by-id/ata-D"%string]
              (Exception "Unknown smartctl return value" 1)
              sample_hd_well_formed eq_refl)
    as (R & T & F & _).
  - repeat constructor; eexists; (split; [reflexivity|]); cbn; auto.
  - right. eexists. split; [reflexivity|]. cbn. repeat split; discriminate.
  - split; [exact R|]. split; [exact T | exact F].
Defined.

Lemma guard_write_failure_witness :
  HdZone.standby_count (Sample.third_broken false) (HdZone.hd_device_names Sample.hd) = 1
  /\ M.result (HdZone.run_standby_guard (Sample.third_broken false) Sample.hd)
     = Raise (Exception "Unknown smartctl return value" 4)
  /\ standby_writes
       (M.trace (HdZone.run_standby_guard (Sample.third_broken false) Sample.hd))
     = [EvStandby "/dev/disk/by-id/ata-A"; EvStandby "/dev/disk/by-id/ata-C"]
  /\ HdZone.standby_flag
       (M.state (HdZone.run_standby_guard (Sample.third_broken false) Sample.hd))
     = false.
Proof.
  split; [reflexivity|].
  assert (Q : Forall (HdZone.query_ok (Sample.third_broken false))
                     (HdZone.hd_device_names Sample.hd)).
  { repeat constructor; eexists; (split; [reflexivity|]); cbn; auto. }
  assert (L : HdZone.standby_hd_limit Sample.hd
              <= HdZone.standby_count (Sample.third_broken false)
                   (HdZone.hd_device_names Sample.hd))
    by (vm_compute; congruence).
  destruct (guard_write_failure (Sample.third_broken false) Sample.hd
              ["/dev/disk/by-id/ata-A"; "/dev/disk/by-id/ata-B"]%string
              "/dev/disk/by-id/ata-C"%string ["/dev/disk/by-id/ata-D"%string]
              (Exception "Unknown smartctl return value" 4) true
              sample_hd_well_formed eq_refl Q eq_refl L)
    as (R & W & F & _).
  - repeat constructor; eexists; (split; reflexivity).
  - reflexivity.
  - right. eexists. split; [reflexivity|]. cbn. repeat split; discriminate.
  - split; [exact R|]. split; [exact W | exact F].
Defined.

(** ** The lists of the HD zone *)

Section Shape.

Import HdZone.

Lemma assign_state_shape (ok : event -> bool) (i : nat) (v : bool) :
  frames shape ok (assign_state i v).
Proof.
  intro s. unfold assign_state, M.bind, M.get, M.of_res, M.put.
  destruct (list_assign (standby_array_states s) i v) as [l|] eqn:E;
    split; try reflexivity.
  unfold M.state, shape. cbn.
  now rewrite (list_assign_length _ _ _ _ E).
Qed.

Lemma run_standby_guard_shape (env : Env) :
  frames shape (fun _ => true) (run_standby_guard env).
Proof.
  unfold run_standby_guard, check_standby_state, check_one,
    go_standby_state, standby_one.
  repeat (first [apply assign_state_shape | frame_step]).
Qed.

End Shape.

Lemma hd_callback_shape (env : Env) :
  frames shape (fun _ => true) (@callback_func HdZone.t HdZone_Zone env).
Proof.
  change (frames shape (fun _ => true) (HdZone.callback_func env)).
  unfold HdZone.callback_func.
  repeat (first [apply run_standby_guard_shape | frame_step]).
Qed.

Lemma hd_run_shape (env : Env) :
  frames shape (fun _ => true) (run (St := HdZone.t) env).
Proof.
  unfold run, FanController.set_fan_level, Ipmi.set_fan_level.
  repeat (first [apply hd_callback_shape | frame_step]).
Qed.

(** X20. A tick of the HD zone, whether it returns or raises, keeps the
    number of disks, their names, the number of flags and the
    configuration of the guard; so the lists stay well formed: one name
    and one flag per disk. *)
Theorem hd_tick_keeps_shape (env : Env) (s : HdZone.t) :
  shape (M.state (run env s)) = shape s
  /\ (HdZone.well_formed s -> HdZone.well_formed (M.state (run env s))).
Proof.
  destruct (hd_run_shape env s) as [E _]. split; [exact E|].
  intros [WC WL]. unfold shape in E. injection E as E1 E2 E3 _ _.
  unfold HdZone.well_formed. rewrite E1, E2, E3. auto.
Qed.

Lemma hd_tick_keeps_shape_witness :
  HdZone.well_formed Sample.hd
  /\ shape (M.state (run Sample.one_asleep Sample.hd)) = shape Sample.hd
  /\ HdZone.well_formed (M.state (run Sample.one_asleep Sample.hd)).
Proof.
  split; [exact sample_hd_well_formed|].
  destruct (hd_tick_keeps_shape Sample.one_asleep Sample.hd) as [A B].
  split; [exact A | exact (B sample_hd_well_formed)].
Defined.

(** ** The guard of a constructed HD zone *)

Lemma hd_init_guard (env : Env) (log : Log.t) (ipmi : Ipmi.t)
        (config : Config.section) (self : HdZone.t) (u : unit) (tr : list event) :
  HdZone.init env log ipmi config tt = (Ok self, u, tr) ->
  HdZone.standby_guard_enabled self = true ->
  Config.hd_names config = Some (HdZone.hd_device_names self)
  /\ HdZone.well_formed self
  /\ 1 < HdZone.count self
  /\ Forall (HdZone.query_ok env) (HdZone.hd_device_names self)
  /\ HdZone.standby_array_states self
     = map (HdZone.reports_standby env) (HdZone.hd_device_names self)
  /\ HdZone.standby_flag self
     = (HdZone.standby_count env (HdZone.hd_device_names self)
        =? HdZone.count self)
  /\ HdZone.standby_change_timestamp self = monotonic_guard env.
Proof.
  intros E G. unfold HdZone.init in E.
  destruct (_ <=? 0) eqn:C0; [discriminate|]. apply Z.leb_gt in C0.
  destruct (Config.hd_names config) as [names|]; [|discriminate].
  destruct (Z.of_nat (List.length names) =? _) eqn:LN; [|discriminate].
  cbn [negb] in E. apply Z.eqb_eq in LN.
  apply bind_ok_inv in E. destruct E as (fc & u1 & tr1 & tr2 & E1 & E & ->).
  apply init_ok in E1.
  destruct E1 as (_ & _ & _ & _ & _ & _ & paths & _ & ->).
  cbn [FanController.count] in E.
  apply bind_ok_inv in E. destruct E as ([] & u2 & tr3 & tr4 & _ & E & ->).
  apply bind_ok_inv in E. destruct E as (s0 & u3 & tr5 & tr6 & E3 & E & ->).
  apply bind_ok_inv in E. destruct E as ([] & u4 & tr7 & tr8 & _ & E & ->).
  cbv [M.ret] in E. injection E as <- <- <-.
  destruct (_ =? 1) eqn:C1.
  { cbv [M.ret] in E3. injection E3 as <- <- <-. discriminate. }
  apply Z.eqb_neq in C1.
  destruct (Config.fallback (Config.standby_guard_enabled config) false).
  2:{ cbv [M.ret] in E3. injection E3 as <- <- <-. discriminate. }
  destruct (_ <? 0); [discriminate|].
  destruct (_ <? _); [discriminate|].
  apply bind_ok_inv in E3.
  destruct E3 as ([n s1] & u5 & tr9 & tr10 & E5 & E3 & ->).
  cbv [M.ret] in E3. injection E3 as <- <- <-.
  unfold M.on in E5.
  match type of E5 with
  | context [HdZone.check_standby_state env ?s] =>
      assert (W : HdZone.well_formed s)
  end.
  { split; cbn [HdZone.hd_device_names HdZone.standby_array_states].
    - exact LN.
    - rewrite repeat_length, <- LN. apply Nat2Z.id. }
  match type of E5 with
  | context [HdZone.check_standby_state env ?s] =>
      destruct (first_failing_query env (HdZone.hd_device_names s))
        as [A | (oks & d & nrest & e & N & A & R)]
  end.
  - rewrite (check_standby_state_ok env _ W A) in E5.
    injection E5 as <- <- <- <-.
    cbn [HdZone.hd_device_names HdZone.set_standby_flag
           HdZone.set_standby_change_timestamp HdZone.set_standby_array_states
           HdZone.standby_array_states HdZone.standby_flag
           HdZone.standby_change_timestamp fst snd] in *.
    split; [reflexivity|]. split.
    { split; cbn [HdZone.hd_device_names HdZone.standby_array_states].
      - exact LN.
      - apply length_map. }
    split; [unfold HdZone.count; cbn; lia|].
    split; [exact A|]. split; [reflexivity|]. split; reflexivity.
  - rewrite (check_standby_state_failure env _ oks d nrest e W N A R) in E5.
    discriminate.
Qed.

(** X21. When [HdZone.__init__] returns a zone with the standby guard
    on, the zone has at least two disks, one name and one flag per disk;
    every disk has answered the query with return code 0 or 2; the flag
    of each disk is what the disk answered, the flag of the array is set
    exactly when every disk answered STANDBY, and the timestamp of the
    last change is the time read after the queries. *)
Theorem hd_init_guard_state (env : Env) (log : Log.t) (ipmi : Ipmi.t)
        (config : Config.section) (self : HdZone.t) (u : unit) (tr : list event) :
  HdZone.init env log ipmi config tt = (Ok self, u, tr) ->
  HdZone.standby_guard_enabled self = true ->
  Config.hd_names config = Some (HdZone.hd_device_names self)
  /\ HdZone.well_formed self
  /\ 1 < HdZone.count self
  /\ Forall (HdZone.query_ok env) (HdZone.hd_device_names self)
  /\ HdZone.standby_array_states self
     = map (HdZone.reports_standby env) (HdZone.hd_device_names self)
  /\ HdZone.standby_flag self
     = (HdZone.standby_count env (HdZone.hd_device_names self)
        =? HdZone.count self)
  /\ HdZone.standby_change_timestamp self = monotonic_guard env.
Proof.
  apply hd_init_guard.
Qed.

Lemma hd_init_guard_state_witness :
  exists self u tr,
    HdZone.init Sample.one_asleep Sample.log Sample.ipmi (Sample.hd_section 1) tt
    = (Ok self, u, tr)
    /\ HdZone.standby_guard_enabled self = true
    /\ HdZone.well_formed self
    /\ 1 < HdZone.count self
    /\ HdZone.standby_array_states self
       = map (HdZone.reports_standby Sample.one_asleep) Sample.disks
    /\ HdZone.standby_array_states self = [false; true; false; false]
    /\ HdZone.standby_flag self = false
    /\ HdZone.standby_change_timestamp self = 201%Q.
Proof.
  destruct (HdZone.init Sample.one_asleep Sample.log Sample.ipmi
              (Sample.hd_section 1) tt) as [[r u] tr] eqn:E.
  destruct r as [self|e]; [|vm_compute in E; discriminate].
  assert (G : HdZone.standby_guard_enabled self = true).
  { vm_compute in E. injection E as <- _ _. reflexivity. }
  assert (N : HdZone.hd_device_names self = Sample.disks).
  { vm_compute in E. injection E as <- _ _. reflexivity. }
  destruct (hd_init_guard_state Sample.one_asleep Sample.log Sample.ipmi
              (Sample.hd_section 1) self u tr E G)
    as (_ & W & C & _ & A & F & T).
  exists self, u, tr. split; [reflexivity|]. split; [exact G|].
  split; [exact W|]. split; [exact C|].
  rewrite N in A, F. split; [exact A|]. split; [exact A|].
  split; [|exact T].
  rewrite F. clear - E. vm_compute in E. injection E as <- _ _. reflexivity.
Defined.

(** ** What construction does to the machine *)

Lemma frames_on {St St' A X} (g : St' -> X) (ok : event -> bool)
      (s : St) (c : M.t St A) :
  frames (fun _ : St => tt) ok c -> frames g ok (M.on s c).
Proof.
  intros F u. destruct (F s) as [_ T]. unfold M.on.
  destruct (c s) as [[[a|e] s1] tr]; split; try reflexivity; exact T.
Qed.

Lemma cpu_init_only_logs (env : Env) (log : Log.t) (ipmi : Ipmi.t)
      (config : Config.section) :
  frames (fun _ : unit => tt) is_info_or_debug (CpuZone.init env log ipmi config).
Proof.
  unfold CpuZone.init, FanController.init, FanController.print_temp_level_mapping.
  repeat frame_step.
Qed.

Lemma hd_init_only_logs (env : Env) (log : Log.t) (ipmi : Ipmi.t)
      (config : Config.section) :
  frames (fun _ : unit => tt) is_info_or_debug (HdZone.init env log ipmi config).
Proof.
  unfold HdZone.init, FanController.init, FanController.print_temp_level_mapping.
  repeat (first [ apply frames_on; apply check_standby_state_frames; reflexivity
                | frame_step ]).
Qed.

Lemma only_logs_no_command (tr : list event) :
  forallb is_info_or_debug tr = true ->
  fan_writes tr = [] /\ standby_writes tr = []
  /\ filter is_error_log tr = [] /\ filter is_sleep tr = [].
Proof.
  unfold fan_writes, standby_writes.
  induction tr as [|e tr IH]; simpl; [tauto|].
  intro H. apply andb_prop in H. destruct H as [H1 H2].
  destruct (IH H2) as (A & B & C & D).
  destruct e as [level text| | |]; try discriminate.
  cbn [is_fan_write is_standby_write is_error_log is_sleep].
  simpl in H1. apply orb_prop in H1.
  replace (level =? 1) with false by (destruct H1 as [H1|H1]; apply Z.eqb_eq in H1; subst; reflexivity).
  tauto.
Qed.

(** X22. Construction of a zone, whether it returns a controller or
    raises, only reads: every event of [CpuZone.__init__] and of
    [HdZone.__init__] is a log line at INFO or DEBUG severity, so no fan
    level is written, no disk is sent to standby and nothing is logged
    at ERROR severity before the first tick. *)
Theorem construction_commands_nothing (env : Env) (log : Log.t) (ipmi : Ipmi.t)
        (config : Config.section) :
  let cpu := M.trace (CpuZone.init env log ipmi config tt) in
  let hd := M.trace (HdZone.init env log ipmi config tt) in
  (forallb is_info_or_debug cpu = true
   /\ fan_writes cpu = [] /\ standby_writes cpu = []
   /\ filter is_error_log cpu = [])
  /\ (forallb is_info_or_debug hd = true
      /\ fan_writes hd = [] /\ standby_writes hd = []
      /\ filter is_error_log hd = []).
Proof.
  intros cpu hd.
  destruct (cpu_init_only_logs env log ipmi config tt) as [_ C].
  destruct (hd_init_only_logs env log ipmi config tt) as [_ H].
  fold cpu in C. fold hd in H.
  destruct (only_logs_no_command cpu C) as (C1 & C2 & C3 & _).
  destruct (only_logs_no_command hd H) as (H1 & H2 & H3 & _).
  repeat split; assumption.
Qed.

(** ** The main loop *)

Lemma no_sleep_filter (tr : list event) :
  forallb (fun e => negb (is_sleep e)) tr = true -> filter is_sleep tr = [].
Proof.
  induction tr as [|e tr IH]; simpl; [reflexivity|].
  intro H. apply andb_prop in H. destruct H as [H1 H2].
  destruct (is_sleep e); [discriminate|auto].
Qed.

Lemma cpu_callback_no_sleep (env : Env) (s : CpuZone.t) :
  filter is_sleep (M.trace (@callback_func CpuZone.t CpuZone_Zone env s)) = [].
Proof.
  reflexivity.
Qed.

Lemma hd_callback_no_sleep (env : Env) (s : HdZone.t) :
  filter is_sleep (M.trace (@callback_func HdZone.t HdZone_Zone env s)) = [].
Proof.
  apply no_sleep_filter.
  change (forallb (fun e => negb (is_sleep e))
            (M.trace (HdZone.callback_func env s)) = true).
  revert s.
  assert (F : frames (fun _ : HdZone.t => tt) (fun e => negb (is_sleep e))
                (HdZone.callback_func env)).
  { unfold HdZone.callback_func, HdZone.run_standby_guard,
      HdZone.check_standby_state, HdZone.check_one,
      HdZone.go_standby_state, HdZone.standby_one.
    repeat (first [ apply assign_state_frames; reflexivity | frame_step ]). }
  intro s. now destruct (F s).
Qed.

Section TickCommands.

Context {St : Type} `{ZoneLaws St}.

Import FanController.

Hypothesis callback_no_sleep :
  forall env s, filter is_sleep (M.trace (callback_func env s)) = [].

Lemma run_commands (env : Env) (s : St) :
  commands_then_pauses (base s) (M.result (run env s)) (M.trace (run env s)).
Proof.
  unfold commands_then_pauses.
  destruct (Qlt_le_dec (monotonic env - last_time (base s)) (polling (base s)))
    as [Closed|Gate].
  { rewrite (run_gate_closed env s Closed). left. split; reflexivity. }
  pose proof (callback_no_fan_write env (polled env s)) as W.
  pose proof (callback_no_sleep env (polled env s)) as Zs.
  destruct (callback_func env (polled env s)) as [[[[]|e] s2] trc] eqn:Cb;
    unfold M.state, M.trace in W, Zs; cbn [fst snd] in W, Zs.
  2:{ rewrite (run_callback_failure env s s2 trc e Gate Cb).
      left. split; assumption. }
  destruct (call_get_temp_func env (base s)) as [temp|e] eqn:Read.
  2:{ rewrite (run_read_failure env s s2 trc e Gate Cb Read).
      left. split; assumption. }
  destruct (Qlt_le_dec (Qabs (temp - last_temp (base s))) (sensitivity (base s)))
    as [Near|Far].
  { rewrite (run_steady env s s2 trc temp Gate Cb Read Near).
    unfold M.trace. cbn [snd]. unfold fan_writes in *.
    rewrite !filter_app, W, Zs. left. split; reflexivity. }
  destruct (gain_and_level (base s) temp) as [[g l]|e] eqn:Gain.
  2:{ rewrite (run_level_failure env s s2 trc temp e Gate Cb Read Far Gain).
      unfold M.trace. cbn [snd]. unfold fan_writes in *.
      rewrite !filter_app, W, Zs. left. split; reflexivity. }
  destruct (Z.eq_dec l (last_level (base s))) as [Same|New].
  { subst l.
    rewrite (run_same_level env s s2 trc temp g Gate Cb Read Far Gain).
    unfold M.trace. cbn [snd]. unfold fan_writes in *.
    rewrite !filter_app, W, Zs. left. split; reflexivity. }
  destruct (set_fan_level_outcome (St := St) env (base s) l) as [[e Wr]|[Wr _]].
  - rewrite (run_new_level env s s2 trc [] temp g l (Raise e)
               Gate Cb Read Far Gain New Wr).
    unfold M.trace. cbn [snd]. unfold fan_writes in *.
    rewrite !filter_app, W, Zs. left. split; reflexivity.
  - rewrite (run_new_level env s s2 trc _ temp g l (Ok tt)
               Gate Cb Read Far Gain New Wr).
    unfold M.trace, M.result. cbn [fst snd]. right.
    eexists (trc ++ [_]), l, _. split.
    { rewrite <- app_assoc. reflexivity. }
    unfold fan_writes in *. rewrite !filter_app, W, Zs.
    split; [reflexivity|]. split; reflexivity.
Qed.

End TickCommands.

(** X23. A tick of the CPU zone or of the HD zone pauses only for a fan
    level: either it writes no fan level and does not sleep, or it
    returns and has ended with one fan-level command for its zone, the
    pause of fan_level_delay seconds and the line logged at INFO
    severity, nothing before them being a fan-level command or a
    pause; so the standby commands of the HD zone precede the
    fan-level command. *)
Theorem tick_command_then_pause (env : Env) (c : CpuZone.t) (h : HdZone.t) :
  commands_then_pauses c (M.result (run env c)) (M.trace (run env c))
  /\ commands_then_pauses (HdZone.fan h) (M.result (run env h)) (M.trace (run env h)).
Proof.
  split.
  - exact (run_commands (St := CpuZone.t) cpu_callback_no_sleep env c).
  - exact (run_commands (St := HdZone.t) hd_callback_no_sleep env h).
Qed.

Lemma commands_count (b : FanController.t) (r : res unit) (tr : list event) :
  commands_then_pauses b r tr ->
  List.length (filter is_sleep tr) = List.length (fan_writes tr)
  /\ (List.length (fan_writes tr) <= 1)%nat.
Proof.
  intros [[W Z]|(tr0 & l & text & -> & W & Z & _)]; unfold fan_writes in *.
  - rewrite W, Z. simpl. lia.
  - rewrite !filter_app, W, Z. simpl. lia.
Qed.

Section MainPacing.

Import Main.

Variables (w : World) (wait : Q).

Lemma run_cpu_zone_trace (env : Env) (st : Main.t) :
  List.length (filter is_sleep (M.trace (run_cpu_zone env st)))
  = List.length (fan_writes (M.trace (run_cpu_zone env st)))
  /\ (List.length (fan_writes (M.trace (run_cpu_zone env st))) <= 1)%nat.
Proof.
  unfold run_cpu_zone. destruct (my_cpu_zone st) as [z|];
    [|split; [reflexivity | simpl; lia]].
  pose proof (commands_count _ _ _
                (run_commands (St := CpuZone.t) cpu_callback_no_sleep env z)) as L.
  destruct (run env z) as [[r z'] tr]. exact L.
Qed.

Lemma run_hd_zone_trace (env : Env) (st : Main.t) :
  List.length (filter is_sleep (M.trace (run_hd_zone env st)))
  = List.length (fan_writes (M.trace (run_hd_zone env st)))
  /\ (List.length (fan_writes (M.trace (run_hd_zone env st))) <= 1)%nat.
Proof.
  unfold run_hd_zone. destruct (my_hd_zone st) as [z|];
    [|split; [reflexivity | simpl; lia]].
  pose proof (commands_count _ _ _
                (run_commands (St := HdZone.t) hd_callback_no_sleep env z)) as L.
  destruct (run env z) as [[r z'] tr]. exact L.
Qed.

Lemma iteration_trace (i : nat) (st : Main.t) :
  ((M.result (iteration w wait i st) = Ok tt
    /\ List.length (filter is_sleep (M.trace (iteration w wait i st)))
       = S (List.length (fan_writes (M.trace (iteration w wait i st))))
    /\ exists tr0, M.trace (iteration w wait i st) = tr0 ++ [EvSleep wait])
   \/ ((exists e, M.result (iteration w wait i st) = Raise e)
       /\ List.length (filter is_sleep (M.trace (iteration w wait i st)))
          = List.length (fan_writes (M.trace (iteration w wait i st)))))
  /\ (List.length (fan_writes (M.trace (iteration w wait i st))) <= 2)%nat.
Proof.
  unfold iteration, M.bind.
  destruct (run_cpu_zone_trace (cpu_env w i) st) as [S1 F1].
  destruct (run_cpu_zone (cpu_env w i) st) as [[[[]|e1] st1] tr1];
    unfold M.result, M.trace in *; cbn [fst snd] in *.
  2:{ split; [right; split; [eexists; reflexivity | exact S1] | lia]. }
  destruct (run_hd_zone_trace (hd_env w i) st1) as [S2 F2].
  destruct (run_hd_zone (hd_env w i) st1) as [[[[]|e2] st2] tr2];
    unfold M.result, M.trace in *; cbn [fst snd] in *.
  2:{ unfold fan_writes in *. rewrite !filter_app, !length_app, S1, S2.
      split; [right; split; [eexists; reflexivity | reflexivity] | lia]. }
  unfold M.emit. cbn [fst snd]. unfold fan_writes in *.
  rewrite !filter_app, !length_app, S1, S2. cbn.
  split; [left; split; [reflexivity|split; [lia|]] | lia].
  exists (tr1 ++ tr2). now rewrite <- app_assoc.
Qed.

(** X24. In [n] turns of the main loop there is one sleep per
    fan-level command and one per completed iteration, and no other: as
    many iterations complete as [n] when no exception has left the
    loop, fewer otherwise; and every iteration that starts runs at most
    two fan-level commands, one per zone. *)
Theorem main_loop_pacing (n i : nat) (st : Main.t) :
  exists k,
    List.length (filter is_sleep (M.trace (loop w wait n i st)))
    = (k + List.length (fan_writes (M.trace (loop w wait n i st))))%nat
    /\ (M.result (loop w wait n i st) = Ok tt -> k = n)
    /\ (forall e, M.result (loop w wait n i st) = Raise e -> (k < n)%nat)
    /\ (List.length (fan_writes (M.trace (loop w wait n i st))) <= 2 * n)%nat
    /\ (List.length (fan_writes (M.trace (loop w wait n i st))) <= 2 * S k)%nat.
Proof.
  revert i st. induction n as [|n IH]; intros i st.
  - exists 0%nat. cbn. repeat split; try lia. discriminate.
  - cbn [loop]. unfold M.bind.
    destruct (iteration_trace i st) as [[(R & S1 & _) | [[e R] S1]] F1];
      destruct (iteration w wait i st) as [[r st1] tr1];
      unfold M.result, M.trace in *; cbn [fst snd] in *; subst r.
    + destruct (IH (S i) st1) as (k & Sk & Ok' & Rs & F2 & F3).
      destruct (loop w wait n (S i) st1) as [[r2 st2] tr2];
        unfold M.result, M.trace in *; cbn [fst snd] in *.
      exists (S k). unfold fan_writes in *.
      rewrite !filter_app, !length_app, S1, Sk.
      split; [lia|]. split; [intro E; f_equal; auto|].
      split; [intros e E; apply Rs in E; lia|]. split; lia.
    + exists 0%nat. split; [exact S1|]. split; [discriminate|].
      split; [intros; lia|]. split; cbn [snd]; lia.
Qed.

End MainPacing.

Lemma main_loop_pacing_witness :
  M.result (Main.loop SampleMain.steady 1 2 0 SampleMain.both) = Ok tt
  /\ List.length
       (filter is_sleep (M.trace (Main.loop SampleMain.steady 1 2 0 SampleMain.both)))
     = (2 + List.length
              (fan_writes
                 (M.trace (Main.loop SampleMain.steady 1 2 0 SampleMain.both))))%nat.
Proof.
  assert (R : M.result (Main.loop SampleMain.steady 1 2 0 SampleMain.both) = Ok tt)
    by (vm_compute; reflexivity).
  split; [exact R|].
  destruct (main_loop_pacing SampleMain.steady 1 2 0 SampleMain.both)
    as (k & E & K & _).
  rewrite E, (K R). reflexivity.
Defined.

(** ** The start of the main loop *)

Lemma min_le (a b : Q) : (Py.min a b <= a)%Q /\ (Py.min a b <= b)%Q.
Proof.
  unfold Py.min. destruct (Qltb b a) eqn:E.
  - apply Qltb_spec in E. split; lra.
  - apply Qltb_false in E. split; lra.
Qed.

Lemma half_le (a b : Q) : (a <= b)%Q -> (a / 2 <= b / 2)%Q.
Proof.
  intro L. unfold Qdiv. apply Qmult_le_compat_r; [exact L|].
  apply Qinv_le_0_compat. discriminate.
Qed.

(** X25. The sleep time of the main loop is half the polling interval
    of an enabled zone and at most half the polling interval of every
    enabled zone; it is logged at DEBUG severity before the first
    iteration.  With no zone enabled the program logs one line at ERROR
    severity and exits with code 8 before any iteration. *)
Theorem main_loop_wait_time (w : Main.World) (n : nat) (st : Main.t) :
  (Main.my_cpu_zone st = None -> Main.my_hd_zone st = None ->
   Main.main_loop w n st
   = (Raise (SystemExit 8), st, [EvLog Log.LOG_ERROR TxtNoController]))
  /\ (Main.my_cpu_zone st <> None \/ Main.my_hd_zone st <> None ->
      exists wait,
        Main.main_loop w n st
        = (M.result (Main.loop w wait n 0 st),
           M.state (Main.loop w wait n 0 st),
           EvLog Log.LOG_DEBUG (TxtMainWait wait)
             :: M.trace (Main.loop w wait n 0 st))
        /\ (forall c, Main.my_cpu_zone st = Some c ->
                      (wait <= FanController.polling c / 2)%Q)
        /\ (forall h, Main.my_hd_zone st = Some h ->
                      (wait <= FanController.polling (HdZone.fan h) / 2)%Q)
        /\ ((exists c, Main.my_cpu_zone st = Some c
                       /\ wait = (FanController.polling c / 2)%Q)
            \/ (exists h, Main.my_hd_zone st = Some h
                          /\ wait = (FanController.polling (HdZone.fan h) / 2)%Q))).
Proof.
  unfold Main.main_loop, Main.wait_time, M.bind, M.get.
  destruct (Main.my_cpu_zone st) as [c|] eqn:C;
    destruct (Main.my_hd_zone st) as [h|] eqn:Hd.
  - split; [discriminate|]. intros _.
    exists (Py.min (FanController.polling c) (FanController.polling (HdZone.fan h)) / 2)%Q.
    cbn. destruct (Main.loop w _ n 0 st) as [[r s1] tr]. cbn.
    split; [reflexivity|].
    destruct (min_le (FanController.polling c) (FanController.polling (HdZone.fan h)))
      as [L1 L2].
    split; [intros c' E; injection E as <-; now apply half_le|].
    split; [intros h' E; injection E as <-; now apply half_le|].
    unfold Py.min. destruct (Qltb _ _).
    + right. exists h. split; reflexivity.
    + left. exists c. split; reflexivity.
  - split; [discriminate|]. intros _.
    exists (FanController.polling c / 2)%Q.
    cbn. destruct (Main.loop w _ n 0 st) as [[r s1] tr]. cbn.
    split; [reflexivity|].
    split; [intros c' E; injection E as <-; apply Qle_refl|].
    split; [discriminate|].
    left. exists c. split; reflexivity.
  - split; [discriminate|]. intros _.
    exists (FanController.polling (HdZone.fan h) / 2)%Q.
    cbn. destruct (Main.loop w _ n 0 st) as [[r s1] tr]. cbn.
    split; [reflexivity|].
    split; [discriminate|].
    split; [intros h' E; injection E as <-; apply Qle_refl|].
    right. exists h. split; reflexivity.
  - split; [reflexivity|]. intros [N|N]; congruence.
Qed.

Lemma main_loop_wait_time_witness :
  Main.main_loop SampleMain.steady 2 SampleMain.none
  = (Raise (SystemExit 8), SampleMain.none, [EvLog Log.LOG_ERROR TxtNoController])
  /\ exists wait,
      M.trace (Main.main_loop SampleMain.steady 2 SampleMain.both)
      = EvLog Log.LOG_DEBUG (TxtMainWait wait)
          :: M.trace (Main.loop SampleMain.steady wait 2 0 SampleMain.both)
      /\ (wait <= 2 / 2)%Q /\ (wait <= 10 / 2)%Q.
Proof.
  destruct (main_loop_wait_time SampleMain.steady 2 SampleMain.none) as [A _].
  split; [apply A; reflexivity|].
  destruct (main_loop_wait_time SampleMain.steady 2 SampleMain.both) as [_ B].
  destruct B as (wait & E & L1 & L2 & _); [left; discriminate|].
  exists wait. split; [rewrite E; reflexivity|].
  split.
  - exact (L1 Sample.cpu eq_refl).
  - exact (L2 Sample.hd eq_refl).
Defined.

(** ** The invariant of the zones *)


Lemma cpu_init_fresh (env : Env) (log : Log.t) (ipmi : Ipmi.t)
      (config : Config.section) (self : CpuZone.t) (u : unit) (tr : list event) :
  CpuZone.init env log ipmi config tt = (Ok self, u, tr) ->
  FanController.valid self /\ FanController.last_level self = 0.
Proof.
  intro E. unfold CpuZone.init in E.
  destruct (_ <=? 0); [discriminate|].
  split; [exact (init_valid _ _ _ _ _ _ _ _ _ _ _ _ _ _ _ _ _ _ _ _ E)|].
  apply init_ok in E.
  destruct E as (_ & _ & _ & _ & _ & _ & paths & _ & ->).
  reflexivity.
Qed.

Lemma hd_init_fresh (env : Env) (log : Log.t) (ipmi : Ipmi.t)
      (config : Config.section) (self : HdZone.t) (u : unit) (tr : list event) :
  HdZone.init env log ipmi config tt = (Ok self, u, tr) ->
  FanController.valid (HdZone.fan self)
  /\ FanController.last_level (HdZone.fan self) = 0.
Proof.
  intro E. unfold HdZone.init in E.
  destruct (_ <=? 0); [discriminate|].
  destruct (Config.hd_names config) as [names|]; [|discriminate].
  destruct (negb _); [discriminate|].
  apply bind_ok_inv in E. destruct E as (fc & u1 & tr1 & tr2 & E1 & E & ->).
  assert (Sfc : FanController.valid fc /\ FanController.last_level fc = 0).
  { split; [exact (init_valid _ _ _ _ _ _ _ _ _ _ _ _ _ _ _ _ _ _ _ _ E1)|].
    apply init_ok in E1.
    destruct E1 as (_ & _ & _ & _ & _ & _ & paths & _ & ->).
    reflexivity. }
  apply bind_ok_inv in E. destruct E as ([] & u2 & tr3 & tr4 & _ & E & ->).
  apply bind_ok_inv in E. destruct E as (s0 & u3 & tr5 & tr6 & E3 & E & ->).
  apply bind_ok_inv in E. destruct E as ([] & u4 & tr7 & tr8 & _ & E & ->).
  cbv [M.ret] in E. injection E as <- <- <-.
  destruct (if FanController.count fc =? 1 then false
            else Config.fallback (Config.standby_guard_enabled config) false).
  - destruct (_ <? 0); [discriminate|].
    destruct (_ <? _); [discriminate|].
    apply bind_ok_inv in E3.
    destruct E3 as ([n s1] & u5 & tr9 & tr10 & E5 & E3 & ->).
    cbv [M.ret] in E3. injection E3 as <- <- <-.
    unfold M.on in E5.
    match type of E5 with
    | context [HdZone.check_standby_state env ?s] =>
        destruct (check_standby_state_frames HdZone.fan (fun _ => true) env
                    (fun _ _ => eq_refl) s) as [K _];
        destruct (HdZone.check_standby_state env s) as [[[n'|e] s2] tr11];
        [|discriminate]
    end.
    injection E5 as <- <- <- <-.
    unfold M.state in K. cbn [fst snd] in K.
    cbn [HdZone.fan HdZone.set_standby_flag HdZone.set_standby_change_timestamp].
    rewrite K. exact Sfc.
  - cbv [M.ret] in E3. injection E3 as <- <- <-. exact Sfc.
Qed.

Section ZonesInvariant.

Import Main.





End ZonesInvariant.

(** X26. Construction establishes the invariant of the zones: a
    controller returned by [CpuZone.__init__] or [HdZone.__init__] has a
    valid configuration (steps >= 1, min_temp <= max_temp, min_level <=
    max_level, temp_step and level_step derived from them) and last
    level 0, and an HD zone returned with the standby guard on has one
    name and one flag per disk. *)
Theorem constructed_zones_sound (env_cpu env_hd : Env) (log : Log.t) (ipmi : Ipmi.t)
        (cpu_config hd_config : Config.section) (st : Main.t) :
  (forall c, Main.my_cpu_zone st = Some c ->
             exists u tr, CpuZone.init env_cpu log ipmi cpu_config tt = (Ok c, u, tr)) ->
  (forall h, Main.my_hd_zone st = Some h ->
             exists u tr, HdZone.init env_hd log ipmi hd_config tt = (Ok h, u, tr)) ->
  zones_sound st
  /\ (forall c, Main.my_cpu_zone st = Some c -> FanController.last_level c = 0)
  /\ (forall h, Main.my_hd_zone st = Some h ->
                FanController.last_level (HdZone.fan h) = 0).
Proof.
  intros Bc Bh. split; [split|split].
  - intros c E. destruct (Bc c E) as (u & tr & I).
    destruct (cpu_init_fresh _ _ _ _ _ _ _ I) as [V L].
    split; [exact V | left; exact L].
  - intros h E. destruct (Bh h E) as (u & tr & I). split.
    + destruct (hd_init_fresh _ _ _ _ _ _ _ I) as [V L].
      split; [exact V | left; exact L].
    + intro G. now destruct (hd_init_guard _ _ _ _ _ _ _ I G) as (_ & W & _).
  - intros c E. destruct (Bc c E) as (u & tr & I).
    now destruct (cpu_init_fresh _ _ _ _ _ _ _ I).
  - intros h E. destruct (Bh h E) as (u & tr & I).
    now destruct (hd_init_fresh _ _ _ _ _ _ _ I).
Qed.


Lemma constructed_zones_sound_witness :
  zones_sound SampleMain.both
  /\ FanController.last_level Sample.cpu = 0
  /\ FanController.last_level (HdZone.fan Sample.hd) = 0.
Proof.
  assert (Bc : forall c, Main.my_cpu_zone SampleMain.both = Some c ->
                 exists u tr,
                   CpuZone.init (Sample.env 100 45000) Sample.log Sample.ipmi
                     Sample.cpu_section tt = (Ok c, u, tr)).
  { intros c E. injection E as <-. exists tt, []. exact sample_cpu_built. }
  assert (Bh : forall h, Main.my_hd_zone SampleMain.both = Some h ->
                 exists u tr,
                   HdZone.init (Sample.env 100 35000) Sample.log Sample.ipmi
                     (Sample.hd_section 1) tt = (Ok h, u, tr)).
  { intros h E. injection E as <-. exists tt, []. exact sample_hd_built. }
  destruct (constructed_zones_sound (Sample.env 100 45000) (Sample.env 100 35000)
              Sample.log Sample.ipmi Sample.cpu_section (Sample.hd_section 1)
              SampleMain.both Bc Bh) as (Z & Lc & Lh).
  split; [exact Z|]. split.
  - exact (Lc Sample.cpu eq_refl).
  - exact (Lh Sample.hd eq_refl).
Defined.


(** ** What is printed *)

Lemma no_alarm_not_printed (log : Log.t) (tr : list event) :
  Log.log_level log <= Log.LOG_ERROR ->
  forallb no_alarm tr = true -> printed_lines log tr = [].
Proof.
  unfold Log.LOG_ERROR. intros L. unfold printed_lines.
  induction tr as [|e tr IH]; simpl; [reflexivity|].
  intro A. apply andb_prop in A. destruct A as [A1 A2].
  rewrite (IH A2).
  destruct e as [level text| | |]; try reflexivity.
  simpl in A1. unfold Log.printed.
  apply orb_prop in A1.
  replace (level <=? Log.log_level log) with false;
    [now rewrite andb_false_r|].
  symmetry. apply Z.leb_gt.
  destruct A1 as [A1|A1]; apply Z.eqb_eq in A1; lia.
Qed.

Lemma only_logs_no_alarm (tr : list event) :
  forallb is_info_or_debug tr = true -> forallb no_alarm tr = true.
Proof.
  rewrite !forallb_forall. intros F e I. specialize (F e I).
  destruct e; try discriminate. exact F.
Qed.

Lemma cpu_run_no_alarm (env : Env) :
  frames (fun _ : CpuZone.t => tt) no_alarm (run env).
Proof.
  unfold run, FanController.set_fan_level, Ipmi.set_fan_level.
  repeat (first [ apply (frames_ret (St := CpuZone.t)) | frame_step ]).
Qed.

Lemma hd_callback_no_alarm (env : Env) :
  frames (fun _ : HdZone.t => tt) no_alarm
    (@callback_func HdZone.t HdZone_Zone env).
Proof.
  change (frames (fun _ : HdZone.t => tt) no_alarm (HdZone.callback_func env)).
  unfold HdZone.callback_func, HdZone.run_standby_guard,
    HdZone.check_standby_state, HdZone.check_one,
    HdZone.go_standby_state, HdZone.standby_one.
  repeat (first [ apply assign_state_frames; reflexivity | frame_step ]).
Qed.

Lemma hd_run_no_alarm (env : Env) :
  frames (fun _ : HdZone.t => tt) no_alarm (run env).
Proof.
  unfold run, FanController.set_fan_level, Ipmi.set_fan_level.
  repeat (first [ apply hd_callback_no_alarm | frame_step ]).
Qed.

(** X28. At the default log level ERROR, and at NONE, normal operation
    prints nothing: no line logged by the construction of a zone or by
    a tick of the CPU zone or of the HD zone, standby guard included, is
    printed, whether the call returns or raises. *)
Theorem default_level_prints_nothing (env : Env) (log : Log.t) (ipmi : Ipmi.t)
        (config : Config.section) (c : CpuZone.t) (h : HdZone.t) :
  Log.log_level log <= Log.LOG_ERROR ->
  printed_lines log (M.trace (CpuZone.init env log ipmi config tt)) = []
  /\ printed_lines log (M.trace (HdZone.init env log ipmi config tt)) = []
  /\ printed_lines log (M.trace (run env c)) = []
  /\ printed_lines log (M.trace (run env h)) = [].
Proof.
  intro L.
  destruct (cpu_init_only_logs env log ipmi config tt) as [_ A].
  destruct (hd_init_only_logs env log ipmi config tt) as [_ B].
  destruct (cpu_run_no_alarm env c) as [_ C].
  destruct (hd_run_no_alarm env h) as [_ D].
  repeat split; apply (no_alarm_not_printed log _ L);
    auto using only_logs_no_alarm.
Qed.

Lemma default_level_prints_nothing_witness :
  Log.log_level Sample.log <= Log.LOG_ERROR
  /\ M.trace (run (Sample.env 100 45000) Sample.cpu) <> []
  /\ printed_lines Sample.log (M.trace (run (Sample.env 100 45000) Sample.cpu)) = []
  /\ printed_lines Sample.log (M.trace (run Sample.one_asleep Sample.hd)) = [].
Proof.
  assert (L : Log.log_level Sample.log <= Log.LOG_ERROR) by (vm_compute; congruence).
  split; [exact L|]. split; [vm_compute; congruence|].
  destruct (default_level_prints_nothing Sample.one_asleep Sample.log Sample.ipmi
              Sample.cpu_section Sample.cpu Sample.hd L) as (_ & _ & _ & D).
  destruct (default_level_prints_nothing (Sample.env 100 45000) Sample.log Sample.ipmi
              Sample.cpu_section Sample.cpu Sample.hd L) as (_ & _ & C & _).
  split; [exact C | exact D].
Defined.

Section TickTrace.

Context {St : Type} `{ZoneLaws St}.

Import FanController.

(** The events of a tick after those of the callback. *)
Lemma run_trace_form (env : Env) (s : St) :
  M.trace (run env s) = []
  \/ M.trace (run env s) = M.trace (callback_func env (polled env s))
  \/ (exists text,
        M.trace (run env s)
        = M.trace (callback_func env (polled env s))
          ++ [EvLog Log.LOG_DEBUG text])
  \/ (exists text l text',
        M.trace (run env s)
        = M.trace (callback_func env (polled env s))
          ++ [EvLog Log.LOG_DEBUG text;
              EvFanLevel (ipmi_zone (base s)) l;
              EvSleep (inject_Z (Ipmi.fan_level_delay (ipmi (base s))));
              EvLog Log.LOG_INFO text']).
Proof.
  destruct (Qlt_le_dec (monotonic env - last_time (base s)) (polling (base s)))
    as [Closed|Gate].
  { rewrite (run_gate_closed env s Closed). left. reflexivity. }
  right.
  destruct (callback_func env (polled env s)) as [[[[]|e] s2] trc] eqn:Cb;
    unfold M.trace; cbn [fst snd].
  2:{ rewrite (run_callback_failure env s s2 trc e Gate Cb). left. reflexivity. }
  destruct (call_get_temp_func env (base s)) as [temp|e] eqn:Read.
  2:{ rewrite (run_read_failure env s s2 trc e Gate Cb Read). left. reflexivity. }
  right.
  destruct (Qlt_le_dec (Qabs (temp - last_temp (base s))) (sensitivity (base s)))
    as [Near|Far].
  { rewrite (run_steady env s s2 trc temp Gate Cb Read Near).
    left. eexists. reflexivity. }
  destruct (gain_and_level (base s) temp) as [[g l]|e] eqn:Gain.
  2:{ rewrite (run_level_failure env s s2 trc temp e Gate Cb Read Far Gain).
      left. eexists. reflexivity. }
  destruct (Z.eq_dec l (last_level (base s))) as [Same|New].
  { subst l.
    rewrite (run_same_level env s s2 trc temp g Gate Cb Read Far Gain).
    left. eexists. reflexivity. }
  destruct (set_fan_level_outcome (St := St) env (base s) l) as [[e Wr]|[Wr _]].
  - rewrite (run_new_level env s s2 trc [] temp g l (Raise e)
               Gate Cb Read Far Gain New Wr).
    left. eexists. reflexivity.
  - rewrite (run_new_level env s s2 trc _ temp g l (Ok tt)
               Gate Cb Read Far Gain New Wr).
    right. do 3 eexists. reflexivity.
Qed.

End TickTrace.

(** X29. At log level INFO the CPU zone prints one line per fan-level
    command and no other: a tick prints nothing, or exactly the line
    that follows the command it has run. *)
Theorem cpu_info_line_per_command (env : Env) (log : Log.t) (c : CpuZone.t) :
  Log.log_level log = Log.LOG_INFO ->
  List.length (printed_lines log (M.trace (run env c)))
  = List.length (fan_writes (M.trace (run env c)))
  /\ (fan_writes (M.trace (run env c)) = [] ->
      printed_lines log (M.trace (run env c)) = [])
  /\ (fan_writes (M.trace (run env c)) <> [] ->
      exists text tr0,
        M.trace (run env c) = tr0 ++ [EvLog Log.LOG_INFO text]
        /\ printed_lines log (M.trace (run env c)) = [EvLog Log.LOG_INFO text]).
Proof.
  intro L.
  assert (P : forall text, printed_lines log [EvLog Log.LOG_DEBUG text] = []).
  { intro text. unfold printed_lines, Log.printed. cbn. now rewrite L. }
  destruct (run_trace_form (St := CpuZone.t) env c)
    as [E | [E | [(text & E) | (text & l & text' & E)]]];
    rewrite E; cbn [callback_func CpuZone_Zone CpuZone.callback_func M.ret
                      M.trace snd app].
  - repeat split; try reflexivity. intros N. now elim N.
  - repeat split; try reflexivity. intros N. now elim N.
  - rewrite P. repeat split; try reflexivity. intros N. now elim N.
  - assert (Q : printed_lines log
                  [EvLog Log.LOG_DEBUG text;
                   EvFanLevel (FanController.ipmi_zone (base c)) l;
                   EvSleep (inject_Z (Ipmi.fan_level_delay
                                        (FanController.ipmi (base c))));
                   EvLog Log.LOG_INFO text']
                = [EvLog Log.LOG_INFO text']).
    { unfold printed_lines, Log.printed. cbn. now rewrite L. }
    rewrite Q. split; [reflexivity|]. split; [discriminate|].
    intros _. exists text', [EvLog Log.LOG_DEBUG text;
                             EvFanLevel (FanController.ipmi_zone (base c)) l;
                             EvSleep (inject_Z (Ipmi.fan_level_delay
                                                  (FanController.ipmi (base c))))].
    split; reflexivity.
Qed.

Lemma cpu_info_line_per_command_witness :
  let log := {| Log.log_level := Log.LOG_INFO; Log.log_output := 2 |} in
  let tr := M.trace (run (Sample.env 100 45000) Sample.cpu) in
  Log.log_level log = Log.LOG_INFO
  /\ fan_writes tr = [EvFanLevel 0 67]
  /\ List.length (printed_lines log tr) = 1%nat
  /\ exists text tr0,
      tr = tr0 ++ [EvLog Log.LOG_INFO text]
      /\ printed_lines log tr = [EvLog Log.LOG_INFO text].
Proof.
  intros log tr. unfold tr. clear tr.
  assert (L : Log.log_level log = Log.LOG_INFO) by reflexivity.
  assert (W : fan_writes (M.trace (run (Sample.env 100 45000) Sample.cpu))
              = [EvFanLevel 0 67]) by (vm_compute; reflexivity).
  destruct (cpu_info_line_per_command (Sample.env 100 45000) log Sample.cpu L)
    as (N & _ & P).
  split; [exact L|]. split; [exact W|]. split.
  - exact (eq_trans N (f_equal (@List.length event) W)).
  - apply P. intro E.
    pose proof (eq_trans (eq_sym W) E) as F. discriminate F.
Defined.
